(** * AI virtual try-on: history state machine, prompt builders and
      generation client

    A shallow embedding of [App.tsx], [services/geminiService.ts] and
    [utils/fileUtils.ts].  JavaScript strings are sequences of UTF-16 code
    units, numbers that index the history are integers in [Z] (with [None]
    standing for [NaN] where [parseInt] can produce it), [null]/[undefined]
    are [None], and [throw]/[try]/[catch] are an explicit completion type
    threaded through a trace of the effects the code performs.  What the
    persisted history parses to at mount is any JavaScript value: the hook
    [useHistoryState] is written over an interface of such values and the
    operations it applies to them, of which the arrays of strings and the
    integers are the part the handlers of [App] work on.

    Handlers are taken one at a time, each to its end: while a generation
    is awaited the controls that start another one, undo and redo are
    disabled or not rendered.  Console output and markup are left out, the
    canvas work of the download helper is a parameter, and the module is
    assumed loaded, that is, the API key is set. *)

From Stdlib Require Import ZArith NArith List String Ascii Bool Lia.
From Stdlib Require DecimalPos DecimalZ.
Import ListNotations.

Local Open Scope Z_scope.
Local Open Scope list_scope.

(** ** JavaScript values used by the program *)

Module JS.

(** A JavaScript string: its UTF-16 code units. *)
Definition jsstring : Type := list N.

(** An ASCII source literal as a JavaScript string. *)
Definition lit (s : string) : jsstring :=
  map N_of_ascii (list_ascii_of_string s).

Definition nl : jsstring := [10%N].
Definition dq : jsstring := [34%N].

(** [s.length] of a string and [arr.length] of an array. *)
Definition length {A : Type} (s : list A) : Z := Z.of_nat (List.length s).

(** ToBoolean on a string: only the empty string is falsy. *)
Definition truthy (s : jsstring) : bool :=
  match s with [] => false | _ :: _ => true end.

(** ECMAScript WhiteSpace and LineTerminator code points, the characters
    removed by [String.prototype.trim] and skipped by [parseInt]. *)
Definition isWhiteSpace (c : N) : bool :=
  ((c =? 9) || (c =? 10) || (c =? 11) || (c =? 12) || (c =? 13) ||
   (c =? 32) || (c =? 160) || (c =? 5760) ||
   ((8192 <=? c) && (c <=? 8202)) ||
   (c =? 8232) || (c =? 8233) || (c =? 8239) || (c =? 8287) ||
   (c =? 12288) || (c =? 65279))%N.

Fixpoint trimStart (s : jsstring) : jsstring :=
  match s with
  | [] => []
  | c :: rest => if isWhiteSpace c then trimStart rest else s
  end.

Definition trimEnd (s : jsstring) : jsstring := rev (trimStart (rev s)).

(** [s.trim()] *)
Definition trim (s : jsstring) : jsstring := trimEnd (trimStart s).

Fixpoint startsWith (prefix s : jsstring) : bool :=
  match prefix, s with
  | [], _ => true
  | p :: prefix', c :: s' => (p =? c)%N && startsWith prefix' s'
  | _ :: _, [] => false
  end.

(** [a === b] on strings. *)
Fixpoint strictEquals (a b : jsstring) : bool :=
  match a, b with
  | [], [] => true
  | x :: a', y :: b' => (x =? y)%N && strictEquals a' b'
  | _, _ => false
  end.

(** [s.includes(needle)] *)
Fixpoint includes (needle s : jsstring) : bool :=
  startsWith needle s ||
  match s with
  | [] => false
  | _ :: s' => includes needle s'
  end.

(** [Array.prototype.slice(start, end)]: negative positions count from the
    end, and both positions are clamped to the array. *)
Definition slice {A : Type} (l : list A) (start end_ : Z) : list A :=
  let len := length l in
  let k := if start <? 0 then Z.max (len + start) 0 else Z.min start len in
  let final := if end_ <? 0 then Z.max (len + end_) 0 else Z.min end_ len in
  firstn (Z.to_nat (Z.max (final - k) 0)) (skipn (Z.to_nat k) l).

(** [Array.prototype.push] of one element, as the new array. *)
Definition push {A : Type} (l : list A) (x : A) : list A := l ++ [x].

(** [arr[i] ?? null] for a numeric index: [None] outside the array. *)
Definition lookup {A : Type} (l : list A) (i : Z) : option A :=
  if i <? 0 then None else nth_error l (Z.to_nat i).

(** Decimal digit value of a code unit. *)
Definition digit (c : N) : option Z :=
  if ((48 <=? c) && (c <=? 57))%N then Some (Z.of_N c - 48) else None.

Fixpoint digits (acc : Z) (s : jsstring) : Z :=
  match s with
  | [] => acc
  | c :: rest =>
      match digit c with
      | Some d => digits (10 * acc + d) rest
      | None => acc
      end
  end.

(** [parseInt(s, 10)]: skip leading white space, read an optional sign and
    the longest run of decimal digits; [None] is [NaN] (no digit).  The
    rounding of integers beyond 2^53 to a double is not represented: such
    values are far outside every array. *)
Definition parseInt10 (s : jsstring) : option Z :=
  let s1 := trimStart s in
  let '(sign, s2) :=
    match s1 with
    | c :: rest =>
        if (c =? 45)%N then (-1, rest)
        else if (c =? 43)%N then (1, rest)
        else (1, s1)
    | [] => (1, s1)
    end in
  match s2 with
  | c :: _ =>
      match digit c with
      | Some _ => Some (sign * digits 0 s2)
      | None => None
      end
  | [] => None
  end.

(** Line terminators: the code units [.] does not match in a regular
    expression. *)
Definition isLineTerminator (c : N) : bool :=
  ((c =? 10) || (c =? 13) || (c =? 8232) || (c =? 8233))%N.

(** [s.split(sep)] for a separator of one code unit. *)
Fixpoint split (sep : N) (s : jsstring) : list jsstring :=
  match s with
  | [] => [[]]
  | c :: rest =>
      if (c =? sep)%N then [] :: split sep rest
      else
        match split sep rest with
        | segment :: segments => (c :: segment) :: segments
        | [] => [[c]]
        end
  end.

(** [s.replace(/\s+/g, replacement)]: every maximal run of white space
    becomes one replacement.  [inRun] tells that the previous code unit was
    white space. *)
Fixpoint replaceWhiteSpaceRuns (replacement : jsstring) (inRun : bool)
    (s : jsstring) : jsstring :=
  match s with
  | [] => []
  | c :: rest =>
      if isWhiteSpace c then
        if inRun then replaceWhiteSpaceRuns replacement true rest
        else replacement ++ replaceWhiteSpaceRuns replacement true rest
      else c :: replaceWhiteSpaceRuns replacement false rest
  end.

(** The code units of a decimal numeral. *)
Fixpoint numeral (d : Decimal.uint) : jsstring :=
  match d with
  | Decimal.Nil => []
  | Decimal.D0 d' => 48%N :: numeral d'
  | Decimal.D1 d' => 49%N :: numeral d'
  | Decimal.D2 d' => 50%N :: numeral d'
  | Decimal.D3 d' => 51%N :: numeral d'
  | Decimal.D4 d' => 52%N :: numeral d'
  | Decimal.D5 d' => 53%N :: numeral d'
  | Decimal.D6 d' => 54%N :: numeral d'
  | Decimal.D7 d' => 55%N :: numeral d'
  | Decimal.D8 d' => 56%N :: numeral d'
  | Decimal.D9 d' => 57%N :: numeral d'
  end.

(** [String(n)] for an integer [n]: its decimal numeral, with a minus sign
    when negative.  (The exponent form JavaScript switches to from 1e21 on
    is not represented.) *)
Definition String_of_integer (n : Z) : jsstring :=
  match Z.to_int n with
  | Decimal.Pos d => numeral d
  | Decimal.Neg d => 45%N :: numeral d
  end.

(** What a [throw] carries: an [Error] object with its message, or any
    other value. *)
Inductive Thrown : Type :=
| ErrorObject (message : jsstring)
| OtherValue.

(** The completion of an evaluation: a value or a [throw]. *)
Inductive Completion (A : Type) : Type :=
| Normal (a : A)
| Throw (e : Thrown).

Arguments Normal {A} a.
Arguments Throw {A} e.

(** The values a stored text can parse to, with the operations
    [useHistoryState] applies to them.  [JSON.parse] yields any JSON value:
    [null], a boolean, a number, a string, an array or an object; nothing
    in the hook tests which one it got, so its state holds values of this
    type.  The arrays of strings and the numbers that are integers or
    [NaN] are embedded by [arrayOf] and [numberOf]; on them the operations
    are fixed by the four laws.  On every other value they are what
    JavaScript makes of them: [lengthOf] is the property access [.length]
    (a [TypeError] on [null], [undefined] on a number), [lessThan] and
    [subtract] convert their operand to a number first and throw when the
    conversion does.  (The rounding of numbers beyond 2^53 is not
    represented.) *)
Record Runtime : Type := {
  Value : Type;
  (** [JSON.parse(text)] *)
  JSON_parse : jsstring -> Completion Value;
  (** an array of strings *)
  arrayOf : list jsstring -> Value;
  (** an integer, or [NaN] *)
  numberOf : option Z -> Value;
  (** [v.length] *)
  lengthOf : Value -> Completion Value;
  (** [a === b] *)
  strictlyEqual : Value -> Value -> bool;
  (** [n < v] for a number [n] *)
  lessThan : option Z -> Value -> Completion bool;
  (** [v - n] for a number [n] *)
  subtract : Value -> option Z -> Completion Value;
  lengthOf_array : forall entries,
    lengthOf (arrayOf entries) = Normal (numberOf (Some (length entries)));
  strictlyEqual_numbers : forall a b,
    strictlyEqual (numberOf a) (numberOf b) =
    match a, b with
    | Some x, Some y => x =? y
    | _, _ => false
    end;
  lessThan_number : forall a b,
    lessThan a (numberOf b) =
    Normal match a, b with
           | Some x, Some y => x <? y
           | _, _ => false
           end;
  subtract_number : forall a b,
    subtract (numberOf a) b =
    Normal (numberOf match a, b with
                     | Some x, Some y => Some (x - y)
                     | _, _ => None
                     end)
}.

End JS.

Import JS.

(** ** [utils/fileUtils.ts] *)

Module FileUtils.

Record Base64File : Type := {
  base64 : jsstring;
  mimeType : jsstring
}.

(** How [FileReader.readAsDataURL] ends for a file: [onload] with a string
    in [reader.result], [onload] with something else, or [onerror] with
    its event. *)
Inductive ReadOutcome : Type :=
| LoadedString (result : jsstring)
| LoadedOther
| ReadFailed (error : Thrown).

(** A [File]: its [type] and what reading it as a data URL ends with. *)
Record File : Type := {
  type : jsstring;
  readAsDataURL : ReadOutcome
}.

(** The group [(.*?)] followed by [;]: the code units up to the first
    [;], none of which is a line terminator. *)
Fixpoint upToSemicolon (s : jsstring) : option jsstring :=
  match s with
  | [] => None
  | c :: rest =>
      if (c =? 59)%N then Some []
      else if isLineTerminator c then None
      else option_map (cons c) (upToSemicolon rest)
  end.

(** [header.match(/:(.*?);/)?.[1]]: the group of the leftmost match. *)
Fixpoint matchMimeType (header : jsstring) : option jsstring :=
  match header with
  | [] => None
  | c :: rest =>
      if (c =? 58)%N then
        match upToSemicolon rest with
        | Some group => Some group
        | None => matchMimeType rest
        end
      else matchMimeType rest
  end.

Definition falsy (s : option jsstring) : bool :=
  match s with
  | Some text => negb (truthy text)
  | None => true
  end.

(** Lines 6-24: the promise of [fileToBase64] settles with a file
    ([Normal]) or rejects ([Throw]). *)
Definition fileToBase64 (file : File) : Completion Base64File :=
  match readAsDataURL file with
  | LoadedString result =>
      let segments := split 44 result in
      let header := nth_error segments 0 in
      let data := nth_error segments 1 in
      match header, data with
      | Some header', Some data' =>
          if falsy header || falsy data then
            Throw (ErrorObject (lit "Invalid data URL format."))
          else
            let mimeType :=
              match matchMimeType header' with
              | Some group =>
                  if truthy group then group
                  else lit "application/octet-stream"
              | None => lit "application/octet-stream"
              end in
            Normal {| base64 := data'; mimeType := mimeType |}
      | _, _ => Throw (ErrorObject (lit "Invalid data URL format."))
      end
  | LoadedOther =>
      Throw (ErrorObject (lit "Failed to read file as a data URL."))
  | ReadFailed error => Throw error
  end.

End FileUtils.

(** ** [components/ImageUploader.tsx] *)

Module ImageUploader.

Import FileUtils.

(** Line 376: [previewUrl]. *)
Definition previewUrl (image : option Base64File) : option jsstring :=
  match image with
  | Some image' =>
      Some (lit "data:" ++ mimeType image' ++ lit ";base64," ++ base64 image')
  | None => None
  end.

(** The [id] of the file input and the [htmlFor] of its label. *)
Definition inputId (title : jsstring) : jsstring :=
  lit "file-upload-" ++ replaceWhiteSpaceRuns (lit "-") false title.

(** What a handler does with [onImageChange]: nothing, or one call with
    its argument. *)
Definition Change : Type := option (option Base64File).

(** Lines 381-387 and 403-409: convert, and report [null] on failure. *)
Definition convert (file : File) : Change :=
  match fileToBase64 file with
  | Normal base64File => Some (Some base64File)
  | Throw error => Some None
  end.

(** Lines 378-389; [file] is [event.target.files?.[0]]. *)
Definition handleFileChange (file : option File) : Change :=
  match file with
  | Some file' => convert file'
  | None => None
  end.

(** Lines 391-396. *)
Definition handleClear : Change := Some None.

(** Lines 398-411; [file] is [event.dataTransfer.files?.[0]]. *)
Definition handleDrop (file : option File) : Change :=
  match file with
  | Some file' =>
      if startsWith (lit "image/") (type file') then convert file' else None
  | None => None
  end.

End ImageUploader.

(** ** [utils/imageChanger.ts] *)

Module ImageChanger.

Record DownloadImageOptions : Type := {
  imageUrl : jsstring;
  filter : jsstring;
  filename : jsstring
}.

Section DownloadImage.

(** Lines 474-510: loading the image, drawing it on a canvas with the
    filter and clicking the link, as what the promise settles with. *)
Variable renderAndSave : DownloadImageOptions -> Completion unit.

(** Lines 468-512. *)
Definition downloadImage (options : DownloadImageOptions) : Completion unit :=
  if negb (truthy (imageUrl options)) then
    Throw (ErrorObject (lit "No image URL provided for download."))
  else renderAndSave options.

End DownloadImage.

End ImageChanger.

(** ** [services/geminiService.ts] *)

Module GeminiService.

Import FileUtils.

Inductive FitAdjustment : Type := default | tighter | looser.

Definition FitAdjustment_eqb (a b : FitAdjustment) : bool :=
  match a, b with
  | default, default | tighter, tighter | looser, looser => true
  | _, _ => false
  end.

(** Inline binary content of a part. *)
Record Blob : Type := {
  data : jsstring;
  blob_mimeType : jsstring
}.

(** A request part: the union
    [{ inlineData: { data, mimeType } } | { text }]. *)
Inductive Part : Type :=
| InlineDataPart (inlineData : Blob)
| TextPart (text : jsstring).

Inductive Modality : Type := IMAGE.

Record GenerateContentParameters : Type := {
  model : jsstring;
  contents_parts : list Part;
  responseModalities : list Modality
}.

(** The response, with the optional fields the code reads through [?.]. *)
Record ResponsePart : Type := {
  inlineData : option Blob;
  text : option jsstring
}.

Record Content : Type := { parts : option (list ResponsePart) }.
Record Candidate : Type := { content : option Content }.
Record GenerateContentResponse : Type := {
  candidates : option (list Candidate)
}.

(** Which exported operation was entered, with its arguments. *)
Inductive Invocation : Type :=
| DressModel (modelImage clothingImage : Base64File)
    (fit : FitAdjustment) (backgroundPrompt : jsstring)
| ChangeBackground (sourceImage : Base64File) (backgroundPrompt : jsstring)
    (backgroundImage : option Base64File).

(** The effects the service performs, in order: entering an exported
    operation, and sending one request to the remote model. *)
Inductive Effect : Type :=
| Invoked (call : Invocation)
| Requested (request : GenerateContentParameters).

Definition World : Type := list Effect.

(** Computations that may throw and that extend the trace. *)
Definition M (A : Type) : Type := World -> Completion A * World.

Definition ret {A : Type} (a : A) : M A := fun w => (Normal a, w).

Definition throw {A : Type} (e : Thrown) : M A := fun w => (Throw e, w).

Definition bind {A B : Type} (c : M A) (k : A -> M B) : M B :=
  fun w =>
    match c w with
    | (Normal a, w') => k a w'
    | (Throw e, w') => (Throw e, w')
    end.

(** [try { body } catch (error) { handler }] *)
Definition tryCatch {A : Type} (body : M A) (handler : Thrown -> M A) : M A :=
  fun w =>
    match body w with
    | (Normal a, w') => (Normal a, w')
    | (Throw e, w') => handler e w'
    end.

Definition emit (e : Effect) : M unit := fun w => (Normal tt, w ++ [e]).

#[local] Notation "x <- c ;; k" := (bind c (fun x => k))
  (at level 61, c at next level, right associativity).
#[local] Notation "c ;;; k" := (bind c (fun _ => k))
  (at level 61, right associativity).

(** The requests sent to the remote model so far. *)
Fixpoint requestsOf (w : World) : list GenerateContentParameters :=
  match w with
  | [] => []
  | Requested r :: w' => r :: requestsOf w'
  | Invoked _ :: w' => requestsOf w'
  end.

(** [response.candidates?.[0]?.content?.parts?.find(part => part.inlineData)] *)
Definition findImagePart (response : GenerateContentResponse)
  : option ResponsePart :=
  match candidates response with
  | None => None
  | Some cs =>
      match nth_error cs 0 with
      | None => None
      | Some c =>
          match content c with
          | None => None
          | Some ct =>
              match parts ct with
              | None => None
              | Some ps =>
                  find (fun part =>
                          match inlineData part with
                          | Some _ => true
                          | None => false
                          end) ps
              end
          end
      end
  end.

Definition inlineOf (f : Base64File) : Part :=
  InlineDataPart {| data := base64 f; blob_mimeType := mimeType f |}.

(** Template text of [dressModel] before the background slot. *)
Definition dressModel_prompt_head : jsstring :=
  nl ++
  lit "      You are an expert photorealistic virtual stylist. Your primary goal is to create a final image that is indistinguishable from a real photograph." ++ nl ++
  nl ++
  lit "      Your task is to seamlessly dress the person from the first image (the model) with the clothes from the second image (the outfit)." ++ nl ++
  nl ++
  lit "      **Core Instructions:**" ++ nl ++
  lit "      1.  **Preserve Realism:** The final output **must** look like a real photograph, not an AI generation. Avoid any " ++ dq ++ lit "airbrushed" ++ dq ++ lit " or overly smooth AI look." ++ nl ++
  lit "      2.  **Model & Background Integrity:** The person's pose, facial expression, body shape, and skin tone from the first image must be preserved perfectly. Do not alter the model in any way. ".

(** Template text between the background slot and the fit slot. *)
Definition dressModel_prompt_mid : jsstring :=
  nl ++
  lit "      3.  **Outfit Integration:**" ++ nl ++
  lit "          *   Identify the complete outfit from the second image." ++ nl ++
  lit "          *   Realistically transfer this outfit onto the person in the first image." ++ nl ++
  lit "          *   **Crucially, the clothing must conform naturally to the person's body and pose.** Pay close attention to how fabric would drape, fold, and crease in reality." ++ nl ++
  lit "          *   ".

(** Template text after the fit slot. *)
Definition dressModel_prompt_tail : jsstring :=
  nl ++
  lit "      4.  **Lighting and Shadows:** The lighting on the new clothes (shadows, highlights) must perfectly match the lighting conditions of the original model's photo and the new background (if any). This is key to making the image look real." ++ nl ++
  lit "      5.  **Texture and Detail:** Maintain the original texture and details of the fabric from the clothing image." ++ nl ++
  lit "      6.  **Seamless Edges:** Ensure the edges where the clothing meets the person's skin or the background are clean and perfectly blended." ++ nl ++
  lit "      7.  **Final Output:** The result must be a high-quality, photorealistic image with no added text, watermarks, or any other artifacts." ++ nl ++
  lit "    ".

(** Case 1 template of [changeBackground] before the additional-instructions slot. *)
Definition imagePrompt_head : jsstring :=
  nl ++
  lit "                You are a photorealistic image editing expert. Your goal is to create a final image that is indistinguishable from a real photograph." ++ nl ++
  nl ++
  lit "                Your task is to replace the background of the first image (the source) with the second image (the new background)." ++ nl ++
  nl ++
  lit "                **Core Instructions:**" ++ nl ++
  lit "                1.  **Preserve Subject:** The main subject (person, object, animal) in the foreground of the source image **must be perfectly preserved**. Do not alter its appearance, pose, lighting, or details in any way." ++ nl ++
  lit "                2.  **Use New Background:** Use the second image as the new background for the subject from the first image." ++ nl ++
  lit "                3.  **Seamless Integration:** The new background must blend seamlessly with the foreground subject. The lighting, shadows, and perspective of the new background must be adjusted to perfectly match the original subject to create a cohesive and realistic final image." ++ nl ++
  lit "                4.  **Additional Instructions:** ".

(** Case 1 template after the additional-instructions slot. *)
Definition imagePrompt_tail : jsstring :=
  nl ++
  lit "                5.  **Clean Edges:** Ensure the edges around the subject are clean and natural, with no " ++ dq ++ lit "cut-out" ++ dq ++ lit " or artificial look. Pay special attention to hair or fine details." ++ nl ++
  lit "                6.  **Final Output:** The result must be a high-quality, photorealistic image with no added text, watermarks, or any other artifacts." ++ nl ++
  lit "            ".

(** Case 2 template of [changeBackground] before the description slot. *)
Definition textPrompt_head : jsstring :=
  nl ++
  lit "                You are a photorealistic image editing expert. Your goal is to create a final image that is indistinguishable from a real photograph." ++ nl ++
  nl ++
  lit "                Your task is to replace the background of the provided image with a new one based on the user's description, while leaving the foreground subject completely untouched." ++ nl ++
  nl ++
  lit "                **Core Instructions:**" ++ nl ++
  lit "                1.  **Preserve Subject:** The main subject (person, object, animal) in the foreground of the image **must be perfectly preserved**. Do not alter its appearance, pose, lighting, or details in any way." ++ nl ++
  lit "                2.  **Identify Background:** Accurately identify and isolate the entire background from the foreground subject." ++ nl ++
  lit "                3.  **Generate New Background:** Generate a new, photorealistic background based on this description: " ++ dq.

(** Case 2 template after the description slot. *)
Definition textPrompt_tail : jsstring :=
  dq ++ lit "." ++ nl ++
  lit "                4.  **Seamless Integration:** The new background must blend seamlessly with the foreground subject. The lighting, shadows, and perspective of the new background must perfectly match the original subject to create a cohesive and realistic final image." ++ nl ++
  lit "                5.  **Clean Edges:** Ensure the edges around the subject are clean and natural, with no " ++ dq ++ lit "cut-out" ++ dq ++ lit " or artificial look. Pay special attention to hair or fine details." ++ nl ++
  lit "                6.  **Final Output:** The result must be a high-quality, photorealistic image with no added text, watermarks, or any other artifacts." ++ nl ++
  lit "            ".

(** *** Prompt builders *)

(** [dressModel], lines 23-28: the fit clause. *)
Definition fitInstruction (fit : FitAdjustment) : jsstring :=
  let fitInstruction := [] in
  if FitAdjustment_eqb fit tighter then
    lit "The clothing should be adjusted to have a tighter, more form-fitting appearance on the model."
  else if FitAdjustment_eqb fit looser then
    lit "The clothing should be adjusted to have a looser, more relaxed, and comfortable fit on the model."
  else fitInstruction.

(** [dressModel], lines 30-33: the background clause. *)
Definition backgroundInstruction (backgroundPrompt : jsstring) : jsstring :=
  let backgroundInstruction :=
    lit "The original background from the first image must be preserved perfectly." in
  if truthy backgroundPrompt && (JS.length (trim backgroundPrompt) >? 0) then
    lit "The original background must be replaced with a new one described as: "
      ++ dq ++ backgroundPrompt ++ dq ++
    lit ". The new background should be photorealistic and blend seamlessly with the model."
  else backgroundInstruction.

(** [dressModel], lines 36-53: the instruction text. *)
Definition dressModel_prompt (fit : FitAdjustment) (backgroundPrompt : jsstring)
  : jsstring :=
  dressModel_prompt_head ++ backgroundInstruction backgroundPrompt ++
  dressModel_prompt_mid ++ fitInstruction fit ++ dressModel_prompt_tail.

(** [changeBackground], lines 106-156: the ordered parts of the request. *)
Definition changeBackground_parts (sourceImage : Base64File)
    (backgroundPrompt : jsstring) (backgroundImage : option Base64File)
  : list Part :=
  let parts := [] in
  let parts := push parts (inlineOf sourceImage) in
  let '(parts, prompt) :=
    match backgroundImage with
    | Some bg =>
        (push parts (inlineOf bg),
         imagePrompt_head ++
         (if truthy backgroundPrompt then
            lit "Follow these additional user instructions for blending: "
              ++ dq ++ backgroundPrompt ++ dq
          else lit "Ensure the composition is natural and believable.") ++
         imagePrompt_tail)
    | None =>
        (parts, textPrompt_head ++ backgroundPrompt ++ textPrompt_tail)
    end in
  push parts (TextPart prompt).

(** *** The two exported operations *)

Section Client.

(** The remote model reached through [ai.models.generateContent]: from the
    effects so far and the request, the awaited call either rejects or
    resolves with a response. *)
Variable remote :
  World -> GenerateContentParameters -> Completion GenerateContentResponse.

Definition generateContent (request : GenerateContentParameters)
  : M GenerateContentResponse :=
  fun w => (remote w request, w ++ [Requested request]).

Definition dressModel (modelImage clothingImage : Base64File)
    (fit : FitAdjustment) (backgroundPrompt : jsstring) : M jsstring :=
  emit (Invoked (DressModel modelImage clothingImage fit backgroundPrompt)) ;;;
  tryCatch
    (let model := lit "gemini-2.5-flash-image" in
     let prompt := dressModel_prompt fit backgroundPrompt in
     let modelImagePart := inlineOf modelImage in
     let clothingImagePart := inlineOf clothingImage in
     let textPart := TextPart prompt in
     response <- generateContent
       {| model := model;
          contents_parts := [modelImagePart; clothingImagePart; textPart];
          responseModalities := [IMAGE] |} ;;
     let imagePart := findImagePart response in
     match imagePart with
     | Some part =>
         match inlineData part with
         | Some blob => ret (data blob)
         | None => throw (ErrorObject (lit "AI failed to generate an image. Please try again with different images."))
         end
     | None => throw (ErrorObject (lit "AI failed to generate an image. Please try again with different images."))
     end)
    (fun error =>
       throw (ErrorObject
         (lit "Failed to generate image from AI. The model may have refused to process the request. Check your images and try again."))).

Definition changeBackground (sourceImage : Base64File)
    (backgroundPrompt : jsstring) (backgroundImage : option Base64File)
  : M jsstring :=
  emit (Invoked (ChangeBackground sourceImage backgroundPrompt backgroundImage)) ;;;
  if (negb (truthy backgroundPrompt) || (JS.length (trim backgroundPrompt) =? 0))
     && match backgroundImage with None => true | Some _ => false end
  then
    throw (ErrorObject
      (lit "A background description or a background image is required."))
  else
    tryCatch
      (let model := lit "gemini-2.5-flash-image" in
       let parts :=
         changeBackground_parts sourceImage backgroundPrompt backgroundImage in
       response <- generateContent
         {| model := model;
            contents_parts := parts;
            responseModalities := [IMAGE] |} ;;
       let imagePart := findImagePart response in
       match imagePart with
       | Some part =>
           match inlineData part with
           | Some blob => ret (data blob)
           | None => throw (ErrorObject (lit "AI failed to generate an image. Please try again with a different image or prompt."))
           end
       | None => throw (ErrorObject (lit "AI failed to generate an image. Please try again with a different image or prompt."))
       end)
      (fun error =>
         throw (ErrorObject
           (lit "Failed to change background from AI. The model may have refused to process the request. Check your image and try again."))).

End Client.

End GeminiService.

(** ** [App.tsx] *)

Module App.

Import FileUtils GeminiService.

Inductive AppMode : Type := tryon | background.

Definition TRYON_HISTORY_KEY : jsstring := lit "virtual-tryon-history".
Definition TRYON_HISTORY_INDEX_KEY : jsstring := lit "virtual-tryon-history-index".
Definition BG_HISTORY_KEY : jsstring := lit "background-changer-history".
Definition BG_HISTORY_INDEX_KEY : jsstring := lit "background-changer-history-index".

(** *** [useHistoryState]: rehydration from [localStorage] *)

(** [localStorage.getItem]: the stored text of a key, [None] for [null]. *)
Definition Storage : Type := jsstring -> option jsstring.

(** A [try { ... } catch { ... }] whose two branches return a value. *)
Definition tryReturn {A : Type} (body : Completion A) (handler : Thrown -> A)
  : A :=
  match body with
  | Normal a => a
  | Throw e => handler e
  end.

Section UseHistoryState.

(** The values of the page and their operations.  The hook declares its
    state as [string[]] and [number], but what it stores is whatever
    [JSON.parse] returned and whatever the arithmetic on its [.length]
    gave. *)
Variable rt : Runtime.

(** Lines 31-38: the initial value of [history]. *)
Definition initialHistory (storage : Storage) (historyKey : jsstring)
  : Value rt :=
  tryReturn
    (let savedHistory := storage historyKey in
     match savedHistory with
     | Some text =>
         if truthy text then JSON_parse rt text else Normal (arrayOf rt [])
     | None => Normal (arrayOf rt [])
     end)
    (fun _ => arrayOf rt []).

(** Lines 40-57: the initial value of [historyIndex].  [savedIndex] is a
    number in every case ([parseInt] or the literal -1), so its test
    against 0 is decided here; [&&] evaluates its right operand only when
    the left one holds. *)
Definition initialHistoryIndex (storage : Storage)
    (historyKey indexKey : jsstring) : Value rt :=
  tryReturn
    (let savedHistoryRaw := storage historyKey in
     let historyLength :=
       match savedHistoryRaw with
       | Some text =>
           if truthy text then
             match JSON_parse rt text with
             | Normal parsed => lengthOf rt parsed
             | Throw e => Throw e
             end
           else Normal (numberOf rt (Some 0))
       | None => Normal (numberOf rt (Some 0))
       end in
     match historyLength with
     | Throw e => Throw e
     | Normal historyLength =>
         if strictlyEqual rt historyLength (numberOf rt (Some 0))
         then Normal (numberOf rt (Some (-1)))
         else
           let savedIndexRaw := storage indexKey in
           let savedIndex :=
             match savedIndexRaw with
             | Some text => if truthy text then parseInt10 text else Some (-1)
             | None => Some (-1)
             end in
           let notNegative :=
             match savedIndex with
             | Some i => i >=? 0
             | None => false
             end in
           match
             (if notNegative then lessThan rt savedIndex historyLength
              else Normal false)
           with
           | Throw e => Throw e
           | Normal true => Normal (numberOf rt savedIndex)
           | Normal false => subtract rt historyLength (Some 1)
           end
     end)
    (fun e => numberOf rt (Some (-1))).

(** The [history] and [historyIndex] the hook starts with. *)
Definition useHistoryState (storage : Storage) (historyKey indexKey : jsstring)
  : Value rt * Value rt :=
  (initialHistory storage historyKey,
   initialHistoryIndex storage historyKey indexKey).

End UseHistoryState.

(** The component state of [App]: one [useState] cell per field. *)
Record AppState : Type := {
  mode : AppMode;
  modelImage : option Base64File;
  clothingImage : option Base64File;
  isTryOnLoading : bool;
  tryOnError : option jsstring;
  tryOnBackgroundPrompt : jsstring;
  tryOnHistory : list jsstring;
  tryOnHistoryIndex : Z;
  sourceImage : option Base64File;
  backgroundImage : option Base64File;
  isBgChangeLoading : bool;
  bgChangeError : option jsstring;
  bgChangePrompt : jsstring;
  bgHistory : list jsstring;
  bgHistoryIndex : Z;
  activeFilter : jsstring
}.

(** The state setters returned by [useState] and [useHistoryState]. *)
Definition setMode (v : AppMode) (s : AppState) : AppState :=
  {| mode := v; modelImage := modelImage s; clothingImage := clothingImage s;
     isTryOnLoading := isTryOnLoading s; tryOnError := tryOnError s; tryOnBackgroundPrompt := tryOnBackgroundPrompt s;
     tryOnHistory := tryOnHistory s; tryOnHistoryIndex := tryOnHistoryIndex s; sourceImage := sourceImage s;
     backgroundImage := backgroundImage s; isBgChangeLoading := isBgChangeLoading s; bgChangeError := bgChangeError s;
     bgChangePrompt := bgChangePrompt s; bgHistory := bgHistory s; bgHistoryIndex := bgHistoryIndex s;
     activeFilter := activeFilter s |}.

Definition setModelImage (v : option Base64File) (s : AppState) : AppState :=
  {| mode := mode s; modelImage := v; clothingImage := clothingImage s;
     isTryOnLoading := isTryOnLoading s; tryOnError := tryOnError s; tryOnBackgroundPrompt := tryOnBackgroundPrompt s;
     tryOnHistory := tryOnHistory s; tryOnHistoryIndex := tryOnHistoryIndex s; sourceImage := sourceImage s;
     backgroundImage := backgroundImage s; isBgChangeLoading := isBgChangeLoading s; bgChangeError := bgChangeError s;
     bgChangePrompt := bgChangePrompt s; bgHistory := bgHistory s; bgHistoryIndex := bgHistoryIndex s;
     activeFilter := activeFilter s |}.

Definition setClothingImage (v : option Base64File) (s : AppState) : AppState :=
  {| mode := mode s; modelImage := modelImage s; clothingImage := v;
     isTryOnLoading := isTryOnLoading s; tryOnError := tryOnError s; tryOnBackgroundPrompt := tryOnBackgroundPrompt s;
     tryOnHistory := tryOnHistory s; tryOnHistoryIndex := tryOnHistoryIndex s; sourceImage := sourceImage s;
     backgroundImage := backgroundImage s; isBgChangeLoading := isBgChangeLoading s; bgChangeError := bgChangeError s;
     bgChangePrompt := bgChangePrompt s; bgHistory := bgHistory s; bgHistoryIndex := bgHistoryIndex s;
     activeFilter := activeFilter s |}.

Definition setIsTryOnLoading (v : bool) (s : AppState) : AppState :=
  {| mode := mode s; modelImage := modelImage s; clothingImage := clothingImage s;
     isTryOnLoading := v; tryOnError := tryOnError s; tryOnBackgroundPrompt := tryOnBackgroundPrompt s;
     tryOnHistory := tryOnHistory s; tryOnHistoryIndex := tryOnHistoryIndex s; sourceImage := sourceImage s;
     backgroundImage := backgroundImage s; isBgChangeLoading := isBgChangeLoading s; bgChangeError := bgChangeError s;
     bgChangePrompt := bgChangePrompt s; bgHistory := bgHistory s; bgHistoryIndex := bgHistoryIndex s;
     activeFilter := activeFilter s |}.

Definition setTryOnError (v : option jsstring) (s : AppState) : AppState :=
  {| mode := mode s; modelImage := modelImage s; clothingImage := clothingImage s;
     isTryOnLoading := isTryOnLoading s; tryOnError := v; tryOnBackgroundPrompt := tryOnBackgroundPrompt s;
     tryOnHistory := tryOnHistory s; tryOnHistoryIndex := tryOnHistoryIndex s; sourceImage := sourceImage s;
     backgroundImage := backgroundImage s; isBgChangeLoading := isBgChangeLoading s; bgChangeError := bgChangeError s;
     bgChangePrompt := bgChangePrompt s; bgHistory := bgHistory s; bgHistoryIndex := bgHistoryIndex s;
     activeFilter := activeFilter s |}.

Definition setTryOnBackgroundPrompt (v : jsstring) (s : AppState) : AppState :=
  {| mode := mode s; modelImage := modelImage s; clothingImage := clothingImage s;
     isTryOnLoading := isTryOnLoading s; tryOnError := tryOnError s; tryOnBackgroundPrompt := v;
     tryOnHistory := tryOnHistory s; tryOnHistoryIndex := tryOnHistoryIndex s; sourceImage := sourceImage s;
     backgroundImage := backgroundImage s; isBgChangeLoading := isBgChangeLoading s; bgChangeError := bgChangeError s;
     bgChangePrompt := bgChangePrompt s; bgHistory := bgHistory s; bgHistoryIndex := bgHistoryIndex s;
     activeFilter := activeFilter s |}.

Definition setTryOnHistory (v : list jsstring) (s : AppState) : AppState :=
  {| mode := mode s; modelImage := modelImage s; clothingImage := clothingImage s;
     isTryOnLoading := isTryOnLoading s; tryOnError := tryOnError s; tryOnBackgroundPrompt := tryOnBackgroundPrompt s;
     tryOnHistory := v; tryOnHistoryIndex := tryOnHistoryIndex s; sourceImage := sourceImage s;
     backgroundImage := backgroundImage s; isBgChangeLoading := isBgChangeLoading s; bgChangeError := bgChangeError s;
     bgChangePrompt := bgChangePrompt s; bgHistory := bgHistory s; bgHistoryIndex := bgHistoryIndex s;
     activeFilter := activeFilter s |}.

Definition setTryOnHistoryIndex (v : Z) (s : AppState) : AppState :=
  {| mode := mode s; modelImage := modelImage s; clothingImage := clothingImage s;
     isTryOnLoading := isTryOnLoading s; tryOnError := tryOnError s; tryOnBackgroundPrompt := tryOnBackgroundPrompt s;
     tryOnHistory := tryOnHistory s; tryOnHistoryIndex := v; sourceImage := sourceImage s;
     backgroundImage := backgroundImage s; isBgChangeLoading := isBgChangeLoading s; bgChangeError := bgChangeError s;
     bgChangePrompt := bgChangePrompt s; bgHistory := bgHistory s; bgHistoryIndex := bgHistoryIndex s;
     activeFilter := activeFilter s |}.

Definition setSourceImage (v : option Base64File) (s : AppState) : AppState :=
  {| mode := mode s; modelImage := modelImage s; clothingImage := clothingImage s;
     isTryOnLoading := isTryOnLoading s; tryOnError := tryOnError s; tryOnBackgroundPrompt := tryOnBackgroundPrompt s;
     tryOnHistory := tryOnHistory s; tryOnHistoryIndex := tryOnHistoryIndex s; sourceImage := v;
     backgroundImage := backgroundImage s; isBgChangeLoading := isBgChangeLoading s; bgChangeError := bgChangeError s;
     bgChangePrompt := bgChangePrompt s; bgHistory := bgHistory s; bgHistoryIndex := bgHistoryIndex s;
     activeFilter := activeFilter s |}.

Definition setBackgroundImage (v : option Base64File) (s : AppState) : AppState :=
  {| mode := mode s; modelImage := modelImage s; clothingImage := clothingImage s;
     isTryOnLoading := isTryOnLoading s; tryOnError := tryOnError s; tryOnBackgroundPrompt := tryOnBackgroundPrompt s;
     tryOnHistory := tryOnHistory s; tryOnHistoryIndex := tryOnHistoryIndex s; sourceImage := sourceImage s;
     backgroundImage := v; isBgChangeLoading := isBgChangeLoading s; bgChangeError := bgChangeError s;
     bgChangePrompt := bgChangePrompt s; bgHistory := bgHistory s; bgHistoryIndex := bgHistoryIndex s;
     activeFilter := activeFilter s |}.

Definition setIsBgChangeLoading (v : bool) (s : AppState) : AppState :=
  {| mode := mode s; modelImage := modelImage s; clothingImage := clothingImage s;
     isTryOnLoading := isTryOnLoading s; tryOnError := tryOnError s; tryOnBackgroundPrompt := tryOnBackgroundPrompt s;
     tryOnHistory := tryOnHistory s; tryOnHistoryIndex := tryOnHistoryIndex s; sourceImage := sourceImage s;
     backgroundImage := backgroundImage s; isBgChangeLoading := v; bgChangeError := bgChangeError s;
     bgChangePrompt := bgChangePrompt s; bgHistory := bgHistory s; bgHistoryIndex := bgHistoryIndex s;
     activeFilter := activeFilter s |}.

Definition setBgChangeError (v : option jsstring) (s : AppState) : AppState :=
  {| mode := mode s; modelImage := modelImage s; clothingImage := clothingImage s;
     isTryOnLoading := isTryOnLoading s; tryOnError := tryOnError s; tryOnBackgroundPrompt := tryOnBackgroundPrompt s;
     tryOnHistory := tryOnHistory s; tryOnHistoryIndex := tryOnHistoryIndex s; sourceImage := sourceImage s;
     backgroundImage := backgroundImage s; isBgChangeLoading := isBgChangeLoading s; bgChangeError := v;
     bgChangePrompt := bgChangePrompt s; bgHistory := bgHistory s; bgHistoryIndex := bgHistoryIndex s;
     activeFilter := activeFilter s |}.

Definition setBgChangePrompt (v : jsstring) (s : AppState) : AppState :=
  {| mode := mode s; modelImage := modelImage s; clothingImage := clothingImage s;
     isTryOnLoading := isTryOnLoading s; tryOnError := tryOnError s; tryOnBackgroundPrompt := tryOnBackgroundPrompt s;
     tryOnHistory := tryOnHistory s; tryOnHistoryIndex := tryOnHistoryIndex s; sourceImage := sourceImage s;
     backgroundImage := backgroundImage s; isBgChangeLoading := isBgChangeLoading s; bgChangeError := bgChangeError s;
     bgChangePrompt := v; bgHistory := bgHistory s; bgHistoryIndex := bgHistoryIndex s;
     activeFilter := activeFilter s |}.

Definition setBgHistory (v : list jsstring) (s : AppState) : AppState :=
  {| mode := mode s; modelImage := modelImage s; clothingImage := clothingImage s;
     isTryOnLoading := isTryOnLoading s; tryOnError := tryOnError s; tryOnBackgroundPrompt := tryOnBackgroundPrompt s;
     tryOnHistory := tryOnHistory s; tryOnHistoryIndex := tryOnHistoryIndex s; sourceImage := sourceImage s;
     backgroundImage := backgroundImage s; isBgChangeLoading := isBgChangeLoading s; bgChangeError := bgChangeError s;
     bgChangePrompt := bgChangePrompt s; bgHistory := v; bgHistoryIndex := bgHistoryIndex s;
     activeFilter := activeFilter s |}.

Definition setBgHistoryIndex (v : Z) (s : AppState) : AppState :=
  {| mode := mode s; modelImage := modelImage s; clothingImage := clothingImage s;
     isTryOnLoading := isTryOnLoading s; tryOnError := tryOnError s; tryOnBackgroundPrompt := tryOnBackgroundPrompt s;
     tryOnHistory := tryOnHistory s; tryOnHistoryIndex := tryOnHistoryIndex s; sourceImage := sourceImage s;
     backgroundImage := backgroundImage s; isBgChangeLoading := isBgChangeLoading s; bgChangeError := bgChangeError s;
     bgChangePrompt := bgChangePrompt s; bgHistory := bgHistory s; bgHistoryIndex := v;
     activeFilter := activeFilter s |}.

Definition setActiveFilter (v : jsstring) (s : AppState) : AppState :=
  {| mode := mode s; modelImage := modelImage s; clothingImage := clothingImage s;
     isTryOnLoading := isTryOnLoading s; tryOnError := tryOnError s; tryOnBackgroundPrompt := tryOnBackgroundPrompt s;
     tryOnHistory := tryOnHistory s; tryOnHistoryIndex := tryOnHistoryIndex s; sourceImage := sourceImage s;
     backgroundImage := backgroundImage s; isBgChangeLoading := isBgChangeLoading s; bgChangeError := bgChangeError s;
     bgChangePrompt := bgChangePrompt s; bgHistory := bgHistory s; bgHistoryIndex := bgHistoryIndex s;
     activeFilter := v |}.

(** Line 94: [resultImage]. *)
Definition resultImage (s : AppState) : option jsstring :=
  match mode s with
  | tryon => lookup (tryOnHistory s) (tryOnHistoryIndex s)
  | background => lookup (bgHistory s) (bgHistoryIndex s)
  end.

(** Lines 200-201. *)
Definition canUndo (s : AppState) : bool :=
  match mode s with
  | tryon => tryOnHistoryIndex s >? 0
  | background => bgHistoryIndex s >? 0
  end.

Definition canRedo (s : AppState) : bool :=
  match mode s with
  | tryon => tryOnHistoryIndex s <? JS.length (tryOnHistory s) - 1
  | background => bgHistoryIndex s <? JS.length (bgHistory s) - 1
  end.

(** [err instanceof Error ? err.message : 'An unknown error occurred.'] *)
Definition messageOf (err : Thrown) : jsstring :=
  match err with
  | ErrorObject message => message
  | OtherValue => lit "An unknown error occurred."
  end.

Definition isNull {A : Type} (o : option A) : bool :=
  match o with None => true | Some _ => false end.

(** *** Event handlers *)

Section Handlers.

Variable remote :
  World -> GenerateContentParameters -> Completion GenerateContentResponse.

(** Lines 96-120.  The handler runs to completion: the state it returns is
    the one after [finally]. *)
Definition handleGenerateTryOn (fit : FitAdjustment) (s : AppState) (w : World)
  : AppState * World :=
  match modelImage s, clothingImage s with
  | Some modelImage, Some clothingImage =>
      let s1 := setIsTryOnLoading true s in
      let s1 := setTryOnError None s1 in
      let s1 := setActiveFilter (lit "none") s1 in
      let '(outcome, w1) :=
        dressModel remote modelImage clothingImage fit
          (tryOnBackgroundPrompt s) w in
      let s2 :=
        match outcome with
        | Normal generatedImage =>
            let newImage := lit "data:image/png;base64," ++ generatedImage in
            let newHistory :=
              slice (tryOnHistory s) 0 (tryOnHistoryIndex s + 1) in
            let newHistory := push newHistory newImage in
            let s2 := setTryOnHistory newHistory s1 in
            setTryOnHistoryIndex (JS.length newHistory - 1) s2
        | Throw err => setTryOnError (Some (messageOf err)) s1
        end in
      (setIsTryOnLoading false s2, w1)
  | _, _ =>
      (setTryOnError
         (Some (lit "Please upload both a model image and a clothing image."))
         s, w)
  end.

(** Lines 122-149. *)
Definition handleGenerateBgChange (s : AppState) (w : World)
  : AppState * World :=
  match sourceImage s with
  | None => (setBgChangeError (Some (lit "Please upload a source image.")) s, w)
  | Some sourceImage =>
      if isNull (backgroundImage s) && negb (truthy (trim (bgChangePrompt s)))
      then
        (setBgChangeError
           (Some (lit "Please either upload a new background image or describe the background you want."))
           s, w)
      else
        let s1 := setIsBgChangeLoading true s in
        let s1 := setBgChangeError None s1 in
        let s1 := setActiveFilter (lit "none") s1 in
        let '(outcome, w1) :=
          changeBackground remote sourceImage (bgChangePrompt s)
            (backgroundImage s) w in
        let s2 :=
          match outcome with
          | Normal generatedImage =>
              let newImage := lit "data:image/png;base64," ++ generatedImage in
              let newHistory := slice (bgHistory s) 0 (bgHistoryIndex s + 1) in
              let newHistory := push newHistory newImage in
              let s2 := setBgHistory newHistory s1 in
              setBgHistoryIndex (JS.length newHistory - 1) s2
          | Throw err => setBgChangeError (Some (messageOf err)) s1
          end in
        (setIsBgChangeLoading false s2, w1)
  end.

(** Lines 152-164. *)
Definition handleUndo (s : AppState) : AppState :=
  match mode s with
  | tryon =>
      if tryOnHistoryIndex s >? 0 then
        let s1 := setTryOnHistoryIndex (tryOnHistoryIndex s - 1) s in
        setActiveFilter (lit "none") s1
      else s
  | background =>
      if bgHistoryIndex s >? 0 then
        let s1 := setBgHistoryIndex (bgHistoryIndex s - 1) s in
        setActiveFilter (lit "none") s1
      else s
  end.

(** Lines 166-178. *)
Definition handleRedo (s : AppState) : AppState :=
  match mode s with
  | tryon =>
      if tryOnHistoryIndex s <? JS.length (tryOnHistory s) - 1 then
        let s1 := setTryOnHistoryIndex (tryOnHistoryIndex s + 1) s in
        setActiveFilter (lit "none") s1
      else s
  | background =>
      if bgHistoryIndex s <? JS.length (bgHistory s) - 1 then
        let s1 := setBgHistoryIndex (bgHistoryIndex s + 1) s in
        setActiveFilter (lit "none") s1
      else s
  end.

(** The user actions wired to the state in the rendered tree. *)
Inductive Event : Type :=
| SelectMode (m : AppMode)
| ModelImageChange (file : option Base64File)
| ClothingImageChange (file : option Base64File)
| SourceImageChange (file : option Base64File)
| BackgroundImageChange (file : option Base64File)
| TryOnBackgroundPromptChange (value : jsstring)
| BgChangePromptChange (value : jsstring)
| SelectFilter (style : jsstring)
| GenerateTryOn (fit : FitAdjustment)
| GenerateBgChange
| Undo
| Redo.

Definition step (e : Event) (s : AppState) (w : World) : AppState * World :=
  match e with
  | SelectMode m => (setMode m s, w)
  | ModelImageChange file => (setModelImage file s, w)
  | ClothingImageChange file => (setClothingImage file s, w)
  | SourceImageChange file => (setSourceImage file s, w)
  | BackgroundImageChange file => (setBackgroundImage file s, w)
  | TryOnBackgroundPromptChange value => (setTryOnBackgroundPrompt value s, w)
  | BgChangePromptChange value => (setBgChangePrompt value s, w)
  | SelectFilter style => (setActiveFilter style s, w)
  | GenerateTryOn fit => handleGenerateTryOn fit s w
  | GenerateBgChange => handleGenerateBgChange s w
  | Undo => (handleUndo s, w)
  | Redo => (handleRedo s, w)
  end.

(** The events handled one after the other. *)
Fixpoint run (es : list Event) (s : AppState) (w : World) : AppState * World :=
  match es with
  | [] => (s, w)
  | e :: es' => let '(s', w') := step e s w in run es' s' w'
  end.

End Handlers.

(** The state [App] mounts with when its two hooks start with these
    entries and cursors. *)
Definition initialState (tryOn bg : list jsstring * Z) : AppState :=
  {| mode := tryon;
     modelImage := None; clothingImage := None;
     isTryOnLoading := false; tryOnError := None;
     tryOnBackgroundPrompt := [];
     tryOnHistory := fst tryOn; tryOnHistoryIndex := snd tryOn;
     sourceImage := None; backgroundImage := None;
     isBgChangeLoading := false; bgChangeError := None;
     bgChangePrompt := [];
     bgHistory := fst bg; bgHistoryIndex := snd bg;
     activeFilter := lit "none" |}.

(** *** Persistence effects of [useHistoryState] *)

(** [localStorage.setItem]. *)
Definition setItem (key value : jsstring) (storage : Storage) : Storage :=
  fun k => if strictEquals k key then Some value else storage k.

Section Persistence.

(** [JSON.stringify] on the history. *)
Variable JSON_stringify : list jsstring -> jsstring.

(** Lines 59-65: the two effects of one hook. *)
Definition persistHistoryState (historyKey indexKey : jsstring)
    (history : list jsstring) (historyIndex : Z) (storage : Storage)
  : Storage :=
  let storage := setItem historyKey (JSON_stringify history) storage in
  setItem indexKey (String_of_integer historyIndex) storage.

(** The effects of the two hooks of [App] for a state. *)
Definition persist (s : AppState) (storage : Storage) : Storage :=
  let storage :=
    persistHistoryState TRYON_HISTORY_KEY TRYON_HISTORY_INDEX_KEY
      (tryOnHistory s) (tryOnHistoryIndex s) storage in
  persistHistoryState BG_HISTORY_KEY BG_HISTORY_INDEX_KEY
    (bgHistory s) (bgHistoryIndex s) storage.

End Persistence.

(** *** Values derived for rendering *)

(** Lines 11-23. *)
Record Filter : Type := {
  name : jsstring;
  style : jsstring
}.

Definition filters : list Filter :=
  [ {| name := lit "None"; style := lit "none" |};
    {| name := lit "Vintage";
       style := lit "sepia(0.6) contrast(0.9) brightness(1.1) saturate(1.2)" |};
    {| name := lit "Noir"; style := lit "grayscale(1) contrast(1.2)" |};
    {| name := lit "Summer";
       style := lit "saturate(1.5) contrast(1.1) brightness(1.1)" |};
    {| name := lit "Winter";
       style := lit "contrast(1.1) brightness(1.1) saturate(0.2) sepia(0.1)" |};
    {| name := lit "Cinematic";
       style := lit "contrast(1.2) saturate(1.2) brightness(0.9)" |} ].

(** Line 197. *)
Definition isLoading (s : AppState) : bool :=
  isTryOnLoading s || isBgChangeLoading s.

(** Line 198. *)
Definition error (s : AppState) : option jsstring :=
  match mode s with
  | tryon => tryOnError s
  | background => bgChangeError s
  end.

(** Lines 211 and 237: [disabled] of the undo button. *)
Definition undoDisabled (s : AppState) : bool :=
  negb (canUndo s) || isLoading s.

(** Lines 213 and 239: [disabled] of the redo button. *)
Definition redoDisabled (s : AppState) : bool :=
  negb (canRedo s) || isLoading s.

(** Line 212: [disabled] of the try-on generate button. *)
Definition generateTryOnDisabled (s : AppState) : bool :=
  isNull (modelImage s) || isNull (clothingImage s) || isLoading s.

(** Line 238: [disabled] of the background-change generate button. *)
Definition generateBgChangeDisabled (s : AppState) : bool :=
  isNull (sourceImage s)
  || (isNull (backgroundImage s) && negb (truthy (trim (bgChangePrompt s))))
  || isLoading s.

(** Line 268: the image element is rendered with this source, if at all. *)
Definition shownImage (s : AppState) : option jsstring :=
  if negb (isLoading s) && falsy (error s) && negb (falsy (resultImage s))
  then resultImage s
  else None.

(** Lines 180-195: the call [handleDownload] makes to [downloadImage], if
    any.  What the call settles with is only logged. *)
Definition handleDownload (s : AppState)
  : option ImageChanger.DownloadImageOptions :=
  if falsy (resultImage s) then None
  else
    match resultImage s with
    | Some resultImage' =>
        let filename :=
          match mode s with
          | tryon => lit "virtual-try-on.png"
          | background => lit "background-change.png"
          end in
        Some {| ImageChanger.imageUrl := resultImage';
                ImageChanger.filter := activeFilter s;
                ImageChanger.filename := filename |}
    | None => None
    end.

End App.

(** ** Vocabulary of the properties *)

Import FileUtils GeminiService App.

(** A text that is empty or made of white space only. *)
Definition blank (s : jsstring) : Prop :=
  Forall (fun c => isWhiteSpace c = true) s.

(** The history state, error message and loading flag of a workflow. *)
Definition historyOf (m : AppMode) (s : AppState) : list jsstring :=
  match m with tryon => tryOnHistory s | background => bgHistory s end.

Definition cursorOf (m : AppMode) (s : AppState) : Z :=
  match m with tryon => tryOnHistoryIndex s | background => bgHistoryIndex s end.

Definition errorOf (m : AppMode) (s : AppState) : option jsstring :=
  match m with tryon => tryOnError s | background => bgChangeError s end.

Definition loadingOf (m : AppMode) (s : AppState) : bool :=
  match m with tryon => isTryOnLoading s | background => isBgChangeLoading s end.

Definition cursorInRange (entries : list jsstring) (cursor : Z) : Prop :=
  -1 <= cursor <= JS.length entries - 1.

Definition validHistory (s : AppState) : Prop :=
  forall m, cursorInRange (historyOf m s) (cursorOf m s).

(** The generate operation of a workflow. *)
Definition generate
    (remote : World -> GenerateContentParameters ->
              Completion GenerateContentResponse)
    (m : AppMode) (fit : FitAdjustment) (s : AppState) (w : World)
  : AppState * World :=
  match m with
  | tryon => handleGenerateTryOn remote fit s w
  | background => handleGenerateBgChange remote s w
  end.

(** Required inputs of a workflow are missing. *)
Definition inputsMissing (m : AppMode) (s : AppState) : Prop :=
  match m with
  | tryon => modelImage s = None \/ clothingImage s = None
  | background =>
      sourceImage s = None \/
      (backgroundImage s = None /\ blank (bgChangePrompt s))
  end.

(** The call to the generation client that [generate] makes on the inputs
    of a state, when all of them are present. *)
Definition clientCall
    (remote : World -> GenerateContentParameters ->
              Completion GenerateContentResponse)
    (m : AppMode) (fit : FitAdjustment) (s : AppState)
  : option (M jsstring) :=
  match m with
  | tryon =>
      match modelImage s, clothingImage s with
      | Some a, Some b =>
          Some (dressModel remote a b fit (tryOnBackgroundPrompt s))
      | _, _ => None
      end
  | background =>
      match sourceImage s with
      | Some src =>
          if isNull (backgroundImage s) && negb (truthy (trim (bgChangePrompt s)))
          then None
          else Some (changeBackground remote src (bgChangePrompt s)
                       (backgroundImage s))
      | None => None
      end
  end.

(** The validation message of a workflow for a state with missing inputs. *)
Definition validationMessage (m : AppMode) (s : AppState) : jsstring :=
  match m with
  | tryon => lit "Please upload both a model image and a clothing image."
  | background =>
      match sourceImage s with
      | None => lit "Please upload a source image."
      | Some _ =>
          lit "Please either upload a new background image or describe the background you want."
      end
  end.

Definition dataUrlPrefix : jsstring := lit "data:image/png;base64,".

(** The data of the image part the code extracts from a response. *)
Definition imageData (response : GenerateContentResponse) : option jsstring :=
  match findImagePart response with
  | Some p =>
      match inlineData p with
      | Some blob => Some (data blob)
      | None => None
      end
  | None => None
  end.

(** The request [dressModel] sends. *)
Definition dressModel_request (modelImage clothingImage : Base64File)
    (fit : FitAdjustment) (backgroundPrompt : jsstring)
  : GenerateContentParameters :=
  {| model := lit "gemini-2.5-flash-image";
     contents_parts :=
       [inlineOf modelImage; inlineOf clothingImage;
        TextPart (dressModel_prompt fit backgroundPrompt)];
     responseModalities := [IMAGE] |}.

(** The request [changeBackground] sends. *)
Definition changeBackground_request (sourceImage : Base64File)
    (backgroundPrompt : jsstring) (backgroundImage : option Base64File)
  : GenerateContentParameters :=
  {| model := lit "gemini-2.5-flash-image";
     contents_parts :=
       changeBackground_parts sourceImage backgroundPrompt backgroundImage;
     responseModalities := [IMAGE] |}.

(** The messages of the errors the two operations throw. *)
Definition dressModel_noImage : jsstring :=
  lit "AI failed to generate an image. Please try again with different images.".

Definition dressModel_failed : jsstring :=
  lit "Failed to generate image from AI. The model may have refused to process the request. Check your images and try again.".

Definition changeBackground_noImage : jsstring :=
  lit "AI failed to generate an image. Please try again with a different image or prompt.".

Definition changeBackground_failed : jsstring :=
  lit "Failed to change background from AI. The model may have refused to process the request. Check your image and try again.".

Definition changeBackground_required : jsstring :=
  lit "A background description or a background image is required.".

(** The same remote, reporting the given content type for every image it
    returns. *)
Definition retypePart (contentType : jsstring) (p : ResponsePart)
  : ResponsePart :=
  {| inlineData :=
       match inlineData p with
       | Some blob =>
           Some {| data := data blob; blob_mimeType := contentType |}
       | None => None
       end;
     text := text p |}.

Definition retypeResponse (contentType : jsstring)
    (r : GenerateContentResponse) : GenerateContentResponse :=
  {| candidates :=
       option_map
         (map (fun c =>
            {| content :=
                 option_map
                   (fun ct =>
                      {| parts :=
                           option_map (map (retypePart contentType))
                             (parts ct) |})
                   (content c) |}))
         (candidates r) |}.

Definition retypeRemote (contentType : jsstring)
    (remote : World -> GenerateContentParameters ->
              Completion GenerateContentResponse)
  : World -> GenerateContentParameters -> Completion GenerateContentResponse :=
  fun w request =>
    match remote w request with
    | Normal r => Normal (retypeResponse contentType r)
    | Throw e => Throw e
    end.

(** A text is empty or white space only, as a test. *)
Definition isBlank (s : jsstring) : bool := forallb isWhiteSpace s.

(** The three fit clauses and the two background clauses of the try-on
    instruction, as the specification names them. *)
Definition formFittingClause : jsstring :=
  lit "The clothing should be adjusted to have a tighter, more form-fitting appearance on the model.".

Definition relaxedClause : jsstring :=
  lit "The clothing should be adjusted to have a looser, more relaxed, and comfortable fit on the model.".

Definition fitClause (fit : FitAdjustment) : jsstring :=
  match fit with
  | default => []
  | tighter => formFittingClause
  | looser => relaxedClause
  end.

Definition preserveBackgroundClause : jsstring :=
  lit "The original background from the first image must be preserved perfectly.".

Definition replaceBackgroundClause (userText : jsstring) : jsstring :=
  lit "The original background must be replaced with a new one described as: "
    ++ dq ++ userText ++ dq ++
  lit ". The new background should be photorealistic and blend seamlessly with the model.".

Definition backgroundClause (backgroundPrompt : jsstring) : jsstring :=
  if isBlank backgroundPrompt then preserveBackgroundClause
  else replaceBackgroundClause backgroundPrompt.




(** The integer stored under the index key, when there is one. *)
Definition storedCursor (storage : Storage) (indexKey : jsstring) : option Z :=
  match storage indexKey with
  | Some text => parseInt10 text
  | None => None
  end.

(** What is stored under the history key gives the hook a list of
    entries: nothing, the empty text, a text [JSON.parse] rejects, or a
    text that parses to an array of strings. *)
Definition storesEntries (rt : Runtime) (storage : Storage)
    (historyKey : jsstring) : Prop :=
  match storage historyKey with
  | None => True
  | Some text =>
      text = [] \/
      (exists e, JSON_parse rt text = Throw e) \/
      (exists entries, JSON_parse rt text = Normal (arrayOf rt entries))
  end.

(** ** Sample data *)

Definition samplePhoto : Base64File :=
  {| base64 := lit "iVBORw0KGgo="; mimeType := lit "image/png" |}.

Definition sampleOutfit : Base64File :=
  {| base64 := lit "/9j/4AAQSkZJRg=="; mimeType := lit "image/jpeg" |}.


(** A response whose first part is text and whose second part carries an
    image of the given content type. *)
Definition imageResponse (d contentType : jsstring) : GenerateContentResponse :=
  {| candidates := Some
       [ {| content := Some
              {| parts := Some
                   [ {| inlineData := None;
                        text := Some (lit "Here is your image.") |};
                     {| inlineData :=
                          Some {| data := d; blob_mimeType := contentType |};
                        text := None |} ] |} |} ] |}.

(** A response in which the model declined: text only. *)
Definition textOnlyResponse : GenerateContentResponse :=
  {| candidates := Some
       [ {| content := Some
              {| parts := Some
                   [ {| inlineData := None;
                        text := Some (lit "I cannot help with that.") |} ] |} |} ] |}.

(** A remote that answers the n-th request with the JPEG image [R<n>]. *)
Definition answeringRemote (w : World) (_ : GenerateContentParameters)
  : Completion GenerateContentResponse :=
  Normal (imageResponse
            (lit "R" ++ [(48 + N.of_nat (List.length (requestsOf w)))%N])
            (lit "image/jpeg")).

(** A remote whose model always declines. *)
Definition decliningRemote (_ : World) (_ : GenerateContentParameters)
  : Completion GenerateContentResponse :=
  Normal textOnlyResponse.

(** A remote whose call always rejects. *)
Definition rejectingRemote (_ : World) (_ : GenerateContentParameters)
  : Completion GenerateContentResponse :=
  Throw (ErrorObject (lit "fetch failed")).

(** A remote that answers two requests with images and whose model then
    declines. *)
Definition tiringRemote (w : World) (request : GenerateContentParameters)
  : Completion GenerateContentResponse :=
  if (List.length (requestsOf w) <? 2)%nat then answeringRemote w request
  else decliningRemote w request.

(** The state of a first visit: nothing persisted. *)
Definition emptyState : AppState := initialState ([], -1) ([], -1).

(** Both try-on images uploaded, two successful generations, one undo. *)
Definition twoResultsOneUndo : list Event :=
  [ ModelImageChange (Some samplePhoto);
    ClothingImageChange (Some sampleOutfit);
    GenerateTryOn default;
    GenerateTryOn tighter;
    Undo ].

(** The text [["a","b"]] of a stored two-entry history. *)
Definition twoEntriesText : jsstring :=
  lit "[" ++ dq ++ lit "a" ++ dq ++ lit "," ++ dq ++ lit "b" ++ dq ++ lit "]".

(** A stand-in for the values of the page: [undefined], [null], the
    integers with [NaN], and the arrays of strings. *)
Inductive SampleValue : Type :=
| undefinedValue
| nullValue
| numberValue (n : option Z)
| arrayValue (entries : list jsstring).

(** A stand-in for [JSON.parse] that knows the text above, the empty
    array, [null] and [7], and throws on every other text. *)
Definition sampleParse (text : jsstring) : Completion SampleValue :=
  if strictEquals text twoEntriesText then Normal (arrayValue [lit "a"; lit "b"])
  else if strictEquals text (lit "[]") then Normal (arrayValue [])
  else if strictEquals text (lit "null") then Normal nullValue
  else if strictEquals text (lit "7") then Normal (numberValue (Some 7))
  else Throw (ErrorObject (lit "Unexpected token in JSON")).

(** [v.length] on the stand-in values: a [TypeError] on [null] and
    [undefined], [undefined] on a number, the number of entries of an
    array. *)
Definition sampleLengthOf (v : SampleValue) : Completion SampleValue :=
  match v with
  | undefinedValue =>
      Throw (ErrorObject
               (lit "Cannot read properties of undefined (reading 'length')"))
  | nullValue =>
      Throw (ErrorObject
               (lit "Cannot read properties of null (reading 'length')"))
  | numberValue _ => Normal undefinedValue
  | arrayValue entries => Normal (numberValue (Some (JS.length entries)))
  end.

(** [a === b] on the stand-in values; two arrays are taken to be distinct
    objects. *)
Definition sampleStrictlyEqual (a b : SampleValue) : bool :=
  match a, b with
  | undefinedValue, undefinedValue => true
  | nullValue, nullValue => true
  | numberValue m, numberValue n =>
      match m, n with
      | Some x, Some y => x =? y
      | _, _ => false
      end
  | _, _ => false
  end.

(** The conversion to a number: [NaN] for [undefined], 0 for [null] and
    for the empty array; an array with entries is taken to [NaN], which is
    what JavaScript gives unless its one entry reads as a number. *)
Definition sampleToNumber (v : SampleValue) : option Z :=
  match v with
  | undefinedValue => None
  | nullValue => Some 0
  | numberValue n => n
  | arrayValue [] => Some 0
  | arrayValue (_ :: _) => None
  end.

Definition sampleRuntime : Runtime :=
  {| Value := SampleValue;
     JSON_parse := sampleParse;
     arrayOf := arrayValue;
     numberOf := numberValue;
     lengthOf := sampleLengthOf;
     strictlyEqual := sampleStrictlyEqual;
     lessThan := fun n v =>
       Normal match n, sampleToNumber v with
              | Some x, Some y => x <? y
              | _, _ => false
              end;
     subtract := fun v n =>
       Normal (numberValue match sampleToNumber v, n with
                           | Some x, Some y => Some (x - y)
                           | _, _ => None
                           end);
     lengthOf_array := fun _ => eq_refl;
     strictlyEqual_numbers := fun _ _ => eq_refl;
     lessThan_number := fun _ _ => eq_refl;
     subtract_number := fun _ _ => eq_refl |}.

(** A storage with the given texts under the two try-on keys. *)
Definition tryOnStorage (historyText indexText : option jsstring) : Storage :=
  fun key =>
    if strictEquals key TRYON_HISTORY_KEY then historyText
    else if strictEquals key TRYON_HISTORY_INDEX_KEY then indexText
    else None.

(** Three results in the try-on history, then two undos: the cursor is on
    the first of three entries. *)
Definition threeResultsTwoUndos : list Event :=
  [ ModelImageChange (Some samplePhoto);
    ClothingImageChange (Some sampleOutfit);
    GenerateTryOn default;
    GenerateTryOn tighter;
    GenerateTryOn looser;
    Undo;
    Undo ].

(** A source image is there, but neither a background image nor a
    description: only white space was typed. *)
Definition blankBackgroundRequest : list Event :=
  [ SelectMode background;
    SourceImageChange (Some samplePhoto);
    BgChangePromptChange (lit "   ") ].

(** A remote that returns the image [AAEC] with the content type it is
    told. *)
Definition typedRemote (contentType : jsstring) (_ : World)
    (_ : GenerateContentParameters) : Completion GenerateContentResponse :=
  Normal (imageResponse (lit "AAEC") contentType).

(** Source image and a description for the background change. *)
Definition describedBackground : list Event :=
  [ SelectMode background;
    SourceImageChange (Some samplePhoto);
    BgChangePromptChange (lit "a beach") ].

(** ** Vocabulary of the further properties *)

(** The shape of a text [fileToBase64] accepts: something before the first
    comma and something between it and the next comma or the end. *)
Definition dataUrlShape (result : jsstring) : Prop :=
  exists header data rest,
    result = header ++ 44%N :: data ++ rest /\
    header <> [] /\ ~ In 44%N header /\
    data <> [] /\ ~ In 44%N data /\
    (rest = [] \/ exists rest', rest = 44%N :: rest').

(** An image as [fileToBase64] produces them. *)
Definition wellFormedImage (image : Base64File) : Prop :=
  base64 image <> [] /\ ~ In 44%N (base64 image) /\
  mimeType image <> [] /\
  Forall (fun c => c <> 44%N /\ c <> 59%N /\ isLineTerminator c = false)
    (mimeType image).

Definition invalidDataUrl : jsstring := lit "Invalid data URL format.".

(** What [onImageChange] does to the state when it is the setter of a
    slot. *)
Definition applyChange (setter : option Base64File -> AppState -> AppState)
    (change : ImageUploader.Change) (s : AppState) : AppState :=
  match change with
  | Some image => setter image s
  | None => s
  end.

(** Each workflow is empty with cursor -1, or its cursor is on an entry. *)
Definition tightHistory (s : AppState) : Prop :=
  forall m,
    (historyOf m s = [] /\ cursorOf m s = -1) \/
    0 <= cursorOf m s <= JS.length (historyOf m s) - 1.

Definition isGenerate (e : Event) : bool :=
  match e with
  | GenerateTryOn _ | GenerateBgChange => true
  | _ => false
  end.

(** The event can change the history state of the workflow. *)
Definition concerns (e : Event) (s : AppState) (m : AppMode) : bool :=
  match e, m with
  | GenerateTryOn _, tryon => true
  | GenerateBgChange, background => true
  | Undo, tryon | Redo, tryon =>
      match mode s with tryon => true | background => false end
  | Undo, background | Redo, background =>
      match mode s with tryon => false | background => true end
  | _, _ => false
  end.

(** The filter selections the rendered filter buttons offer. *)
Definition offered (e : Event) : Prop :=
  match e with
  | SelectFilter style' => In style' (map style filters)
  | _ => True
  end.

(** A stand-in for [JSON.stringify] that writes the empty history and the
    history of the two entries [a] and [b]. *)
Definition sampleStringify (history : list jsstring) : jsstring :=
  match history with
  | [] => lit "[]"
  | _ :: _ => twoEntriesText
  end.

(** A component whose try-on history holds [a] and [b], with [b] shown. *)
Definition twoStoredEntries : AppState :=
  initialState ([lit "a"; lit "b"], 1) ([], -1).

(** The data [d] is that of the first part with inline data among the
    parts of the first candidate of the response. *)
Definition firstImage (r : GenerateContentResponse) (d : jsstring) : Prop :=
  exists c others ct before blob t after,
    candidates r = Some (c :: others) /\
    content c = Some ct /\
    parts ct =
      Some (before ++ {| inlineData := Some blob; text := t |} :: after) /\
    Forall (fun part => inlineData part = None) before /\
    data blob = d.

(** ** Facts about the JavaScript operations *)

Lemma trimStart_nil (s : jsstring) : trimStart s = [] <-> blank s.
Proof.
  unfold blank. induction s as [|c s IH]; simpl.
  - split; auto.
  - destruct (isWhiteSpace c) eqn:E.
    + rewrite IH. split; intro H.
      * constructor; assumption.
      * inversion H; assumption.
    + split; intro H.
      * discriminate.
      * inversion H; congruence.
Qed.

Lemma trimStart_head (s : jsstring) c r :
  trimStart s = c :: r -> isWhiteSpace c = false.
Proof.
  induction s as [|d s IH]; simpl; [discriminate|].
  destruct (isWhiteSpace d) eqn:E; auto.
  intro H. injection H as -> _. exact E.
Qed.

Lemma trim_nil (s : jsstring) : trim s = [] <-> blank s.
Proof.
  unfold trim, trimEnd. split.
  - intro H. apply trimStart_nil.
    destruct (trimStart s) as [|c r] eqn:E; [reflexivity|exfalso].
    assert (H' : trimStart (rev (c :: r)) = []).
    { rewrite <- (rev_involutive (trimStart (rev (c :: r)))), H. reflexivity. }
    clear H. rename H' into H.
    apply trimStart_nil in H. unfold blank in H.
    apply Forall_rev in H. rewrite rev_involutive in H.
    inversion H as [|? ? Hc _]; subst.
    apply trimStart_head in E. congruence.
  - intro H. apply trimStart_nil in H. rewrite H. reflexivity.
Qed.

Lemma truthy_trim (s : jsstring) : truthy (trim s) = false <-> blank s.
Proof.
  rewrite <- trim_nil. destruct (trim s); simpl; split; congruence.
Qed.

Lemma length_trim_zero (s : jsstring) :
  (JS.length (trim s) =? 0) = true <-> blank s.
Proof.
  rewrite <- trim_nil, Z.eqb_eq. unfold JS.length.
  destruct (trim s); simpl; split; try congruence; lia.
Qed.

Lemma blank_truthy_guard (s : jsstring) :
  negb (truthy s) || (JS.length (trim s) =? 0) = true <-> blank s.
Proof.
  rewrite orb_true_iff, length_trim_zero. split.
  - intros [H|H]; auto. destruct s; [constructor|discriminate].
  - auto.
Qed.

Lemma slice_prefix {A : Type} (l : list A) (i : Z) :
  -1 <= i -> slice l 0 (i + 1) = firstn (Z.to_nat (i + 1)) l.
Proof.
  intro H. unfold slice, JS.length.
  replace (0 <? 0) with false by reflexivity.
  replace (i + 1 <? 0) with false by (symmetry; apply Z.ltb_ge; lia).
  rewrite (Z.min_l 0) by lia. simpl skipn.
  rewrite Z.sub_0_r.
  destruct (Z.le_gt_cases (i + 1) (Z.of_nat (List.length l))) as [Hle|Hgt].
  - rewrite Z.min_l, Z.max_l by lia. reflexivity.
  - rewrite Z.min_r, Z.max_l by lia. rewrite Nat2Z.id.
    rewrite !firstn_all2; auto; lia.
Qed.

Lemma length_push {A : Type} (l : list A) (x : A) :
  JS.length (push l x) = JS.length l + 1.
Proof. unfold JS.length, push. rewrite length_app. simpl. lia. Qed.

Lemma length_nonneg {A : Type} (l : list A) : 0 <= JS.length l.
Proof. unfold JS.length. lia. Qed.

Lemma length_slice_prefix {A : Type} (l : list A) (i : Z) :
  -1 <= i <= JS.length l - 1 -> JS.length (slice l 0 (i + 1)) = i + 1.
Proof.
  intros [H1 H2]. rewrite slice_prefix by assumption.
  unfold JS.length in *. rewrite length_firstn. lia.
Qed.

(** ** The generate operation, case by case *)

Ltac state_simpl :=
  cbn beta iota zeta delta
    [setMode setModelImage setClothingImage setIsTryOnLoading
     setTryOnError setTryOnBackgroundPrompt setTryOnHistory
     setTryOnHistoryIndex setSourceImage setBackgroundImage
     setIsBgChangeLoading setBgChangeError setBgChangePrompt setBgHistory
     setBgHistoryIndex setActiveFilter
     historyOf cursorOf errorOf loadingOf
     mode modelImage clothingImage isTryOnLoading tryOnError
     tryOnBackgroundPrompt tryOnHistory tryOnHistoryIndex sourceImage
     backgroundImage isBgChangeLoading bgChangeError bgChangePrompt
     bgHistory bgHistoryIndex activeFilter fst snd] in *.

Section Generate.

Variable remote :
  World -> GenerateContentParameters -> Completion GenerateContentResponse.

Lemma generate_success m fit s w call img w' :
  clientCall remote m fit s = Some call ->
  call w = (Normal img, w') ->
  let s' := fst (generate remote m fit s w) in
  historyOf m s' =
    push (slice (historyOf m s) 0 (cursorOf m s + 1)) (dataUrlPrefix ++ img) /\
  cursorOf m s' = JS.length (historyOf m s') - 1 /\
  errorOf m s' = None /\
  loadingOf m s' = false /\
  snd (generate remote m fit s w) = w' /\
  (forall m', m' <> m ->
     historyOf m' s' = historyOf m' s /\ cursorOf m' s' = cursorOf m' s).
Proof.
  intros Hcall Hres.
  destruct m; unfold generate, clientCall, handleGenerateTryOn,
    handleGenerateBgChange in *.
  - destruct (modelImage s) as [a|]; [|discriminate].
    destruct (clothingImage s) as [b|]; [|discriminate].
    injection Hcall as <-. rewrite Hres. state_simpl.
    repeat split; try reflexivity; destruct m'; try congruence; reflexivity.
  - destruct (sourceImage s) as [src|]; [|discriminate].
    destruct (isNull (backgroundImage s) &&
              negb (truthy (trim (bgChangePrompt s)))); [discriminate|].
    injection Hcall as <-. rewrite Hres. state_simpl.
    repeat split; try reflexivity; destruct m'; try congruence; reflexivity.
Qed.

Lemma generate_failure m fit s w call e w' :
  clientCall remote m fit s = Some call ->
  call w = (Throw e, w') ->
  let s' := fst (generate remote m fit s w) in
  errorOf m s' = Some (messageOf e) /\
  loadingOf m s' = false /\
  snd (generate remote m fit s w) = w' /\
  (forall m', historyOf m' s' = historyOf m' s /\ cursorOf m' s' = cursorOf m' s).
Proof.
  intros Hcall Hres.
  destruct m; unfold generate, clientCall, handleGenerateTryOn,
    handleGenerateBgChange in *.
  - destruct (modelImage s) as [a|]; [|discriminate].
    destruct (clothingImage s) as [b|]; [|discriminate].
    injection Hcall as <-. rewrite Hres. state_simpl.
    repeat split; try reflexivity; destruct m'; reflexivity.
  - destruct (sourceImage s) as [src|]; [|discriminate].
    destruct (isNull (backgroundImage s) &&
              negb (truthy (trim (bgChangePrompt s)))); [discriminate|].
    injection Hcall as <-. rewrite Hres. state_simpl.
    repeat split; try reflexivity; destruct m'; reflexivity.
Qed.

Lemma generate_reject m fit s w :
  clientCall remote m fit s = None ->
  let s' := fst (generate remote m fit s w) in
  errorOf m s' = Some (validationMessage m s) /\
  snd (generate remote m fit s w) = w /\
  (forall m',
     historyOf m' s' = historyOf m' s /\ cursorOf m' s' = cursorOf m' s /\
     loadingOf m' s' = loadingOf m' s).
Proof.
  intros Hcall.
  destruct m; unfold generate, clientCall, handleGenerateTryOn,
    handleGenerateBgChange, validationMessage in *.
  - destruct (modelImage s) as [a|]; [destruct (clothingImage s) as [b|]|];
      try discriminate; state_simpl;
      repeat split; try reflexivity; destruct m'; reflexivity.
  - destruct (sourceImage s) as [src|].
    + destruct (isNull (backgroundImage s) &&
                negb (truthy (trim (bgChangePrompt s)))); [|discriminate].
      state_simpl. repeat split; try reflexivity; destruct m'; reflexivity.
    + state_simpl. repeat split; try reflexivity; destruct m'; reflexivity.
Qed.

Lemma clientCall_none m fit s :
  clientCall remote m fit s = None <-> inputsMissing m s.
Proof.
  destruct m; unfold clientCall, inputsMissing.
  - destruct (modelImage s), (clothingImage s); split; intro H;
      try discriminate; try reflexivity; auto;
      destruct H; discriminate.
  - destruct (sourceImage s) as [src|].
    + destruct (backgroundImage s) as [bg|]; cbn [isNull andb].
      * split; [discriminate|]. intros [H|[H _]]; discriminate.
      * destruct (truthy (trim (bgChangePrompt s))) eqn:E; cbn [negb].
        -- split; [discriminate|]. intros [H|[_ H]]; [discriminate|].
           apply truthy_trim in H. congruence.
        -- split; auto. intros _. right. split; auto.
           apply truthy_trim. exact E.
    + split; auto.
Qed.

End Generate.

(** ** The cursor invariant *)

Lemma AppMode_eq_dec (a b : AppMode) : {a = b} + {a <> b}.
Proof. decide equality. Qed.

Section Invariant.

Variable remote :
  World -> GenerateContentParameters -> Completion GenerateContentResponse.

Lemma generate_valid m fit s w :
  validHistory s -> validHistory (fst (generate remote m fit s w)).
Proof.
  intros H.
  destruct (clientCall remote m fit s) as [call|] eqn:Hc.
  - destruct (call w) as [[img|e] w'] eqn:Hr.
    + destruct (generate_success remote m fit s w call img w' Hc Hr)
        as (Hh & Hcur & _ & _ & _ & Hother).
      intro m'. destruct (AppMode_eq_dec m' m) as [->|Hne].
      * unfold cursorInRange. rewrite Hcur, Hh, length_push.
        pose proof (length_nonneg (slice (historyOf m s) 0 (cursorOf m s + 1))).
        lia.
      * destruct (Hother m' Hne) as [-> ->]. apply H.
    + destruct (generate_failure remote m fit s w call e w' Hc Hr)
        as (_ & _ & _ & Hsame).
      intro m'. destruct (Hsame m') as [-> ->]. apply H.
  - destruct (generate_reject remote m fit s w Hc) as (_ & _ & Hsame).
    intro m'. destruct (Hsame m') as (-> & -> & _). apply H.
Qed.

Lemma handleUndo_valid s : validHistory s -> validHistory (handleUndo s).
Proof.
  intros H m. pose proof (H tryon) as Ht. pose proof (H background) as Hb.
  unfold handleUndo, cursorInRange in *.
  destruct (mode s);
    [destruct (Z.gtb_spec (tryOnHistoryIndex s) 0)
    |destruct (Z.gtb_spec (bgHistoryIndex s) 0)];
    destruct m; state_simpl; lia.
Qed.

Lemma handleRedo_valid s : validHistory s -> validHistory (handleRedo s).
Proof.
  intros H m. pose proof (H tryon) as Ht. pose proof (H background) as Hb.
  unfold handleRedo, cursorInRange in *.
  destruct (mode s);
    [destruct (Z.ltb_spec (tryOnHistoryIndex s) (JS.length (tryOnHistory s) - 1))
    |destruct (Z.ltb_spec (bgHistoryIndex s) (JS.length (bgHistory s) - 1))];
    destruct m; state_simpl; lia.
Qed.

Lemma step_valid e s w :
  validHistory s -> validHistory (fst (step remote e s w)).
Proof.
  intros H. destruct e; cbn [step];
    try (intro m'; specialize (H m'); destruct m'; state_simpl; exact H).
  - apply (generate_valid tryon fit s w H).
  - apply (generate_valid background default s w H).
  - apply handleUndo_valid, H.
  - apply handleRedo_valid, H.
Qed.

Lemma run_valid es : forall s w,
  validHistory s -> validHistory (fst (run remote es s w)).
Proof.
  induction es as [|e es IH]; intros s w H; cbn [run].
  - exact H.
  - pose proof (step_valid e s w H) as Hs.
    destruct (step remote e s w) as [s1 w1]. apply IH. exact Hs.
Qed.

End Invariant.

(** *** Undo and redo, case by case *)

Lemma handleUndo_noop s : cursorOf (mode s) s <= 0 -> handleUndo s = s.
Proof.
  unfold handleUndo. destruct (mode s); state_simpl; intro Hc.
  - destruct (Z.gtb_spec (tryOnHistoryIndex s) 0); [lia|reflexivity].
  - destruct (Z.gtb_spec (bgHistoryIndex s) 0); [lia|reflexivity].
Qed.

Lemma handleUndo_moves s :
  0 < cursorOf (mode s) s ->
  mode (handleUndo s) = mode s /\
  cursorOf (mode s) (handleUndo s) = cursorOf (mode s) s - 1 /\
  historyOf (mode s) (handleUndo s) = historyOf (mode s) s.
Proof.
  unfold handleUndo. destruct (mode s) eqn:Em; state_simpl; intro Hc.
  - destruct (Z.gtb_spec (tryOnHistoryIndex s) 0); [|lia]. state_simpl.
    repeat split; auto.
  - destruct (Z.gtb_spec (bgHistoryIndex s) 0); [|lia]. state_simpl.
    repeat split; auto.
Qed.

Lemma handleRedo_noop s :
  JS.length (historyOf (mode s) s) - 1 <= cursorOf (mode s) s ->
  handleRedo s = s.
Proof.
  unfold handleRedo. destruct (mode s); state_simpl; intro Hc.
  - destruct (Z.ltb_spec (tryOnHistoryIndex s)
                (JS.length (tryOnHistory s) - 1)); [lia|reflexivity].
  - destruct (Z.ltb_spec (bgHistoryIndex s)
                (JS.length (bgHistory s) - 1)); [lia|reflexivity].
Qed.

Lemma handleRedo_moves s :
  cursorOf (mode s) s < JS.length (historyOf (mode s) s) - 1 ->
  mode (handleRedo s) = mode s /\
  cursorOf (mode s) (handleRedo s) = cursorOf (mode s) s + 1 /\
  historyOf (mode s) (handleRedo s) = historyOf (mode s) s.
Proof.
  unfold handleRedo. destruct (mode s) eqn:Em; state_simpl; intro Hc.
  - destruct (Z.ltb_spec (tryOnHistoryIndex s)
                (JS.length (tryOnHistory s) - 1)); [|lia]. state_simpl.
    repeat split; auto.
  - destruct (Z.ltb_spec (bgHistoryIndex s)
                (JS.length (bgHistory s) - 1)); [|lia]. state_simpl.
    repeat split; auto.
Qed.

(** C1.  Along every sequence of events (generate, undo, redo and the
    input changes between them) that starts in a state whose two cursors
    lie within [-1, entries.length - 1], the cursors stay within that range.
    In such a state undo changes nothing when the cursor of the selected
    workflow is at most 0 and otherwise decrements it; redo changes nothing
    when that cursor is at least [entries.length - 1] and otherwise
    increments it; and a successful generate of a workflow leaves its cursor
    on the last index of its new entry list. *)
Theorem cursor_stays_in_range
    (remote : World -> GenerateContentParameters ->
              Completion GenerateContentResponse)
    (es : list Event) (s0 : AppState) (w0 : World) :
  validHistory s0 ->
  let s := fst (run remote es s0 w0) in
  validHistory s /\
  (cursorOf (mode s) s <= 0 -> handleUndo s = s) /\
  (0 < cursorOf (mode s) s ->
     cursorOf (mode s) (handleUndo s) = cursorOf (mode s) s - 1 /\
     historyOf (mode s) (handleUndo s) = historyOf (mode s) s) /\
  (JS.length (historyOf (mode s) s) - 1 <= cursorOf (mode s) s ->
     handleRedo s = s) /\
  (cursorOf (mode s) s < JS.length (historyOf (mode s) s) - 1 ->
     cursorOf (mode s) (handleRedo s) = cursorOf (mode s) s + 1 /\
     historyOf (mode s) (handleRedo s) = historyOf (mode s) s) /\
  (forall m fit w call img w',
     clientCall remote m fit s = Some call ->
     call w = (Normal img, w') ->
     let s' := fst (generate remote m fit s w) in
     cursorOf m s' = JS.length (historyOf m s') - 1 /\
     validHistory s').
Proof.
  intros H0 s. assert (H : validHistory s) by (apply run_valid; exact H0).
  clearbody s. split; [exact H|].
  split; [apply handleUndo_noop|].
  split; [intro Hc; apply handleUndo_moves in Hc; tauto|].
  split; [apply handleRedo_noop|].
  split; [intro Hc; apply handleRedo_moves in Hc; tauto|].
  intros m fit w call img w' Hcall Hres s'. split.
  - destruct (generate_success remote m fit s w call img w' Hcall Hres)
      as (_ & Hcur & _). exact Hcur.
  - apply generate_valid. exact H.
Qed.

Lemma cursor_stays_in_range_witness :
  validHistory emptyState /\
  validHistory (fst (run answeringRemote twoResultsOneUndo emptyState [])).
Proof.
  assert (H : validHistory emptyState).
  { intros []; unfold cursorInRange; vm_compute; split; discriminate. }
  split; [exact H|].
  exact (proj1 (cursor_stays_in_range answeringRemote twoResultsOneUndo
                  emptyState [] H)).
Defined.

(** ** Branch truncation *)

Lemma lookup_push_last {A : Type} (l : list A) (x : A) :
  lookup (push l x) (JS.length l) = Some x.
Proof.
  unfold lookup, push, JS.length.
  replace (Z.of_nat (List.length l) <? 0) with false
    by (symmetry; apply Z.ltb_ge; lia).
  rewrite Nat2Z.id, nth_error_app2 by lia.
  rewrite Nat.sub_diag. reflexivity.
Qed.

Lemma lookup_push_firstn {A : Type} (l : list A) (x : A) (n : nat) (i : Z) :
  0 <= i < Z.of_nat n -> (n <= List.length l)%nat ->
  lookup (push (firstn n l) x) i = lookup l i.
Proof.
  intros Hi Hn. unfold lookup, push.
  replace (i <? 0) with false by (symmetry; apply Z.ltb_ge; lia).
  rewrite nth_error_app1 by (rewrite length_firstn; lia).
  rewrite nth_error_firstn.
  replace (Z.to_nat i <? n)%nat with true
    by (symmetry; apply Nat.ltb_lt; lia).
  reflexivity.
Qed.

(** C2.  In a workflow whose cursor is in range and below the last index,
    a successful generate keeps exactly the entries at indices 0 to the old
    cursor, appends the one entry built from the returned image, and puts
    the cursor on that entry, the new last index: entries above the old
    cursor are gone. *)
Theorem generate_truncates_redo_branch
    (remote : World -> GenerateContentParameters ->
              Completion GenerateContentResponse)
    (m : AppMode) (fit : FitAdjustment) (s : AppState) (w : World)
    (call : M jsstring) (img : jsstring) (w' : World) :
  cursorInRange (historyOf m s) (cursorOf m s) ->
  cursorOf m s < JS.length (historyOf m s) - 1 ->
  clientCall remote m fit s = Some call ->
  call w = (Normal img, w') ->
  let s' := fst (generate remote m fit s w) in
  historyOf m s' =
    firstn (Z.to_nat (cursorOf m s + 1)) (historyOf m s)
      ++ [dataUrlPrefix ++ img] /\
  JS.length (historyOf m s') = cursorOf m s + 2 /\
  cursorOf m s' = cursorOf m s + 1 /\
  cursorOf m s' = JS.length (historyOf m s') - 1 /\
  lookup (historyOf m s') (cursorOf m s') = Some (dataUrlPrefix ++ img) /\
  (forall i, 0 <= i <= cursorOf m s ->
     lookup (historyOf m s') i = lookup (historyOf m s) i).
Proof.
  intros [Hlo Hhi] Hlt Hcall Hres s'.
  destruct (generate_success remote m fit s w call img w' Hcall Hres)
    as (Hh & Hcur & _). fold s' in Hh, Hcur.
  assert (Hlen : JS.length (historyOf m s') = cursorOf m s + 2).
  { rewrite Hh, length_push, length_slice_prefix; lia. }
  split; [rewrite Hh, slice_prefix by lia; reflexivity|].
  split; [exact Hlen|].
  split; [lia|]. split; [exact Hcur|]. split.
  - rewrite Hcur, Hh, length_push, Z.add_simpl_r. apply lookup_push_last.
  - intros i Hi. rewrite Hh, slice_prefix by lia.
    apply lookup_push_firstn; unfold JS.length in *; lia.
Qed.

Lemma generate_truncates_redo_branch_witness :
  let s := fst (run answeringRemote threeResultsTwoUndos emptyState []) in
  let w := snd (run answeringRemote threeResultsTwoUndos emptyState []) in
  let s' := fst (generate answeringRemote tryon looser s w) in
  (JS.length (historyOf tryon s) = 3 /\ cursorOf tryon s = 0) /\
  historyOf tryon s' =
    firstn (Z.to_nat (cursorOf tryon s + 1)) (historyOf tryon s)
      ++ [dataUrlPrefix ++ lit "R3"] /\
  JS.length (historyOf tryon s') = cursorOf tryon s + 2 /\
  cursorOf tryon s' = cursorOf tryon s + 1.
Proof.
  intros s w s'. split; [split; vm_compute; reflexivity|].
  pose (call := dressModel answeringRemote samplePhoto sampleOutfit looser []).
  assert (Hr : cursorInRange (historyOf tryon s) (cursorOf tryon s))
    by (vm_compute; split; discriminate).
  assert (Hlt : cursorOf tryon s < JS.length (historyOf tryon s) - 1)
    by (vm_compute; reflexivity).
  assert (Hc : clientCall answeringRemote tryon looser s = Some call)
    by reflexivity.
  assert (Hres : call w = (Normal (lit "R3"), snd (call w)))
    by (vm_compute; reflexivity).
  destruct (generate_truncates_redo_branch answeringRemote tryon looser s w
              call (lit "R3") (snd (call w)) Hr Hlt Hc Hres)
    as (Hh & Hlen & Hcur & _).
  split; [exact Hh|]. split; [exact Hlen|exact Hcur].
Defined.

(** The scenario of two generations, an undo and a third generation: two
    entries with the cursor on the second, then the cursor on the first,
    then again two entries, the second one replaced. *)
Example scenario_generate_undo_generate :
  let s2 := fst (run answeringRemote
                   [ ModelImageChange (Some samplePhoto);
                     ClothingImageChange (Some sampleOutfit);
                     GenerateTryOn default; GenerateTryOn default ]
                   emptyState []) in
  let s3 := fst (run answeringRemote twoResultsOneUndo emptyState []) in
  let s4 := fst (run answeringRemote (twoResultsOneUndo ++ [GenerateTryOn default])
                   emptyState []) in
  (JS.length (tryOnHistory s2) = 2 /\ tryOnHistoryIndex s2 = 1) /\
  (tryOnHistoryIndex s3 = 0 /\ resultImage s3 = lookup (tryOnHistory s3) 0) /\
  (tryOnHistory s4 =
     [dataUrlPrefix ++ lit "R0"; dataUrlPrefix ++ lit "R2"] /\
   tryOnHistoryIndex s4 = 1).
Proof.
  intros s2 s3 s4.
  split; [split|split; [split|split]]; vm_compute; reflexivity.
Qed.

(** ** Undo followed by redo *)

Lemma resultImage_eq s :
  resultImage s = lookup (historyOf (mode s) s) (cursorOf (mode s) s).
Proof. unfold resultImage. destruct (mode s); reflexivity. Qed.

(** C3, as stated, fails in the state reached by two successful try-on
    generations and one undo: the cursor is on the first of two entries,
    undo changes nothing there and the redo that follows moves on to the
    second entry. *)
Lemma undo_redo_first_entry_counterexample :
  let s := fst (run answeringRemote twoResultsOneUndo emptyState []) in
  validHistory s /\
  cursorOf (mode s) s = 0 /\
  resultImage s = Some (dataUrlPrefix ++ lit "R0") /\
  resultImage (handleRedo (handleUndo s)) = Some (dataUrlPrefix ++ lit "R1") /\
  resultImage (handleRedo (handleUndo s)) <> resultImage s.
Proof.
  intro s. split.
  - intros []; vm_compute; split; discriminate.
  - split; [vm_compute; reflexivity|].
    split; [vm_compute; reflexivity|].
    split; [vm_compute; reflexivity|].
    vm_compute. discriminate.
Qed.

(** C3, amended.  In a state whose cursors are in range and whose selected
    workflow has its cursor above 0 (undo takes effect) or already on the
    last entry, undo followed by redo shows the entry that was shown before
    the undo, with the same entries and the same cursor. *)
Theorem undo_then_redo_restores_entry (s : AppState) :
  validHistory s ->
  0 < cursorOf (mode s) s \/
  cursorOf (mode s) s = JS.length (historyOf (mode s) s) - 1 ->
  let s' := handleRedo (handleUndo s) in
  resultImage s' = resultImage s /\
  mode s' = mode s /\
  historyOf (mode s) s' = historyOf (mode s) s /\
  cursorOf (mode s) s' = cursorOf (mode s) s.
Proof.
  intros Hv Hc s'.
  assert (Hr := Hv (mode s)). unfold cursorInRange in Hr.
  assert (H : mode s' = mode s /\
              historyOf (mode s) s' = historyOf (mode s) s /\
              cursorOf (mode s) s' = cursorOf (mode s) s).
  { subst s'.
    destruct (Z.lt_ge_cases 0 (cursorOf (mode s) s)) as [Hpos|Hle].
    - destruct (handleUndo_moves s Hpos) as (Hm & Hcur & Hh).
      assert (Hlt : cursorOf (mode (handleUndo s)) (handleUndo s) <
                    JS.length (historyOf (mode (handleUndo s)) (handleUndo s)) - 1)
        by (rewrite Hm, Hcur, Hh; lia).
      destruct (handleRedo_moves (handleUndo s) Hlt) as (Hm' & Hcur' & Hh').
      rewrite Hm in Hm', Hcur', Hh'.
      rewrite Hm', Hcur', Hh', Hcur, Hh. repeat split; lia.
    - rewrite (handleUndo_noop s Hle).
      rewrite (handleRedo_noop s) by lia. repeat split; reflexivity. }
  destruct H as (Hm & Hh & Hcur). repeat split; try assumption.
  rewrite !resultImage_eq, Hm, Hh, Hcur. reflexivity.
Qed.

Lemma undo_then_redo_restores_entry_witness :
  let s := fst (run answeringRemote
                  [ ModelImageChange (Some samplePhoto);
                    ClothingImageChange (Some sampleOutfit);
                    GenerateTryOn default;
                    GenerateTryOn looser ] emptyState []) in
  cursorOf (mode s) s = 1 /\
  resultImage (handleUndo s) = Some (dataUrlPrefix ++ lit "R0") /\
  resultImage (handleRedo (handleUndo s)) = resultImage s.
Proof.
  intro s. split; [vm_compute; reflexivity|].
  split; [vm_compute; reflexivity|].
  refine (proj1 (undo_then_redo_restores_entry s _ _)).
  - intros []; vm_compute; split; discriminate.
  - left. vm_compute. reflexivity.
Defined.

(** ** The generation client, case by case *)

Section ClientFacts.

Variable remote :
  World -> GenerateContentParameters -> Completion GenerateContentResponse.

(** What a call of [dressModel] does, by the outcome of the remote call. *)
Lemma dressModel_run a b fit p w :
  dressModel remote a b fit p w =
  let w1 := w ++ [Invoked (DressModel a b fit p)] in
  let request := dressModel_request a b fit p in
  (match remote w1 request with
   | Normal r =>
       match imageData r with
       | Some d => Normal d
       | None => Throw (ErrorObject dressModel_failed)
       end
   | Throw _ => Throw (ErrorObject dressModel_failed)
   end, w1 ++ [Requested request]).
Proof.
  unfold dressModel, bind, emit, tryCatch, generateContent, throw, ret, imageData. cbv zeta.
  fold (dressModel_request a b fit p).
  destruct (remote _ _) as [r|e]; [|reflexivity].
  destruct (findImagePart r) as [part|]; [|reflexivity].
  destruct (inlineData part); reflexivity.
Qed.

(** What a call of [changeBackground] does. *)
Lemma changeBackground_run src p bg w :
  changeBackground remote src p bg w =
  let w1 := w ++ [Invoked (ChangeBackground src p bg)] in
  let request := changeBackground_request src p bg in
  if (negb (truthy p) || (JS.length (trim p) =? 0)) && isNull bg then
    (Throw (ErrorObject changeBackground_required), w1)
  else
    (match remote w1 request with
     | Normal r =>
         match imageData r with
         | Some d => Normal d
         | None => Throw (ErrorObject changeBackground_failed)
         end
     | Throw _ => Throw (ErrorObject changeBackground_failed)
     end, w1 ++ [Requested request]).
Proof.
  unfold changeBackground, bind, emit, tryCatch, generateContent, throw, ret, imageData, isNull. cbv zeta.
  fold (changeBackground_request src p bg).
  destruct ((negb (truthy p) || (JS.length (trim p) =? 0)) &&
            match bg with None => true | Some _ => false end); [reflexivity|].
  destruct (remote _ _) as [r|e]; [|reflexivity].
  destruct (findImagePart r) as [part|]; [|reflexivity].
  destruct (inlineData part); reflexivity.
Qed.

(** Whatever the generation client throws is an [Error] object. *)
Lemma clientCall_throws m fit s call w e w' :
  clientCall remote m fit s = Some call ->
  call w = (Throw e, w') ->
  exists message, e = ErrorObject message.
Proof.
  intros Hc Hr. destruct m; unfold clientCall in Hc.
  - destruct (modelImage s) as [a|]; [|discriminate].
    destruct (clothingImage s) as [b|]; [|discriminate].
    injection Hc as <-. rewrite dressModel_run in Hr. cbv zeta in Hr.
    injection Hr as He _.
    destruct (remote _ _) as [r|]; [destruct (imageData r)|];
      try discriminate; injection He as <-; eexists; reflexivity.
  - destruct (sourceImage s) as [src|]; [|discriminate].
    destruct (isNull (backgroundImage s) && _); [discriminate|].
    injection Hc as <-. rewrite changeBackground_run in Hr. cbv zeta in Hr.
    destruct (_ && isNull (backgroundImage s)).
    + injection Hr as <- _. eexists; reflexivity.
    + injection Hr as He _.
      destruct (remote _ _) as [r|]; [destruct (imageData r)|];
        try discriminate; injection He as <-; eexists; reflexivity.
Qed.

End ClientFacts.

Lemma requestsOf_app (a b : World) :
  requestsOf (a ++ b) = requestsOf a ++ requestsOf b.
Proof.
  induction a as [|[c|r] a IH]; simpl; [reflexivity|exact IH|].
  rewrite IH. reflexivity.
Qed.

(** ** Rejected and failed generations *)

(** C4.  When required inputs of a workflow are missing (try-on: no model
    image or no clothing image; background change: no source image, or no
    background image together with an empty or white-space-only prompt),
    generate only records a validation message: the trace of effects is
    unchanged, so the generation client is not entered and no request is
    sent, and the entries, the cursor and the loading flag of both
    workflows are as before.  The client has the same guard of its own: on
    a blank prompt without background image it throws before any request. *)
Theorem generate_rejects_missing_inputs
    (remote : World -> GenerateContentParameters ->
              Completion GenerateContentResponse)
    (m : AppMode) (fit : FitAdjustment) (s : AppState) (w : World) :
  inputsMissing m s ->
  let s' := fst (generate remote m fit s w) in
  let w' := snd (generate remote m fit s w) in
  errorOf m s' = Some (validationMessage m s) /\
  w' = w /\
  (forall m',
     historyOf m' s' = historyOf m' s /\ cursorOf m' s' = cursorOf m' s /\
     loadingOf m' s' = loadingOf m' s) /\
  (forall src p, blank p ->
     fst (changeBackground remote src p None w) =
       Throw (ErrorObject changeBackground_required) /\
     requestsOf (snd (changeBackground remote src p None w)) = requestsOf w).
Proof.
  intros Hmiss s' w'. apply (clientCall_none remote m fit s) in Hmiss.
  destruct (generate_reject remote m fit s w Hmiss) as (He & Hw & Hsame).
  split; [exact He|]. split; [exact Hw|]. split; [exact Hsame|].
  intros src p Hp. rewrite changeBackground_run. cbv zeta.
  apply blank_truthy_guard in Hp. rewrite Hp. cbn [isNull andb fst snd].
  split; [reflexivity|].
  rewrite requestsOf_app. apply app_nil_r.
Qed.

Lemma generate_rejects_missing_inputs_witness :
  let s := fst (run answeringRemote blankBackgroundRequest emptyState []) in
  errorOf background (fst (generate answeringRemote background default s [])) =
    Some (lit "Please either upload a new background image or describe the background you want.") /\
  snd (generate answeringRemote background default s []) = [].
Proof.
  intro s.
  assert (Hmiss : inputsMissing background s).
  { right. split; [reflexivity|]. vm_compute. repeat constructor. }
  destruct (generate_rejects_missing_inputs answeringRemote background default
              s [] Hmiss) as (He & Hw & _).
  split; [exact He|exact Hw].
Defined.

(** C5.  When generate reaches the generation client and the client fails,
    the message of the thrown error becomes the error message of the
    workflow, its loading flag is cleared, and the entries and cursors are
    those from before the attempt. *)
Theorem generate_failure_keeps_history
    (remote : World -> GenerateContentParameters ->
              Completion GenerateContentResponse)
    (m : AppMode) (fit : FitAdjustment) (s : AppState) (w : World)
    (call : M jsstring) (e : Thrown) (w' : World) :
  clientCall remote m fit s = Some call ->
  call w = (Throw e, w') ->
  let s' := fst (generate remote m fit s w) in
  (exists message, e = ErrorObject message /\ errorOf m s' = Some message) /\
  loadingOf m s' = false /\
  (forall m',
     historyOf m' s' = historyOf m' s /\ cursorOf m' s' = cursorOf m' s).
Proof.
  intros Hc Hr s'.
  destruct (generate_failure remote m fit s w call e w' Hc Hr)
    as (He & Hl & _ & Hsame).
  destruct (clientCall_throws remote m fit s call w e w' Hc Hr) as [msg ->].
  split; [exists msg; split; [reflexivity|exact He]|].
  split; [exact Hl|exact Hsame].
Qed.

Lemma generate_failure_keeps_history_witness :
  let s := fst (run tiringRemote twoResultsOneUndo emptyState []) in
  let w := snd (run tiringRemote twoResultsOneUndo emptyState []) in
  let s' := fst (generate tiringRemote tryon looser s w) in
  (JS.length (historyOf tryon s) = 2 /\ cursorOf tryon s = 0) /\
  (exists message,
     ErrorObject dressModel_failed = ErrorObject message /\
     errorOf tryon s' = Some message) /\
  loadingOf tryon s' = false /\
  historyOf tryon s' = historyOf tryon s /\
  cursorOf tryon s' = cursorOf tryon s.
Proof.
  intros s w s'. split; [split; vm_compute; reflexivity|].
  pose (call := dressModel tiringRemote samplePhoto sampleOutfit looser []).
  assert (Hc : clientCall tiringRemote tryon looser s = Some call)
    by reflexivity.
  assert (Hr : call w = (Throw (ErrorObject dressModel_failed), snd (call w)))
    by (vm_compute; reflexivity).
  destruct (generate_failure_keeps_history tiringRemote tryon looser s w call
              _ _ Hc Hr) as (He & Hl & Hsame).
  split; [exact He|]. split; [exact Hl|]. exact (Hsame tryon).
Defined.

(** ** The two failure modes of the generation client *)

Section FailureModes.

Variable remote :
  World -> GenerateContentParameters -> Completion GenerateContentResponse.

(** Every failure of [dressModel] carries the one message of its [catch]
    clause: the error thrown inside [try] for a response without image is
    caught there and replaced. *)
Lemma dressModel_throws a b fit p w e w' :
  dressModel remote a b fit p w = (Throw e, w') ->
  e = ErrorObject dressModel_failed.
Proof.
  rewrite dressModel_run. cbv zeta. intro H. injection H as He _.
  destruct (remote _ _) as [r|]; [destruct (imageData r)|];
    try discriminate; injection He as <-; reflexivity.
Qed.

(** After its guard, every failure of [changeBackground] carries the one
    message of its [catch] clause. *)
Lemma changeBackground_throws src p bg w e w' :
  changeBackground remote src p bg w = (Throw e, w') ->
  e = ErrorObject changeBackground_required \/
  e = ErrorObject changeBackground_failed.
Proof.
  rewrite changeBackground_run. cbv zeta.
  destruct (_ && isNull bg); intro H; injection H as He _.
  - left. symmetry. exact He.
  - right. destruct (remote _ _) as [r|]; [destruct (imageData r)|];
      try discriminate; injection He as <-; reflexivity.
Qed.

(** On success [dressModel] returns the data of the image part found. *)
Lemma dressModel_returns a b fit p w d w' :
  dressModel remote a b fit p w = (Normal d, w') ->
  exists r,
    remote (w ++ [Invoked (DressModel a b fit p)])
      (dressModel_request a b fit p) = Normal r /\
    imageData r = Some d.
Proof.
  rewrite dressModel_run. cbv zeta. intro H. injection H as Hd _.
  destruct (remote _ _) as [r|]; [|discriminate].
  exists r. split; [reflexivity|].
  destruct (imageData r); [injection Hd as ->; reflexivity|discriminate].
Qed.

End FailureModes.

(** The image part found in a response is the first part of the first
    candidate that carries inline data. *)
Lemma imageData_first (before after : list ResponsePart) (blob : Blob)
    (t : option jsstring) (others : list Candidate) :
  Forall (fun p => inlineData p = None) before ->
  imageData
    {| candidates := Some
         ({| content := Some
               {| parts := Some
                    (before ++ {| inlineData := Some blob; text := t |}
                       :: after) |} |} :: others) |}
  = Some (data blob).
Proof.
  intro H. unfold imageData, findImagePart.
  cbn [candidates nth_error content parts].
  induction H as [|p before Hp _ IH]; cbn [app find inlineData].
  - reflexivity.
  - rewrite Hp. exact IH.
Qed.

(** C6 (what the code does).  With a remote whose model declines (a
    response without image part) [dressModel] throws the same message as
    with a remote whose call rejects: the message of its [catch] clause,
    not the message written for a response without image.  The same holds
    for [changeBackground]. *)
Theorem no_image_failure_is_rewrapped :
  fst (dressModel decliningRemote samplePhoto sampleOutfit default [] []) =
    Throw (ErrorObject dressModel_failed) /\
  fst (dressModel rejectingRemote samplePhoto sampleOutfit default [] []) =
    Throw (ErrorObject dressModel_failed) /\
  dressModel_failed <> dressModel_noImage /\
  fst (changeBackground decliningRemote samplePhoto (lit "a beach") None []) =
    Throw (ErrorObject changeBackground_failed) /\
  fst (changeBackground rejectingRemote samplePhoto (lit "a beach") None []) =
    Throw (ErrorObject changeBackground_failed) /\
  changeBackground_failed <> changeBackground_noImage.
Proof.
  repeat split; try (vm_compute; reflexivity); vm_compute; discriminate.
Qed.

(** ** Stored entries *)

Lemma find_retype (contentType : jsstring) (ps : list ResponsePart) :
  find (fun part => match inlineData part with Some _ => true | None => false end)
    (map (retypePart contentType) ps) =
  option_map (retypePart contentType)
    (find (fun part =>
             match inlineData part with Some _ => true | None => false end) ps).
Proof.
  induction ps as [|p ps IH]; cbn [map find option_map]; [reflexivity|].
  unfold retypePart at 1. cbn [inlineData].
  destruct (inlineData p); [reflexivity|exact IH].
Qed.

Lemma imageData_retype (contentType : jsstring) (r : GenerateContentResponse) :
  imageData (retypeResponse contentType r) = imageData r.
Proof.
  unfold imageData, findImagePart, retypeResponse. cbn [candidates].
  destruct (candidates r) as [[|c cs]|]; cbn [option_map map nth_error];
    try reflexivity.
  cbn [content]. destruct (content c) as [ct|]; cbn [option_map];
    [|reflexivity].
  cbn [parts]. destruct (parts ct) as [ps|]; cbn [option_map]; [|reflexivity].
  rewrite find_retype.
  destruct (find _ ps) as [p|]; cbn [option_map]; [|reflexivity].
  unfold retypePart. cbn [inlineData].
  destruct (inlineData p); reflexivity.
Qed.

Lemma generate_retype (contentType : jsstring)
    (remote : World -> GenerateContentParameters ->
              Completion GenerateContentResponse)
    (m : AppMode) (fit : FitAdjustment) (s : AppState) (w : World) :
  generate (retypeRemote contentType remote) m fit s w =
  generate remote m fit s w.
Proof.
  assert (Hd : forall a b p,
            dressModel (retypeRemote contentType remote) a b fit p w =
            dressModel remote a b fit p w).
  { intros. rewrite !dressModel_run. cbv zeta. unfold retypeRemote.
    destruct (remote _ _); [rewrite imageData_retype|]; reflexivity. }
  assert (Hb : forall src p bg,
            changeBackground (retypeRemote contentType remote) src p bg w =
            changeBackground remote src p bg w).
  { intros. rewrite !changeBackground_run. cbv zeta. unfold retypeRemote.
    destruct (_ && isNull bg); [reflexivity|].
    destruct (remote _ _); [rewrite imageData_retype|]; reflexivity. }
  destruct m; unfold generate, handleGenerateTryOn, handleGenerateBgChange.
  - destruct (modelImage s), (clothingImage s); try reflexivity.
    rewrite Hd. reflexivity.
  - destruct (sourceImage s); [|reflexivity].
    destruct (isNull (backgroundImage s) && _); [reflexivity|].
    rewrite Hb. reflexivity.
Qed.

(** C10.  The entry a successful generate appends, in either workflow, is
    the text [data:image/png;base64,] followed by the string the generation
    client returned, and that string is the data of the image part of the
    response; the content type the response reports for the image plays no
    part: with any other content type the handler ends in the same state. *)
Theorem generated_entry_is_png_data_url
    (remote : World -> GenerateContentParameters ->
              Completion GenerateContentResponse)
    (m : AppMode) (fit : FitAdjustment) (s : AppState) (w : World)
    (call : M jsstring) (img : jsstring) (w' : World) :
  clientCall remote m fit s = Some call ->
  call w = (Normal img, w') ->
  let s' := fst (generate remote m fit s w) in
  historyOf m s' =
    slice (historyOf m s) 0 (cursorOf m s + 1)
      ++ [lit "data:image/png;base64," ++ img] /\
  lookup (historyOf m s') (cursorOf m s') =
    Some (lit "data:image/png;base64," ++ img) /\
  (forall contentType,
     generate (retypeRemote contentType remote) m fit s w =
     generate remote m fit s w).
Proof.
  intros Hc Hr s'.
  destruct (generate_success remote m fit s w call img w' Hc Hr)
    as (Hh & Hcur & _). fold s' in Hh, Hcur.
  split; [exact Hh|]. split.
  - rewrite Hcur, Hh, length_push, Z.add_simpl_r. apply lookup_push_last.
  - intro contentType. apply generate_retype.
Qed.

Lemma generated_entry_is_png_data_url_witness :
  let s := fst (run (typedRemote (lit "image/webp")) describedBackground
                  emptyState []) in
  let s' := fst (generate (typedRemote (lit "image/webp")) background default
                   s []) in
  historyOf background s' = [lit "data:image/png;base64,AAEC"].
Proof.
  intros s s'.
  pose (call := changeBackground (typedRemote (lit "image/webp")) samplePhoto
                  (lit "a beach") None).
  assert (Hc : clientCall (typedRemote (lit "image/webp")) background default s
               = Some call) by reflexivity.
  assert (Hr : call [] = (Normal (lit "AAEC"), snd (call [])))
    by (vm_compute; reflexivity).
  exact (proj1 (generated_entry_is_png_data_url _ background default s []
                  call _ _ Hc Hr)).
Defined.

(** ** Prompt builders *)

Lemma isBlank_spec (s : jsstring) : isBlank s = true <-> blank s.
Proof.
  unfold isBlank, blank. rewrite forallb_forall, Forall_forall. reflexivity.
Qed.






Lemma backgroundInstruction_clause (backgroundPrompt : jsstring) :
  backgroundInstruction backgroundPrompt = backgroundClause backgroundPrompt.
Proof.
  unfold backgroundInstruction, backgroundClause. cbv zeta.
  destruct (isBlank backgroundPrompt) eqn:E.
  - apply isBlank_spec in E. apply blank_truthy_guard in E.
    apply orb_true_iff in E.
    replace (truthy backgroundPrompt &&
             (JS.length (trim backgroundPrompt) >? 0)) with false;
      [reflexivity|].
    symmetry. apply andb_false_iff. destruct E as [E|E].
    + left. apply negb_true_iff. exact E.
    + right. apply Z.eqb_eq in E. rewrite E. reflexivity.
  - assert (Hnb : ~ blank backgroundPrompt).
    { intro H. apply isBlank_spec in H. congruence. }
    replace (truthy backgroundPrompt &&
             (JS.length (trim backgroundPrompt) >? 0)) with true;
      [reflexivity|].
    symmetry. apply andb_true_iff. split.
    + destruct backgroundPrompt; [exfalso; apply Hnb; constructor|reflexivity].
    + apply Z.gtb_lt.
      destruct (Z.eq_dec (JS.length (trim backgroundPrompt)) 0) as [H0|H0].
      * exfalso. apply Hnb. apply length_trim_zero. apply Z.eqb_eq. exact H0.
      * pose proof (length_nonneg (trim backgroundPrompt)). lia.
Qed.

Lemma fitInstruction_clause (fit : FitAdjustment) :
  fitInstruction fit = fitClause fit.
Proof. destruct fit; reflexivity. Qed.

(** C9.  The try-on instruction is a function of the fit and the background
    text alone: it is the fixed scaffolding around one background clause
    and one fit clause.  The fit clause is empty for [default], the
    form-fitting clause for [tighter] and the relaxed clause for [looser];
    the background clause is the preserve clause when the background text
    is empty or white space only, and otherwise the replace clause with the
    text between quotes, unchanged.  The clauses of different cases differ,
    and the text part of the request [dressModel] sends is this instruction
    whatever the images, the effects so far and the remote are. *)
Theorem dressModel_prompt_clauses (fit : FitAdjustment)
    (backgroundPrompt : jsstring) :
  dressModel_prompt fit backgroundPrompt =
    dressModel_prompt_head ++ backgroundClause backgroundPrompt ++
    dressModel_prompt_mid ++ fitClause fit ++ dressModel_prompt_tail /\
  (fitClause default = [] /\
   includes (lit "form-fitting") (fitClause tighter) = true /\
   includes (lit "relaxed") (fitClause looser) = true /\
   fitClause tighter <> fitClause looser /\
   fitClause tighter <> fitClause default /\
   fitClause looser <> fitClause default) /\
  backgroundClause backgroundPrompt =
    (if isBlank backgroundPrompt
     then lit "The original background from the first image must be preserved perfectly."
     else lit "The original background must be replaced with a new one described as: "
            ++ dq ++ backgroundPrompt ++ dq ++
          lit ". The new background should be photorealistic and blend seamlessly with the model.") /\
  (forall userText,
     preserveBackgroundClause <> replaceBackgroundClause userText) /\
  (forall remote modelImage clothingImage w,
     nth_error
       (contents_parts
          (dressModel_request modelImage clothingImage fit backgroundPrompt)) 2
       = Some (TextPart (dressModel_prompt fit backgroundPrompt)) /\
     requestsOf
       (snd (dressModel remote modelImage clothingImage fit backgroundPrompt w))
       = requestsOf w ++
         [dressModel_request modelImage clothingImage fit backgroundPrompt]).
Proof.
  split.
  { unfold dressModel_prompt.
    rewrite backgroundInstruction_clause, fitInstruction_clause. reflexivity. }
  split.
  { repeat split; try (vm_compute; reflexivity); vm_compute; discriminate. }
  split; [reflexivity|].
  split.
  { intros userText H. unfold preserveBackgroundClause, replaceBackgroundClause in H.
    apply (f_equal (fun l => nth 24 l 0%N)) in H.
    vm_compute in H. discriminate. }
  intros remote a b w. split; [reflexivity|].
  rewrite dressModel_run. cbv zeta. cbn [snd].
  rewrite !requestsOf_app. cbn [requestsOf]. rewrite app_nil_r. reflexivity.
Qed.



(** ** Rehydration *)

Section Rehydration.

Variable rt : Runtime.

Lemma useHistoryState_absent storage historyKey indexKey :
  storage historyKey = None \/ storage historyKey = Some [] ->
  useHistoryState rt storage historyKey indexKey =
    (arrayOf rt [], numberOf rt (Some (-1))).
Proof.
  intros [H|H]; unfold useHistoryState, initialHistory, initialHistoryIndex;
    rewrite H; cbv zeta; cbn [truthy tryReturn];
    rewrite strictlyEqual_numbers; reflexivity.
Qed.

Lemma useHistoryState_unparseable storage historyKey indexKey text e :
  storage historyKey = Some text ->
  JSON_parse rt text = Throw e ->
  useHistoryState rt storage historyKey indexKey =
    (arrayOf rt [], numberOf rt (Some (-1))).
Proof.
  intros H He. destruct text as [|c text].
  - apply useHistoryState_absent. right. exact H.
  - unfold useHistoryState, initialHistory, initialHistoryIndex.
    rewrite H. cbv zeta. cbn [truthy]. rewrite He. reflexivity.
Qed.

(** The cursor the hook computes beside a stored value whose [.length]
    is an integer, as that of every array is. *)
Lemma useHistoryState_length storage historyKey indexKey text v n :
  storage historyKey = Some text ->
  text <> [] ->
  JSON_parse rt text = Normal v ->
  lengthOf rt v = Normal (numberOf rt (Some n)) ->
  useHistoryState rt storage historyKey indexKey =
  (v,
   numberOf rt
     (Some
        (if n =? 0 then -1
         else
           match storedCursor storage indexKey with
           | Some i => if (i >=? 0) && (i <? n) then i else n - 1
           | None => n - 1
           end))).
Proof.
  intros H Hne Hp Hl. unfold useHistoryState, initialHistory,
    initialHistoryIndex, storedCursor.
  rewrite H. cbv zeta. destruct text as [|c text]; [congruence|].
  cbn [truthy]. rewrite Hp. cbn [tryReturn]. f_equal.
  rewrite Hl, strictlyEqual_numbers.
  destruct (n =? 0); [reflexivity|].
  destruct (storage indexKey) as [[|d t]|]; cbn [truthy].
  - (* the empty text is falsy: -1, which is out of range *)
    replace (parseInt10 []) with (@None Z) by reflexivity.
    replace (-1 >=? 0) with false by reflexivity.
    rewrite subtract_number. reflexivity.
  - destruct (parseInt10 (d :: t)) as [i|].
    + destruct (i >=? 0); cbn [andb].
      * rewrite lessThan_number.
        destruct (i <? n); [reflexivity|].
        rewrite subtract_number. reflexivity.
      * rewrite subtract_number. reflexivity.
    + rewrite subtract_number. reflexivity.
  - replace (-1 >=? 0) with false by reflexivity.
    rewrite subtract_number. reflexivity.
Qed.

(** The cursor the hook computes beside a stored array of strings. *)
Lemma useHistoryState_parsed storage historyKey indexKey text parsed :
  storage historyKey = Some text ->
  text <> [] ->
  JSON_parse rt text = Normal (arrayOf rt parsed) ->
  useHistoryState rt storage historyKey indexKey =
  (arrayOf rt parsed,
   numberOf rt
     (Some
        (if JS.length parsed =? 0 then -1
         else
           match storedCursor storage indexKey with
           | Some i =>
               if (i >=? 0) && (i <? JS.length parsed) then i
               else JS.length parsed - 1
           | None => JS.length parsed - 1
           end))).
Proof.
  intros H Hne Hp.
  apply (useHistoryState_length _ _ _ _ _ _ H Hne Hp), lengthOf_array.
Qed.

(** When what is stored gives a list of entries, the hook starts with an
    array of strings and an integer cursor that is -1 on the empty array
    and on an entry otherwise. *)
Lemma useHistoryState_entries storage historyKey indexKey :
  storesEntries rt storage historyKey ->
  exists entries cursor,
    useHistoryState rt storage historyKey indexKey =
      (arrayOf rt entries, numberOf rt (Some cursor)) /\
    ((entries = [] /\ cursor = -1) \/ 0 <= cursor <= JS.length entries - 1).
Proof.
  unfold storesEntries. intro H.
  assert (Hempty : useHistoryState rt storage historyKey indexKey =
                     (arrayOf rt [], numberOf rt (Some (-1))) ->
          exists entries cursor,
            useHistoryState rt storage historyKey indexKey =
              (arrayOf rt entries, numberOf rt (Some cursor)) /\
            ((entries = [] /\ cursor = -1) \/
             0 <= cursor <= JS.length entries - 1)).
  { intro He. exists [], (-1). split; [exact He|left; split; reflexivity]. }
  destruct (storage historyKey) as [text|] eqn:Hs.
  - destruct H as [->|[[e He]|[entries Hp]]].
    + apply Hempty, useHistoryState_absent. right. exact Hs.
    + apply Hempty, (useHistoryState_unparseable _ _ _ _ _ Hs He).
    + destruct text as [|c text].
      * apply Hempty, useHistoryState_absent. right. exact Hs.
      * eexists entries, _. split.
        { apply (useHistoryState_parsed _ _ _ _ _ Hs ltac:(discriminate) Hp). }
        pose proof (length_nonneg entries) as Hlen.
        destruct (Z.eqb_spec (JS.length entries) 0) as [H0|H0].
        -- left. split; [|reflexivity]. destruct entries; [reflexivity|].
           unfold JS.length in H0. cbn in H0. lia.
        -- right. destruct (storedCursor storage indexKey) as [i|]; [|lia].
           destruct (Z.geb_spec i 0), (Z.ltb_spec i (JS.length entries));
             cbn [andb]; lia.
  - apply Hempty, useHistoryState_absent. left. exact Hs.
Qed.

(** A stored value whose [.length] throws, as that of [null] does. *)
Lemma useHistoryState_length_throws storage historyKey indexKey text v e :
  storage historyKey = Some text ->
  text <> [] ->
  JSON_parse rt text = Normal v ->
  lengthOf rt v = Throw e ->
  useHistoryState rt storage historyKey indexKey =
    (v, numberOf rt (Some (-1))).
Proof.
  intros H Hne Hp Hl. unfold useHistoryState, initialHistory,
    initialHistoryIndex.
  rewrite H. cbv zeta. destruct text as [|c text]; [congruence|].
  cbn [truthy]. rewrite Hp, Hl. reflexivity.
Qed.

(** A stored value whose [.length] is [undefined], as that of a number
    is: [undefined] is not 0, no number is less than it, and it less 1 is
    [NaN]. *)
Lemma useHistoryState_length_undefined storage historyKey indexKey text v u :
  storage historyKey = Some text ->
  text <> [] ->
  JSON_parse rt text = Normal v ->
  lengthOf rt v = Normal u ->
  strictlyEqual rt u (numberOf rt (Some 0)) = false ->
  (forall n, lessThan rt n u = Normal false) ->
  subtract rt u (Some 1) = Normal (numberOf rt None) ->
  useHistoryState rt storage historyKey indexKey = (v, numberOf rt None).
Proof.
  intros H Hne Hp Hl H0 Hlt Hsub. unfold useHistoryState, initialHistory,
    initialHistoryIndex.
  rewrite H. cbv zeta. destruct text as [|c text]; [congruence|].
  cbn [truthy]. rewrite Hp, Hl, H0, Hlt, Hsub.
  match goal with
  | |- context [if ?b then Normal false else Normal false] =>
      destruct b
  end; reflexivity.
Qed.

Lemma array_length_does_not_throw v e :
  lengthOf rt v = Throw e -> forall entries, v <> arrayOf rt entries.
Proof.
  intros Hl entries ->. rewrite lengthOf_array in Hl. discriminate.
Qed.

Lemma array_length_is_a_bound v u :
  lengthOf rt v = Normal u ->
  (forall n, lessThan rt n u = Normal false) ->
  forall entries, v <> arrayOf rt entries.
Proof.
  intros Hl Hlt entries ->. rewrite lengthOf_array in Hl.
  injection Hl as <-.
  specialize (Hlt (Some (JS.length entries - 1))).
  rewrite lessThan_number in Hlt. injection Hlt as Hlt.
  apply Z.ltb_ge in Hlt. lia.
Qed.

Lemma NaN_is_no_integer i : numberOf rt None <> numberOf rt (Some i).
Proof.
  intro H.
  pose proof (strictlyEqual_numbers rt (Some i) (Some i)) as Hi.
  rewrite <- H, strictlyEqual_numbers, Z.eqb_refl in Hi. discriminate.
Qed.

End Rehydration.

(** C7.  Rehydration by [useHistoryState], for every stored text.

    Without a stored entry list, with the empty text, or with a text
    [JSON.parse] rejects, the hook starts with the empty array and cursor
    -1.  With a stored array of
    strings it starts with that array and an integer cursor within
    [-1, entries.length - 1]: the stored integer when it is a valid index
    and the last index otherwise (nothing stored, not a number, or out of
    range).

    Nothing tests that the parsed value is an array.  Whatever the text
    parses to becomes the history.  Beside a value whose [.length] is an
    integer that is not negative, as that of any array or string is, the
    cursor is computed from that integer in the same way and lies within
    [-1, length - 1].  For a value whose [.length] throws, as
    [null]'s does, the second initialiser catches the [TypeError]: the
    hook starts with that value as its history, which is no array, beside
    cursor -1.  For a value whose [.length] is [undefined], as a number's
    is, the cursor is [NaN], which is no integer, beside a history that is
    no array. *)
Theorem rehydration_keeps_what_was_parsed
    (rt : Runtime) (storage : Storage) (historyKey indexKey : jsstring) :
  let history := fst (useHistoryState rt storage historyKey indexKey) in
  let historyIndex := snd (useHistoryState rt storage historyKey indexKey) in
  (storage historyKey = None \/ storage historyKey = Some [] ->
   history = arrayOf rt [] /\ historyIndex = numberOf rt (Some (-1))) /\
  (forall text e,
     storage historyKey = Some text -> JSON_parse rt text = Throw e ->
     history = arrayOf rt [] /\ historyIndex = numberOf rt (Some (-1))) /\
  (forall text entries,
     storage historyKey = Some text -> text <> [] ->
     JSON_parse rt text = Normal (arrayOf rt entries) ->
     history = arrayOf rt entries /\
     exists cursor,
       historyIndex = numberOf rt (Some cursor) /\
       cursorInRange entries cursor /\
       (entries <> [] ->
        cursor =
          match storedCursor storage indexKey with
          | Some i =>
              if (0 <=? i) && (i <? JS.length entries) then i
              else JS.length entries - 1
          | None => JS.length entries - 1
          end)) /\
  (forall text v,
     storage historyKey = Some text -> text <> [] ->
     JSON_parse rt text = Normal v ->
     history = v /\
     (forall n,
        lengthOf rt v = Normal (numberOf rt (Some n)) -> 0 <= n ->
        exists cursor,
          historyIndex = numberOf rt (Some cursor) /\
          -1 <= cursor <= n - 1 /\
          (n <> 0 ->
           cursor =
             match storedCursor storage indexKey with
             | Some i => if (0 <=? i) && (i <? n) then i else n - 1
             | None => n - 1
             end)) /\
     (forall e,
        lengthOf rt v = Throw e ->
        historyIndex = numberOf rt (Some (-1)) /\
        forall entries, history <> arrayOf rt entries) /\
     (forall u,
        lengthOf rt v = Normal u ->
        strictlyEqual rt u (numberOf rt (Some 0)) = false ->
        (forall n, lessThan rt n u = Normal false) ->
        subtract rt u (Some 1) = Normal (numberOf rt None) ->
        historyIndex = numberOf rt None /\
        (forall entries, history <> arrayOf rt entries) /\
        forall cursor, historyIndex <> numberOf rt (Some cursor))).
Proof.
  intros history historyIndex.
  split; [|split; [|split]].
  - intro H. subst history historyIndex.
    rewrite (useHistoryState_absent rt _ _ _ H).
    split; reflexivity.
  - intros text e H He. subst history historyIndex.
    rewrite (useHistoryState_unparseable rt _ _ _ _ _ H He).
    split; reflexivity.
  - intros text entries Hs Hne Hp. subst history historyIndex.
    rewrite (useHistoryState_parsed rt _ _ _ _ _ Hs Hne Hp). cbn [fst snd].
    split; [reflexivity|]. eexists. split; [reflexivity|].
    pose proof (length_nonneg entries) as Hlen.
    destruct (Z.eqb_spec (JS.length entries) 0) as [H0|H0].
    + split; [unfold cursorInRange; lia|].
      intro Hnil. destruct entries; [congruence|discriminate].
    + split.
      * unfold cursorInRange.
        destruct (storedCursor storage indexKey) as [i|]; [|lia].
        destruct (Z.geb_spec i 0), (Z.ltb_spec i (JS.length entries));
          cbn [andb]; lia.
      * intros _. destruct (storedCursor storage indexKey) as [i|];
          [|reflexivity].
        rewrite Z.geb_leb. reflexivity.
  - intros text v Hs Hne Hp. subst history historyIndex.
    assert (Hh : fst (useHistoryState rt storage historyKey indexKey) = v).
    { unfold useHistoryState, initialHistory. cbn [fst]. rewrite Hs.
      cbv zeta. destruct text as [|c text]; [congruence|].
      cbn [truthy]. rewrite Hp. reflexivity. }
    split; [exact Hh|]. split; [|split].
    + intros n Hl Hn.
      rewrite (useHistoryState_length rt _ _ _ _ _ _ Hs Hne Hp Hl).
      cbn [snd]. eexists. split; [reflexivity|].
      destruct (Z.eqb_spec n 0) as [H0|H0]; [split; [lia|congruence]|].
      split.
      * destruct (storedCursor storage indexKey) as [i|]; [|lia].
        destruct (Z.geb_spec i 0), (Z.ltb_spec i n); cbn [andb]; lia.
      * intros _. destruct (storedCursor storage indexKey) as [i|];
          [|reflexivity].
        rewrite Z.geb_leb. reflexivity.
    + intros e Hl.
      rewrite (useHistoryState_length_throws rt _ _ _ _ _ _ Hs Hne Hp Hl).
      cbn [fst snd]. split; [reflexivity|].
      apply (array_length_does_not_throw rt v e Hl).
    + intros u Hl H0 Hlt Hsub.
      rewrite (useHistoryState_length_undefined rt _ _ _ _ _ _
                 Hs Hne Hp Hl H0 Hlt Hsub).
      cbn [fst snd]. split; [reflexivity|]. split.
      * apply (array_length_is_a_bound rt v u Hl Hlt).
      * intro cursor. apply NaN_is_no_integer.
Qed.

Lemma rehydration_keeps_what_was_parsed_witness :
  (* the stored text [null]: a history that is [null] *)
  useHistoryState sampleRuntime
    (tryOnStorage (Some (lit "null")) (Some (lit "0")))
    TRYON_HISTORY_KEY TRYON_HISTORY_INDEX_KEY
    = (nullValue, numberValue (Some (-1))) /\
  (* the stored text [7]: a history that is 7 and a cursor that is [NaN] *)
  useHistoryState sampleRuntime
    (tryOnStorage (Some (lit "7")) (Some (lit "0")))
    TRYON_HISTORY_KEY TRYON_HISTORY_INDEX_KEY
    = (numberValue (Some 7), numberValue None) /\
  (* a stored cursor beyond the two stored entries *)
  useHistoryState sampleRuntime
    (tryOnStorage (Some twoEntriesText) (Some (lit "7")))
    TRYON_HISTORY_KEY TRYON_HISTORY_INDEX_KEY
    = (arrayValue [lit "a"; lit "b"], numberValue (Some 1)) /\
  (* a stored entry list that does not parse *)
  useHistoryState sampleRuntime
    (tryOnStorage (Some (lit "[object Object]")) (Some (lit "0")))
    TRYON_HISTORY_KEY TRYON_HISTORY_INDEX_KEY
    = (arrayValue [], numberValue (Some (-1))).
Proof.
  split; [|split; [|split]].
  - destruct (rehydration_keeps_what_was_parsed sampleRuntime
                (tryOnStorage (Some (lit "null")) (Some (lit "0")))
                TRYON_HISTORY_KEY TRYON_HISTORY_INDEX_KEY)
      as (_ & _ & _ & H).
    assert (Hne : lit "null" <> []) by discriminate.
    destruct (H (lit "null") nullValue eq_refl Hne eq_refl)
      as (Hh & _ & Ht & _).
    destruct (Ht _ eq_refl) as [Hc _].
    rewrite (surjective_pairing (useHistoryState _ _ _ _)), Hh, Hc.
    reflexivity.
  - destruct (rehydration_keeps_what_was_parsed sampleRuntime
                (tryOnStorage (Some (lit "7")) (Some (lit "0")))
                TRYON_HISTORY_KEY TRYON_HISTORY_INDEX_KEY)
      as (_ & _ & _ & H).
    assert (Hne : lit "7" <> []) by discriminate.
    destruct (H (lit "7") (numberValue (Some 7)) eq_refl Hne eq_refl)
      as (Hh & _ & _ & Hu).
    assert (Hlt : forall n, lessThan sampleRuntime n undefinedValue
                            = Normal false)
      by (intros [n|]; reflexivity).
    destruct (Hu undefinedValue eq_refl eq_refl Hlt eq_refl) as [Hc _].
    rewrite (surjective_pairing (useHistoryState _ _ _ _)), Hh, Hc.
    reflexivity.
  - destruct (rehydration_keeps_what_was_parsed sampleRuntime
                (tryOnStorage (Some twoEntriesText) (Some (lit "7")))
                TRYON_HISTORY_KEY TRYON_HISTORY_INDEX_KEY)
      as (_ & _ & H & _).
    assert (Hne : twoEntriesText <> []) by discriminate.
    assert (Hnil : [lit "a"; lit "b"] <> []) by discriminate.
    destruct (H twoEntriesText [lit "a"; lit "b"] eq_refl Hne eq_refl)
      as (Hh & cursor & Hc & _ & Hlast).
    rewrite (surjective_pairing (useHistoryState _ _ _ _)), Hh, Hc.
    rewrite (Hlast Hnil). reflexivity.
  - destruct (rehydration_keeps_what_was_parsed sampleRuntime
                (tryOnStorage (Some (lit "[object Object]")) (Some (lit "0")))
                TRYON_HISTORY_KEY TRYON_HISTORY_INDEX_KEY)
      as (_ & H & _ & _).
    destruct (H (lit "[object Object]")
                (ErrorObject (lit "Unexpected token in JSON")) eq_refl eq_refl)
      as [Hh Hc].
    rewrite (surjective_pairing (useHistoryState _ _ _ _)), Hh, Hc.
    reflexivity.
Defined.

(** * Further properties of the code *)

(** ** Numerals and [parseInt] *)

Lemma digits_numeral_acc (d : Decimal.uint) : forall acc,
  digits (Z.pos acc) (numeral d) = Z.pos (Pos.of_uint_acc d acc).
Proof.
  induction d; intro acc; cbn [numeral Pos.of_uint_acc digits];
    try reflexivity;
    unfold digit; cbn [N.leb N.compare Pos.compare Pos.compare_cont andb];
    cbn [Z.of_N]; rewrite <- IHd; f_equal; lia.
Qed.

Lemma digits_numeral (d : Decimal.uint) :
  digits 0 (numeral d) = Z.of_N (Pos.of_uint d).
Proof.
  induction d; cbn [numeral Pos.of_uint digits]; try reflexivity;
    unfold digit; cbn [N.leb N.compare Pos.compare Pos.compare_cont andb];
    cbn [Z.of_N Z.sub Z.mul Z.add Z.pos_sub Z.opp Z.double Z.succ_double
         Z.pred_double Pos.pred_double];
    try exact IHd; apply digits_numeral_acc.
Qed.

Lemma numeral_head (d : Decimal.uint) :
  d <> Decimal.Nil ->
  exists c rest v,
    numeral d = c :: rest /\ digit c = Some v /\ isWhiteSpace c = false /\
    c <> 45%N /\ c <> 43%N.
Proof.
  intro H. destruct d; [congruence| | | | | | | | | | ];
    cbn [numeral]; eexists; eexists; eexists;
    (split; [reflexivity|]); (split; [reflexivity|]);
    (split; [reflexivity|]); split; discriminate.
Qed.

Lemma to_int_nonnil (z : Z) :
  match Z.to_int z with
  | Decimal.Pos d => d <> Decimal.Nil
  | Decimal.Neg d => d <> Decimal.Nil
  end.
Proof.
  destruct z; cbn [Z.to_int]; try apply DecimalPos.Unsigned.to_uint_nonnil.
  discriminate.
Qed.

(** The integer written by [String] is read back by [parseInt]. *)
Lemma parseInt10_String_of_integer (z : Z) :
  parseInt10 (String_of_integer z) = Some z.
Proof.
  pose proof (DecimalZ.of_to z) as Hz. pose proof (to_int_nonnil z) as Hn.
  unfold String_of_integer. destruct (Z.to_int z) as [d|d];
    destruct (numeral_head d Hn) as (c & rest & v & Hd & Hv & Hw & H45 & H43);
    cbn [Z.of_int] in Hz; unfold Z.of_uint in Hz;
    rewrite <- digits_numeral in Hz.
  - unfold parseInt10. rewrite Hd. cbn [trimStart]. rewrite Hw.
    apply N.eqb_neq in H45, H43. rewrite H45, H43, Hv, <- Hd, Hz.
    f_equal. lia.
  - unfold parseInt10. cbn [trimStart]. 
    replace (isWhiteSpace 45) with false by reflexivity.
    rewrite N.eqb_refl, Hd, Hv, <- Hd. f_equal. lia.
Qed.

(** ** [split] *)

Lemma split_without (sep : N) (s : jsstring) :
  ~ In sep s -> split sep s = [s].
Proof.
  induction s as [|c s IH]; intro H; cbn [split]; [reflexivity|].
  destruct (N.eqb_spec c sep) as [->|Hne].
  - exfalso. apply H. left. reflexivity.
  - rewrite IH; [reflexivity|]. intro Hin. apply H. right. exact Hin.
Qed.

Lemma split_at_first (sep : N) (h r : jsstring) :
  ~ In sep h -> split sep (h ++ sep :: r) = h :: split sep r.
Proof.
  induction h as [|c h IH]; intro H; cbn [split app].
  - rewrite N.eqb_refl. reflexivity.
  - destruct (N.eqb_spec c sep) as [->|Hne].
    + exfalso. apply H. left. reflexivity.
    + rewrite IH; [reflexivity|]. intro Hin. apply H. right. exact Hin.
Qed.

(** Every text is comma-free or splits at its first comma. *)
Lemma first_separator (sep : N) (s : jsstring) :
  ~ In sep s \/ exists h r, s = h ++ sep :: r /\ ~ In sep h.
Proof.
  induction s as [|c s IH].
  - left. intros [].
  - destruct (N.eqb_spec c sep) as [->|Hne].
    + right. exists [], s. split; [reflexivity|]. intros [].
    + destruct IH as [IH|(h & r & -> & Hh)].
      * left. intros [H|H]; [congruence|auto].
      * right. exists (c :: h), r. split; [reflexivity|].
        intros [H|H]; [congruence|auto].
Qed.

Lemma split_segments_without (sep : N) (s : jsstring) :
  Forall (fun segment => ~ In sep segment) (split sep s).
Proof.
  induction s as [|c s IH]; cbn [split].
  - constructor; [intros []|constructor].
  - destruct (N.eqb_spec c sep) as [->|Hne].
    + constructor; [intros []|exact IH].
    + destruct (split sep s) as [|segment segments].
      * constructor; [|constructor]. intros [H|[]]. congruence.
      * inversion IH as [|? ? Hs Hr]; subst. constructor; [|exact Hr].
        intros [H|H]; [congruence|auto].
Qed.

(** ** [fileToBase64] *)

Lemma upToSemicolon_group (s group : jsstring) :
  upToSemicolon s = Some group ->
  Forall (fun c => c <> 59%N /\ isLineTerminator c = false) group /\
  exists rest, s = group ++ 59%N :: rest.
Proof.
  revert group. induction s as [|c s IH]; intros group H; cbn [upToSemicolon] in H;
    [discriminate|].
  destruct (N.eqb_spec c 59) as [->|Hne].
  - injection H as <-. split; [constructor|]. exists s. reflexivity.
  - destruct (isLineTerminator c) eqn:El; [discriminate|].
    destruct (upToSemicolon s) as [g|]; [|discriminate].
    injection H as <-. destruct (IH g eq_refl) as (Hg & rest & ->).
    split; [constructor; auto|]. exists rest. reflexivity.
Qed.

Lemma upToSemicolon_app (group rest : jsstring) :
  Forall (fun c => c <> 59%N /\ isLineTerminator c = false) group ->
  upToSemicolon (group ++ 59%N :: rest) = Some group.
Proof.
  induction 1 as [|c group [Hc Hl] _ IH]; cbn [upToSemicolon app].
  - reflexivity.
  - apply N.eqb_neq in Hc. rewrite Hc, Hl, IH. reflexivity.
Qed.

Lemma matchMimeType_within (header group : jsstring) :
  matchMimeType header = Some group ->
  Forall (fun c => c <> 59%N /\ isLineTerminator c = false) group /\
  exists before after, header = before ++ 58%N :: group ++ 59%N :: after.
Proof.
  induction header as [|c header IH]; cbn [matchMimeType]; [discriminate|].
  intro H.
  assert (Hrec : matchMimeType header = Some group ->
                 Forall (fun c => c <> 59%N /\ isLineTerminator c = false) group /\
                 exists before after,
                   c :: header = before ++ 58%N :: group ++ 59%N :: after).
  { intro H'. destruct (IH H') as (Hg & before & after & ->).
    split; [exact Hg|]. exists (c :: before), after. reflexivity. }
  destruct (N.eqb_spec c 58) as [->|Hne]; [|auto].
  destruct (upToSemicolon header) as [g|] eqn:E; [|auto].
  injection H as ->. destruct (upToSemicolon_group _ _ E) as (Hg & rest & ->).
  split; [exact Hg|]. exists [], rest. reflexivity.
Qed.

(** The content type chosen for a header. *)
Lemma contentType_wellFormed (header : jsstring) :
  ~ In 44%N header ->
  let chosen :=
    match matchMimeType header with
    | Some group =>
        if truthy group then group else lit "application/octet-stream"
    | None => lit "application/octet-stream"
    end in
  chosen <> [] /\
  Forall (fun c => c <> 44%N /\ c <> 59%N /\ isLineTerminator c = false) chosen.
Proof.
  intros Hh chosen.
  assert (Hdefault :
    lit "application/octet-stream" <> [] /\
    Forall (fun c => c <> 44%N /\ c <> 59%N /\ isLineTerminator c = false)
      (lit "application/octet-stream")).
  { split; [discriminate|]. vm_compute.
    repeat (constructor; [repeat split; discriminate|]). constructor. }
  subst chosen. destruct (matchMimeType header) as [group|] eqn:E;
    [|exact Hdefault].
  destruct group as [|c group]; [exact Hdefault|]. cbn [truthy].
  split; [discriminate|].
  destruct (matchMimeType_within _ _ E) as (Hg & before & after & ->).
  apply Forall_forall. intros x Hx.
  rewrite Forall_forall in Hg. destruct (Hg x Hx) as [H1 H2].
  repeat split; auto. intros ->. apply Hh.
  apply in_or_app. right. right. apply in_or_app. left. exact Hx.
Qed.

(** [fileToBase64] on a text cut at its first comma and at the next. *)
Lemma fileToBase64_cut (file : File) (header data rest : jsstring) :
  readAsDataURL file = LoadedString (header ++ 44%N :: data ++ rest) ->
  ~ In 44%N header -> ~ In 44%N data ->
  (rest = [] \/ exists rest', rest = 44%N :: rest') ->
  fileToBase64 file =
  if truthy header && truthy data then
    Normal {| base64 := data;
              mimeType :=
                match matchMimeType header with
                | Some group =>
                    if truthy group then group
                    else lit "application/octet-stream"
                | None => lit "application/octet-stream"
                end |}
  else Throw (ErrorObject invalidDataUrl).
Proof.
  intros Hr Hh Hd Hrest. unfold fileToBase64. rewrite Hr. cbv zeta.
  rewrite (split_at_first 44 header _ Hh).
  assert (Hs : exists segments, split 44 (data ++ rest) = data :: segments).
  { destruct Hrest as [->|[rest' ->]].
    - rewrite app_nil_r, (split_without 44 data Hd). eexists; reflexivity.
    - rewrite (split_at_first 44 data _ Hd). eexists; reflexivity. }
  destruct Hs as [segments ->]. cbn [nth_error falsy].
  destruct (truthy header), (truthy data); reflexivity.
Qed.

Lemma first_separator_unique (sep : N) (h r h' r' : jsstring) :
  h ++ sep :: r = h' ++ sep :: r' -> ~ In sep h -> ~ In sep h' ->
  h = h' /\ r = r'.
Proof.
  revert h'. induction h as [|c h IH]; intros [|c' h'] H Hh Hh';
    cbn [app] in H.
  - injection H as ->. split; reflexivity.
  - injection H as <- _. exfalso. apply Hh'. left. reflexivity.
  - injection H as -> _. exfalso. apply Hh. left. reflexivity.
  - injection H as <- H. destruct (IH h' H) as [-> ->].
    + intro Hin. apply Hh. right. exact Hin.
    + intro Hin. apply Hh'. right. exact Hin.
    + split; reflexivity.
Qed.

Lemma fileToBase64_cases (file : File) (result : jsstring) :
  readAsDataURL file = LoadedString result ->
  (dataUrlShape result /\ exists image, fileToBase64 file = Normal image) \/
  (~ dataUrlShape result /\
   fileToBase64 file = Throw (ErrorObject invalidDataUrl)).
Proof.
  intro Hr.
  destruct (first_separator 44 result) as [Hc|(header & r & -> & Hch)].
  { right. split.
    - intros (h & d & rest & -> & _). apply Hc.
      apply in_or_app. right. left. reflexivity.
    - unfold fileToBase64. rewrite Hr. cbv zeta.
      rewrite (split_without 44 result Hc). reflexivity. }
  assert (Hcut : exists data rest,
            r = data ++ rest /\ ~ In 44%N data /\
            (rest = [] \/ exists rest', rest = 44%N :: rest')).
  { destruct (first_separator 44 r) as [Hcd|(data & r' & -> & Hcd)].
    - exists r, []. rewrite app_nil_r. auto.
    - exists data, (44%N :: r'). repeat split; auto.
      right. eexists; reflexivity. }
  destruct Hcut as (data & rest & -> & Hcd & Hrest).
  rewrite (fileToBase64_cut file header data rest Hr Hch Hcd Hrest).
  destruct header as [|c header]; [|destruct data as [|d data]];
    cbn [truthy andb].
  - right. split; [|reflexivity].
    intros (h & d & rest0 & He & Hh & Hch0 & _).
    destruct (first_separator_unique 44 [] _ h _ He) as [<- _]; auto.
  - right. split; [|reflexivity].
    intros (h & d & rest0 & He & Hh & Hch0 & Hd & Hcd0 & Hrest0).
    destruct (first_separator_unique 44 _ _ h _ He Hch Hch0) as [<- He'].
    cbn [app] in He'. destruct d as [|x d]; [congruence|].
    destruct Hrest as [->|[rest' ->]]; [discriminate|].
    injection He' as <- _. apply Hcd0. left. reflexivity.
  - left. split; [|eexists; reflexivity].
    exists (c :: header), (d :: data), rest.
    repeat split; auto; discriminate.
Qed.

(** X1.  When the file reads as a string, [fileToBase64] rejects with
    "Invalid data URL format." exactly when the text lacks the accepted
    shape (no comma, nothing before the first comma, or nothing between it
    and the next comma or the end), and resolves otherwise; a result that
    is not a string is rejected with its own message and a read error is
    passed on. *)
Theorem fileToBase64_rejects_malformed (file : File) :
  match readAsDataURL file with
  | LoadedString result =>
      (dataUrlShape result <-> exists image, fileToBase64 file = Normal image) /\
      (~ dataUrlShape result <->
       fileToBase64 file = Throw (ErrorObject invalidDataUrl))
  | LoadedOther =>
      fileToBase64 file =
        Throw (ErrorObject (lit "Failed to read file as a data URL."))
  | ReadFailed error => fileToBase64 file = Throw error
  end.
Proof.
  destruct (readAsDataURL file) as [result| |error] eqn:Hr;
    try (unfold fileToBase64; rewrite Hr; reflexivity).
  destruct (fileToBase64_cases file result Hr) as [[Hs [image Hi]]|[Hn Ht]].
  - split; split; intro H.
    + exists image. exact Hi.
    + exact Hs.
    + contradiction.
    + congruence.
  - split; split; intro H.
    + contradiction.
    + destruct H as [image Hi]. congruence.
    + exact Ht.
    + exact Hn.
Qed.

Lemma matchMimeType_none (header : jsstring) :
  ~ In 58%N header \/ ~ In 59%N header -> matchMimeType header = None.
Proof.
  intro H. destruct (matchMimeType header) as [group|] eqn:E; [|reflexivity].
  destruct (matchMimeType_within _ _ E) as (_ & before & after & ->).
  exfalso. destruct H as [H|H]; apply H; apply in_or_app; right.
  - left. reflexivity.
  - right. apply in_or_app. right. left. reflexivity.
Qed.

Lemma matchMimeType_leftmost (before group after : jsstring) :
  ~ In 58%N before ->
  Forall (fun c => c <> 59%N /\ isLineTerminator c = false) group ->
  matchMimeType (before ++ 58%N :: group ++ 59%N :: after) = Some group.
Proof.
  intros Hb Hg. induction before as [|c before IH]; cbn [app matchMimeType].
  - rewrite N.eqb_refl, (upToSemicolon_app group after Hg). reflexivity.
  - destruct (N.eqb_spec c 58) as [->|Hne].
    + exfalso. apply Hb. left. reflexivity.
    + apply IH. intro Hin. apply Hb. right. exact Hin.
Qed.

(** X2.  Whatever [fileToBase64] resolves with is well formed: the data is
    not empty and has no comma, and the content type is not empty and has
    no comma, semicolon or line terminator.  The text read is cut at its
    first comma into a header and the rest; the data is the rest up to its
    first comma or its end, and the content type is the group of the
    leftmost match of [/:(.*?);/] in the header when that group is not
    empty, and [application/octet-stream] otherwise.  So the content type
    is [application/octet-stream] when the header names none (it has no
    colon, no semicolon, or nothing between its first colon and the
    semicolon after it), and it is the text between the first colon and
    the next semicolon when that text is not empty and has no line
    terminator. *)
Theorem fileToBase64_result_wellFormed (file : File) (image : Base64File) :
  fileToBase64 file = Normal image ->
  wellFormedImage image /\
  exists header rest,
    readAsDataURL file =
      LoadedString (header ++ 44%N :: base64 image ++ rest) /\
    ~ In 44%N header /\
    (rest = [] \/ exists rest', rest = 44%N :: rest') /\
    mimeType image =
      match matchMimeType header with
      | Some (c :: group) => c :: group
      | _ => lit "application/octet-stream"
      end /\
    (~ In 58%N header \/ ~ In 59%N header \/
     (exists before after,
        header = before ++ 58%N :: 59%N :: after /\ ~ In 58%N before) ->
     mimeType image = lit "application/octet-stream") /\
    (forall before group after,
       header = before ++ 58%N :: group ++ 59%N :: after ->
       ~ In 58%N before ->
       group <> [] ->
       Forall (fun c => c <> 59%N /\ isLineTerminator c = false) group ->
       mimeType image = group).
Proof.
  intro H. destruct (readAsDataURL file) as [result| |error] eqn:Hr;
    try (unfold fileToBase64 in H; rewrite Hr in H; discriminate).
  destruct (fileToBase64_cases file result Hr)
    as [[(header & data & rest & -> & Hh & Hch & Hd & Hcd & Hrest) _]|[_ Ht]];
    [|congruence].
  rewrite (fileToBase64_cut file header data rest Hr Hch Hcd Hrest) in H.
  assert (Hth : truthy header = true)
    by (destruct header; [congruence|reflexivity]).
  assert (Htd : truthy data = true)
    by (destruct data; [congruence|reflexivity]).
  rewrite Hth, Htd in H. cbn [andb] in H. injection H as <-.
  split.
  { unfold wellFormedImage. cbn [base64 mimeType].
    split; [exact Hd|]. split; [exact Hcd|].
    apply (contentType_wellFormed _ Hch). }
  exists header, rest. cbn [base64 mimeType].
  split; [reflexivity|]. split; [exact Hch|]. split; [exact Hrest|].
  split; [|split].
  - destruct (matchMimeType header) as [[|c group]|]; reflexivity.
  - intros [Hn|[Hn|(before & after & He & Hb)]].
    + rewrite (matchMimeType_none _ (or_introl Hn)). reflexivity.
    + rewrite (matchMimeType_none _ (or_intror Hn)). reflexivity.
    + rewrite He.
      change (before ++ 58%N :: 59%N :: after)
        with (before ++ 58%N :: [] ++ 59%N :: after).
      rewrite (matchMimeType_leftmost before [] after Hb (Forall_nil _)).
      reflexivity.
  - intros before group after He Hb Hne Hg. rewrite He.
    rewrite (matchMimeType_leftmost before group after Hb Hg).
    destruct group; [congruence|reflexivity].
Qed.

(** X2 at a data URL whose header names no content type. *)
Lemma fileToBase64_result_wellFormed_witness :
  let file :=
    {| type := [];
       readAsDataURL := LoadedString (lit "data:;base64,AAEC,tail") |} in
  let image :=
    {| base64 := lit "AAEC"; mimeType := lit "application/octet-stream" |} in
  fileToBase64 file = Normal image /\
  wellFormedImage image /\
  exists header rest,
    readAsDataURL file =
      LoadedString (header ++ 44%N :: base64 image ++ rest) /\
    ~ In 44%N header /\
    (rest = [] \/ exists rest', rest = 44%N :: rest') /\
    mimeType image =
      match matchMimeType header with
      | Some (c :: group) => c :: group
      | _ => lit "application/octet-stream"
      end /\
    (~ In 58%N header \/ ~ In 59%N header \/
     (exists before after,
        header = before ++ 58%N :: 59%N :: after /\ ~ In 58%N before) ->
     mimeType image = lit "application/octet-stream") /\
    (forall before group after,
       header = before ++ 58%N :: group ++ 59%N :: after ->
       ~ In 58%N before ->
       group <> [] ->
       Forall (fun c => c <> 59%N /\ isLineTerminator c = false) group ->
       mimeType image = group).
Proof.
  intros file image.
  assert (H : fileToBase64 file = Normal image) by reflexivity.
  split; [exact H|].
  exact (fileToBase64_result_wellFormed file image H).
Defined.

(** X3.  Reading back the preview URL of a well-formed image gives that
    image: [fileToBase64] inverts the data URL the uploader builds. *)
Theorem fileToBase64_previewUrl (file : File) (image : Base64File)
    (url : jsstring) :
  wellFormedImage image ->
  ImageUploader.previewUrl (Some image) = Some url ->
  readAsDataURL file = LoadedString url ->
  fileToBase64 file = Normal image.
Proof.
  intros (Hb & Hcb & Hm & Hcm) Hu Hr.
  set (header := lit "data:" ++ mimeType image ++ lit ";base64").
  assert (He : url = header ++ 44%N :: base64 image ++ []).
  { cbn [ImageUploader.previewUrl] in Hu. injection Hu as <-.
    subst header. rewrite app_nil_r, <- !app_assoc. reflexivity. }
  rewrite He in Hr.
  assert (Hch : ~ In 44%N header).
  { subst header. intro Hin. apply in_app_or in Hin. destruct Hin as [Hin|Hin].
    - vm_compute in Hin. intuition discriminate.
    - apply in_app_or in Hin. destruct Hin as [Hin|Hin].
      + rewrite Forall_forall in Hcm. destruct (Hcm _ Hin) as [Hx _].
        congruence.
      + vm_compute in Hin. intuition discriminate. }
  rewrite (fileToBase64_cut file header (base64 image) [] Hr Hch Hcb
             (or_introl eq_refl)).
  assert (Hmatch : matchMimeType header = Some (mimeType image)).
  { subst header. cbn [lit list_ascii_of_string map app matchMimeType].
    change (N_of_ascii "d" =? 58)%N with false.
    change (N_of_ascii "a" =? 58)%N with false.
    change (N_of_ascii "t" =? 58)%N with false.
    change (N_of_ascii ":" =? 58)%N with true. cbv iota.
    change (N_of_ascii ";" :: map N_of_ascii (list_ascii_of_string "base64"))
      with (59%N :: lit "base64").
    rewrite upToSemicolon_app; [reflexivity|].
    apply Forall_forall. intros x Hx. rewrite Forall_forall in Hcm.
    destruct (Hcm x Hx) as (_ & H1 & H2). auto. }
  rewrite Hmatch.
  destruct (base64 image) eqn:Eb; [congruence|].
  destruct (mimeType image) eqn:Em; [congruence|].
  cbn [truthy andb]. rewrite <- Eb, <- Em. destruct image; reflexivity.
Qed.

Lemma fileToBase64_previewUrl_witness :
  fileToBase64
    {| type := lit "image/png";
       readAsDataURL :=
         LoadedString (lit "data:image/png;base64,iVBORw0KGgo=") |}
  = Normal samplePhoto.
Proof.
  apply (fileToBase64_previewUrl _ samplePhoto
           (lit "data:image/png;base64,iVBORw0KGgo=")).
  - unfold wellFormedImage. cbn [base64 mimeType samplePhoto].
    split; [discriminate|]. split.
    + vm_compute. intuition discriminate.
    + split; [discriminate|]. vm_compute.
      repeat (constructor; [repeat split; discriminate|]). constructor.
  - reflexivity.
  - reflexivity.
Defined.

(** X1 at the text [data:] read from an empty file. *)
Lemma fileToBase64_rejects_malformed_witness :
  fileToBase64 {| type := []; readAsDataURL := LoadedString (lit "data:") |}
  = Throw (ErrorObject invalidDataUrl).
Proof.
  pose proof (fileToBase64_rejects_malformed
                {| type := []; readAsDataURL := LoadedString (lit "data:") |})
    as H.
  cbn [readAsDataURL] in H. apply (proj2 H).
  intros (h & d & rest & He & _). apply (f_equal (fun l => existsb (N.eqb 44) l)) in He.
  rewrite existsb_app in He. cbn [existsb] in He.
  rewrite N.eqb_refl, orb_true_r in He. vm_compute in He. discriminate.
Defined.

(** ** [ImageUploader] *)

Lemma replaceWhiteSpaceRuns_clean (replacement : jsstring) :
  Forall (fun c => isWhiteSpace c = false) replacement ->
  forall s inRun,
    Forall (fun c => isWhiteSpace c = false)
      (replaceWhiteSpaceRuns replacement inRun s).
Proof.
  intros Hr s. induction s as [|c s IH]; intro inRun;
    cbn [replaceWhiteSpaceRuns]; [constructor|].
  destruct (isWhiteSpace c) eqn:E.
  - destruct inRun; [apply IH|]. apply Forall_app. split; [exact Hr|apply IH].
  - constructor; [exact E|apply IH].
Qed.

(** X5.  The id given to a file input (and to the [htmlFor] of its label)
    contains no white space, whatever the title of the uploader. *)
Theorem inputId_without_whitespace (title : jsstring) :
  Forall (fun c => isWhiteSpace c = false) (ImageUploader.inputId title).
Proof.
  unfold ImageUploader.inputId. apply Forall_app. split.
  - vm_compute. repeat (constructor; [reflexivity|]). constructor.
  - apply replaceWhiteSpaceRuns_clean. constructor; [reflexivity|constructor].
Qed.

(** X4.  A chosen file always reaches [onImageChange]: with the converted
    image, or with [null] when the conversion fails, which empties the
    slot, disables the generate button and makes a try-on generate stop at
    validation without entering the generation client.  A dropped file
    whose type does not start with [image/] is ignored; any other dropped
    file is treated like a chosen one. *)
Theorem failed_upload_empties_slot
    (remote : World -> GenerateContentParameters ->
              Completion GenerateContentResponse)
    (file : File) (s : AppState) (fit : FitAdjustment) (w : World) :
  let s' := applyChange setModelImage
              (ImageUploader.handleFileChange (Some file)) s in
  match fileToBase64 file with
  | Normal image => modelImage s' = Some image
  | Throw _ =>
      modelImage s' = None /\
      generateTryOnDisabled s' = true /\
      snd (handleGenerateTryOn remote fit s' w) = w /\
      tryOnError (fst (handleGenerateTryOn remote fit s' w)) =
        Some (lit "Please upload both a model image and a clothing image.") /\
      tryOnHistory (fst (handleGenerateTryOn remote fit s' w)) = tryOnHistory s /\
      tryOnHistoryIndex (fst (handleGenerateTryOn remote fit s' w)) =
        tryOnHistoryIndex s
  end /\
  ImageUploader.handleDrop (Some file) =
    (if startsWith (lit "image/") (type file)
     then ImageUploader.handleFileChange (Some file)
     else None) /\
  (startsWith (lit "image/") (type file) = false ->
   applyChange setModelImage (ImageUploader.handleDrop (Some file)) s = s).
Proof.
  intro s'. subst s'.
  unfold ImageUploader.handleFileChange, ImageUploader.handleDrop,
    ImageUploader.convert, applyChange.
  split.
  - destruct (fileToBase64 file) as [image|e]; [reflexivity|].
    unfold handleGenerateTryOn, generateTryOnDisabled. state_simpl.
    repeat split; reflexivity.
  - split; [reflexivity|]. intros ->. reflexivity.
Qed.

(** ** The histories of a mounted component *)

Section Tight.

Variable remote :
  World -> GenerateContentParameters -> Completion GenerateContentResponse.

Lemma generate_tight m fit s w :
  tightHistory s -> tightHistory (fst (generate remote m fit s w)).
Proof.
  intros H.
  destruct (clientCall remote m fit s) as [call|] eqn:Hc.
  - destruct (call w) as [[img|e] w'] eqn:Hr.
    + destruct (generate_success remote m fit s w call img w' Hc Hr)
        as (Hh & Hcur & _ & _ & _ & Hother).
      intro m'. destruct (AppMode_eq_dec m' m) as [->|Hne].
      * right. rewrite Hcur, Hh, length_push.
        pose proof (length_nonneg (slice (historyOf m s) 0 (cursorOf m s + 1))).
        lia.
      * destruct (Hother m' Hne) as [-> ->]. apply H.
    + destruct (generate_failure remote m fit s w call e w' Hc Hr)
        as (_ & _ & _ & Hsame).
      intro m'. destruct (Hsame m') as [-> ->]. apply H.
  - destruct (generate_reject remote m fit s w Hc) as (_ & _ & Hsame).
    intro m'. destruct (Hsame m') as (-> & -> & _). apply H.
Qed.

Lemma step_tight e s w :
  tightHistory s -> tightHistory (fst (step remote e s w)).
Proof.
  intros H. destruct e; cbn [step];
    try (intro m'; specialize (H m'); destruct m'; state_simpl; exact H).
  - apply (generate_tight tryon fit s w H).
  - apply (generate_tight background default s w H).
  - cbn [fst]. intro m. pose proof (H tryon) as Ht.
    pose proof (H background) as Hb. unfold handleUndo.
    destruct (mode s);
      [destruct (Z.gtb_spec (tryOnHistoryIndex s) 0)
      |destruct (Z.gtb_spec (bgHistoryIndex s) 0)];
      destruct m; state_simpl; auto; right; lia.
  - cbn [fst]. intro m. pose proof (H tryon) as Ht.
    pose proof (H background) as Hb. unfold handleRedo.
    destruct (mode s);
      [destruct (Z.ltb_spec (tryOnHistoryIndex s)
                   (JS.length (tryOnHistory s) - 1))
      |destruct (Z.ltb_spec (bgHistoryIndex s) (JS.length (bgHistory s) - 1))];
      destruct m; state_simpl; auto; right;
      [destruct Ht as [[Ht1 Ht2]|Ht]|destruct Hb as [[Hb1 Hb2]|Hb]];
      lia.
Qed.

Lemma run_tight es : forall s w,
  tightHistory s -> tightHistory (fst (run remote es s w)).
Proof.
  induction es as [|e es IH]; intros s w H; cbn [run].
  - exact H.
  - pose proof (step_tight e s w H) as Hs.
    destruct (step remote e s w) as [s1 w1]. apply IH. exact Hs.
Qed.

End Tight.

Lemma tight_valid s : tightHistory s -> validHistory s.
Proof.
  intros H m. unfold cursorInRange. destruct (H m) as [[Hh ->]|Hc].
  - rewrite Hh. cbn. lia.
  - lia.
Qed.

Lemma lookup_in_range {A : Type} (l : list A) (i : Z) :
  0 <= i <= JS.length l - 1 -> exists x, lookup l i = Some x.
Proof.
  intros H. unfold lookup, JS.length in *.
  replace (i <? 0) with false by (symmetry; apply Z.ltb_ge; lia).
  destruct (nth_error l (Z.to_nat i)) eqn:E; [eexists; reflexivity|].
  apply nth_error_None in E. lia.
Qed.

(** X6.  When each of the two stored histories is absent, empty,
    unparseable or an array of strings, the two hooks start with arrays of
    strings and integer cursors, and whatever events follow in the
    component mounted with them, each workflow is either empty with cursor
    -1 or has its cursor on one of its entries; so the selected workflow
    shows no result image exactly when its history is empty. *)
Theorem mounted_history_shows_an_entry
    (rt : Runtime)
    (remote : World -> GenerateContentParameters ->
              Completion GenerateContentResponse)
    (storage : Storage) :
  storesEntries rt storage TRYON_HISTORY_KEY ->
  storesEntries rt storage BG_HISTORY_KEY ->
  exists tryOn bg : list jsstring * Z,
    useHistoryState rt storage TRYON_HISTORY_KEY TRYON_HISTORY_INDEX_KEY =
      (arrayOf rt (fst tryOn), numberOf rt (Some (snd tryOn))) /\
    useHistoryState rt storage BG_HISTORY_KEY BG_HISTORY_INDEX_KEY =
      (arrayOf rt (fst bg), numberOf rt (Some (snd bg))) /\
    forall (es : list Event) (w : World),
      let s := fst (run remote es (initialState tryOn bg) w) in
      tightHistory s /\
      (resultImage s = None <-> historyOf (mode s) s = []).
Proof.
  intros Ht Hb.
  destruct (useHistoryState_entries rt storage TRYON_HISTORY_KEY
              TRYON_HISTORY_INDEX_KEY Ht) as (h1 & i1 & E1 & T1).
  destruct (useHistoryState_entries rt storage BG_HISTORY_KEY
              BG_HISTORY_INDEX_KEY Hb) as (h2 & i2 & E2 & T2).
  exists (h1, i1), (h2, i2).
  split; [exact E1|]. split; [exact E2|].
  intros es w s.
  assert (H : tightHistory s).
  { apply run_tight. intros []; unfold historyOf, cursorOf, initialState;
      cbn [tryOnHistory tryOnHistoryIndex bgHistory bgHistoryIndex fst snd];
      assumption. }
  split; [exact H|]. rewrite resultImage_eq.
  destruct (H (mode s)) as [[Hh Hc]|Hc].
  - rewrite Hh, Hc. split; reflexivity.
  - destruct (lookup_in_range _ _ Hc) as [x Hx]. rewrite Hx.
    split; [discriminate|]. intro Hh. rewrite Hh in Hc. cbn in Hc. lia.
Qed.

(** ** Undo and redo buttons *)

(** X8.  In a state where each cursor is -1 on an empty history or on an
    entry: when redo is enabled by [canRedo], it moves to the next entry,
    after it undo is enabled, and that undo restores cursor, entries and
    result image; when undo is enabled by [canUndo], it moves to the
    previous entry and after it redo is enabled. *)
Theorem redo_then_undo_restores (s : AppState) :
  tightHistory s ->
  (canRedo s = true ->
   canUndo (handleRedo s) = true /\
   cursorOf (mode s) (handleRedo s) = cursorOf (mode s) s + 1 /\
   resultImage (handleRedo s) =
     lookup (historyOf (mode s) s) (cursorOf (mode s) s + 1) /\
   resultImage (handleRedo s) <> None /\
   cursorOf (mode s) (handleUndo (handleRedo s)) = cursorOf (mode s) s /\
   historyOf (mode s) (handleUndo (handleRedo s)) = historyOf (mode s) s /\
   resultImage (handleUndo (handleRedo s)) = resultImage s) /\
  (canUndo s = true ->
   canRedo (handleUndo s) = true /\
   cursorOf (mode s) (handleUndo s) = cursorOf (mode s) s - 1 /\
   resultImage (handleUndo s) =
     lookup (historyOf (mode s) s) (cursorOf (mode s) s - 1) /\
   resultImage (handleUndo s) <> None).
Proof.
  intro Ht. pose proof (Ht (mode s)) as Hm. split.
  - intro Hr.
    assert (Hlt : cursorOf (mode s) s < JS.length (historyOf (mode s) s) - 1).
    { unfold canRedo in Hr. destruct (mode s); apply Z.ltb_lt; exact Hr. }
    assert (Hpos : 0 <= cursorOf (mode s) s).
    { destruct Hm as [[Hh Hc]|Hc]; [|lia]. rewrite Hh in Hlt. cbn in Hlt. lia. }
    destruct (handleRedo_moves s Hlt) as (Hmode & Hcur & Hh).
    assert (Hu : 0 < cursorOf (mode (handleRedo s)) (handleRedo s))
      by (rewrite Hmode, Hcur; lia).
    destruct (handleUndo_moves (handleRedo s) Hu) as (Hmode' & Hcur' & Hh').
    rewrite Hmode in Hmode', Hcur', Hh'.
    assert (Hres : resultImage (handleRedo s) =
                   lookup (historyOf (mode s) s) (cursorOf (mode s) s + 1))
      by (rewrite resultImage_eq, Hmode, Hcur, Hh; reflexivity).
    split.
    { unfold canUndo. rewrite Hmode. rewrite Hmode in Hu.
      destruct (mode s); apply Z.gtb_lt; exact Hu. }
    split; [exact Hcur|]. split; [exact Hres|]. split.
    { rewrite Hres.
      destruct (lookup_in_range (historyOf (mode s) s) (cursorOf (mode s) s + 1))
        as [x ->]; [lia|discriminate]. }
    split; [rewrite Hcur', Hcur; lia|]. split; [rewrite Hh', Hh; reflexivity|].
    rewrite !resultImage_eq, Hmode', Hcur', Hh', Hcur, Hh. f_equal. lia.
  - intro Hu.
    assert (Hpos : 0 < cursorOf (mode s) s).
    { unfold canUndo in Hu. destruct (mode s); apply Z.gtb_lt; exact Hu. }
    destruct (handleUndo_moves s Hpos) as (Hmode & Hcur & Hh).
    assert (Hc : 0 <= cursorOf (mode s) s <= JS.length (historyOf (mode s) s) - 1)
      by (destruct Hm as [[_ Hc]|Hc]; lia).
    assert (Hres : resultImage (handleUndo s) =
                   lookup (historyOf (mode s) s) (cursorOf (mode s) s - 1))
      by (rewrite resultImage_eq, Hmode, Hcur, Hh; reflexivity).
    split.
    { unfold canRedo. rewrite Hmode.
      assert (Hlt : cursorOf (mode s) (handleUndo s) <
                    JS.length (historyOf (mode s) (handleUndo s)) - 1)
        by (rewrite Hcur, Hh; lia).
      destruct (mode s); apply Z.ltb_lt; exact Hlt. }
    split; [exact Hcur|]. split; [exact Hres|]. rewrite Hres.
    destruct (lookup_in_range (historyOf (mode s) s) (cursorOf (mode s) s - 1))
      as [x ->]; [lia|discriminate].
Qed.

Lemma redo_then_undo_restores_witness :
  let s := fst (run answeringRemote twoResultsOneUndo emptyState []) in
  canRedo s = true /\
  resultImage (handleRedo s) = Some (dataUrlPrefix ++ lit "R1") /\
  resultImage (handleUndo (handleRedo s)) = resultImage s.
Proof.
  intro s.
  assert (Ht : tightHistory s).
  { intros []; [right|left]; vm_compute; split; try reflexivity; discriminate. }
  assert (Hr : canRedo s = true) by (vm_compute; reflexivity).
  destruct (proj1 (redo_then_undo_restores s Ht) Hr)
    as (_ & _ & Hres & _ & _ & _ & Hback).
  split; [exact Hr|]. split; [|exact Hback].
  rewrite Hres. vm_compute. reflexivity.
Defined.

(** ** Persisting and rehydrating *)

Ltac decide_keys :=
  repeat match goal with
  | |- context [strictEquals ?a ?b] =>
      let v := eval vm_compute in (strictEquals a b) in
      change (strictEquals a b) with v
  end; cbv iota.

Lemma persist_lookup (JSON_stringify : list jsstring -> jsstring)
    (s : AppState) (storage : Storage) :
  let storage' := persist JSON_stringify s storage in
  storage' TRYON_HISTORY_KEY = Some (JSON_stringify (tryOnHistory s)) /\
  storage' TRYON_HISTORY_INDEX_KEY =
    Some (String_of_integer (tryOnHistoryIndex s)) /\
  storage' BG_HISTORY_KEY = Some (JSON_stringify (bgHistory s)) /\
  storage' BG_HISTORY_INDEX_KEY = Some (String_of_integer (bgHistoryIndex s)).
Proof.
  cbv zeta. unfold persist, persistHistoryState, setItem. cbv zeta beta.
  repeat split; decide_keys; reflexivity.
Qed.

Lemma rehydrate_persisted
    (rt : Runtime)
    (storage : Storage) (historyKey indexKey text : jsstring)
    (history : list jsstring) (historyIndex : Z) :
  storage historyKey = Some text ->
  storage indexKey = Some (String_of_integer historyIndex) ->
  text <> [] ->
  JSON_parse rt text = Normal (arrayOf rt history) ->
  (history = [] /\ historyIndex = -1) \/
  0 <= historyIndex <= JS.length history - 1 ->
  useHistoryState rt storage historyKey indexKey =
    (arrayOf rt history, numberOf rt (Some historyIndex)).
Proof.
  intros Hs Hi Hne Hp Ht.
  rewrite (useHistoryState_parsed rt _ _ _ _ _ Hs Hne Hp).
  do 3 f_equal. unfold storedCursor. rewrite Hi, parseInt10_String_of_integer.
  destruct Ht as [[-> ->]|Hc]; [reflexivity|].
  destruct (Z.eqb_spec (JS.length history) 0) as [H0|H0]; [lia|].
  destruct (Z.geb_spec historyIndex 0), (Z.ltb_spec historyIndex (JS.length history));
    cbn [andb]; lia.
Qed.

(** X7.  What the two effects of the hook write for a state in which each
    cursor is -1 on an empty history or on an entry is read back at the
    next mount as the same entries and cursors, provided [JSON.parse]
    reads back what [JSON.stringify] wrote for the two histories. *)
Theorem persisted_history_rehydrates
    (rt : Runtime)
    (JSON_stringify : list jsstring -> jsstring)
    (s : AppState) (storage : Storage) :
  tightHistory s ->
  (forall m,
     JSON_stringify (historyOf m s) <> [] /\
     JSON_parse rt (JSON_stringify (historyOf m s)) =
       Normal (arrayOf rt (historyOf m s))) ->
  let storage' := persist JSON_stringify s storage in
  useHistoryState rt storage'
    TRYON_HISTORY_KEY TRYON_HISTORY_INDEX_KEY =
    (arrayOf rt (tryOnHistory s), numberOf rt (Some (tryOnHistoryIndex s))) /\
  useHistoryState rt storage'
    BG_HISTORY_KEY BG_HISTORY_INDEX_KEY =
    (arrayOf rt (bgHistory s), numberOf rt (Some (bgHistoryIndex s))).
Proof.
  intros Ht Hj storage'.
  destruct (persist_lookup JSON_stringify s storage) as (H1 & H2 & H3 & H4).
  fold storage' in H1, H2, H3, H4.
  split.
  - destruct (Hj tryon) as [Hne Hp].
    apply (rehydrate_persisted rt storage' _ _ _ _ _ H1 H2 Hne Hp).
    exact (Ht tryon).
  - destruct (Hj background) as [Hne Hp].
    apply (rehydrate_persisted rt storage' _ _ _ _ _ H3 H4 Hne Hp).
    exact (Ht background).
Qed.

Lemma persisted_history_rehydrates_witness :
  useHistoryState sampleRuntime
    (persist sampleStringify twoStoredEntries (fun _ => None))
    TRYON_HISTORY_KEY TRYON_HISTORY_INDEX_KEY
    = (arrayValue [lit "a"; lit "b"], numberValue (Some 1)).
Proof.
  refine (proj1 (persisted_history_rehydrates sampleRuntime sampleStringify
                   twoStoredEntries (fun _ => None) _ _)).
  - intros []; [right|left]; vm_compute; split; try reflexivity; discriminate.
  - intros []; split; try discriminate; reflexivity.
Defined.

(** ** What a generate leaves alone *)

Section Frame.

Variable remote :
  World -> GenerateContentParameters -> Completion GenerateContentResponse.

Lemma generate_frame m fit s w :
  let s' := fst (generate remote m fit s w) in
  mode s' = mode s /\
  (forall m', m' <> m ->
     historyOf m' s' = historyOf m' s /\ cursorOf m' s' = cursorOf m' s /\
     errorOf m' s' = errorOf m' s /\ loadingOf m' s' = loadingOf m' s) /\
  (clientCall remote m fit s = None ->
     activeFilter s' = activeFilter s /\ loadingOf m s' = loadingOf m s) /\
  (clientCall remote m fit s <> None ->
     activeFilter s' = lit "none" /\ loadingOf m s' = false).
Proof.
  destruct m; unfold generate, clientCall, handleGenerateTryOn,
    handleGenerateBgChange.
  - destruct (modelImage s) as [a|]; [destruct (clothingImage s) as [b|]|].
    + destruct (dressModel remote a b fit (tryOnBackgroundPrompt s) w)
        as [[img|e] w1]; state_simpl;
        (split; [reflexivity|]);
        (split; [intros [] Hne; [congruence|repeat split; reflexivity]|]);
        split; [discriminate|split; reflexivity|discriminate
               |split; reflexivity].
    + state_simpl. split; [reflexivity|].
      split; [intros [] Hne; [congruence|repeat split; reflexivity]|].
      split; [split; reflexivity|congruence].
    + state_simpl. split; [reflexivity|].
      split; [intros [] Hne; [congruence|repeat split; reflexivity]|].
      split; [split; reflexivity|congruence].
  - destruct (sourceImage s) as [src|].
    + destruct (isNull (backgroundImage s) &&
                negb (truthy (trim (bgChangePrompt s)))).
      * state_simpl. split; [reflexivity|].
        split; [intros [] Hne; [repeat split; reflexivity|congruence]|].
        split; [split; reflexivity|congruence].
      * destruct (changeBackground remote src (bgChangePrompt s)
                    (backgroundImage s) w) as [[img|e] w1]; state_simpl;
          (split; [reflexivity|]);
          (split; [intros [] Hne; [repeat split; reflexivity|congruence]|]);
          split; [discriminate|split; reflexivity|discriminate
                 |split; reflexivity].
    + state_simpl. split; [reflexivity|].
      split; [intros [] Hne; [repeat split; reflexivity|congruence]|].
      split; [split; reflexivity|congruence].
Qed.

(** The guard of the handler and the guard of [changeBackground] agree. *)
Lemma guards_agree (p : jsstring) (bg : option Base64File) :
  (negb (truthy p) || (JS.length (trim p) =? 0)) && isNull bg =
  isNull bg && negb (truthy (trim p)).
Proof.
  rewrite andb_comm. f_equal.
  destruct (truthy (trim p)) eqn:E; cbn [negb].
  - apply not_true_is_false. intro H. apply blank_truthy_guard in H.
    apply truthy_trim in H. congruence.
  - apply blank_truthy_guard. apply truthy_trim. exact E.
Qed.

(** What an accepted generate sends: the request built from the inputs. *)
Lemma generate_requests m fit s w call :
  clientCall remote m fit s = Some call ->
  exists request,
    requestsOf (snd (generate remote m fit s w)) = requestsOf w ++ [request] /\
    (forall e w', call w = (Throw e, w') ->
       e = ErrorObject dressModel_failed \/
       e = ErrorObject changeBackground_failed).
Proof.
  intro Hc. destruct m; unfold clientCall in Hc.
  - destruct (modelImage s) as [a|] eqn:Ea; [|discriminate].
    destruct (clothingImage s) as [b|] eqn:Eb; [|discriminate].
    injection Hc as <-.
    exists (dressModel_request a b fit (tryOnBackgroundPrompt s)). split.
    + unfold generate, handleGenerateTryOn. rewrite Ea, Eb.
      rewrite dressModel_run. cbv zeta. cbn [fst snd].
      rewrite !requestsOf_app. cbn [requestsOf]. rewrite app_nil_r.
      reflexivity.
    + intros e w' H. left. exact (dressModel_throws remote _ _ _ _ _ _ _ H).
  - destruct (sourceImage s) as [src|] eqn:Es; [|discriminate].
    destruct (isNull (backgroundImage s) &&
              negb (truthy (trim (bgChangePrompt s)))) eqn:Eg; [discriminate|].
    injection Hc as <-.
    exists (changeBackground_request src (bgChangePrompt s) (backgroundImage s)).
    split.
    + unfold generate, handleGenerateBgChange. rewrite Es, Eg.
      rewrite changeBackground_run. cbv zeta. rewrite guards_agree, Eg.
      cbn [fst snd]. rewrite !requestsOf_app. cbn [requestsOf].
      rewrite app_nil_r. reflexivity.
    + intros e w'. rewrite changeBackground_run. cbv zeta.
      rewrite guards_agree, Eg. intro H. right. injection H as He _.
      destruct (remote _ _) as [r|]; [destruct (imageData r)|];
        try discriminate; injection He as <-; reflexivity.
Qed.

End Frame.

Lemma handleUndo_frame s :
  mode (handleUndo s) = mode s /\
  (forall m, historyOf m (handleUndo s) = historyOf m s) /\
  (forall m, errorOf m (handleUndo s) = errorOf m s /\
             loadingOf m (handleUndo s) = loadingOf m s) /\
  (forall m, mode s <> m -> cursorOf m (handleUndo s) = cursorOf m s) /\
  (handleUndo s = s \/ activeFilter (handleUndo s) = lit "none").
Proof.
  unfold handleUndo.
  destruct (mode s) eqn:Em;
    [destruct (tryOnHistoryIndex s >? 0)|destruct (bgHistoryIndex s >? 0)];
    state_simpl;
    (split; [auto|]); (split; [intros []; reflexivity|]);
    (split; [intros []; split; reflexivity|]);
    (split; [intros [] Hne; try congruence; reflexivity|]); auto.
Qed.

Lemma handleRedo_frame s :
  mode (handleRedo s) = mode s /\
  (forall m, historyOf m (handleRedo s) = historyOf m s) /\
  (forall m, errorOf m (handleRedo s) = errorOf m s /\
             loadingOf m (handleRedo s) = loadingOf m s) /\
  (forall m, mode s <> m -> cursorOf m (handleRedo s) = cursorOf m s) /\
  (handleRedo s = s \/ activeFilter (handleRedo s) = lit "none").
Proof.
  unfold handleRedo.
  destruct (mode s) eqn:Em;
    [destruct (tryOnHistoryIndex s <? JS.length (tryOnHistory s) - 1)
    |destruct (bgHistoryIndex s <? JS.length (bgHistory s) - 1)];
    state_simpl;
    (split; [auto|]); (split; [intros []; reflexivity|]);
    (split; [intros []; split; reflexivity|]);
    (split; [intros [] Hne; try congruence; reflexivity|]); auto.
Qed.

(** ** Guards *)

(** X9.  The generate buttons, the handlers and the generation client
    guard the same inputs: when a generate button is enabled its handler
    reaches the client, the handler and [changeBackground] test the same
    condition on prompt and background image, and so the message of the
    client's own guard, "A background description or a background image is
    required.", never becomes the error of the workflow. *)
Theorem client_guard_is_unreachable
    (remote : World -> GenerateContentParameters ->
              Completion GenerateContentResponse)
    (s : AppState) (w : World) :
  (generateTryOnDisabled s = false ->
   forall fit, clientCall remote tryon fit s <> None) /\
  (generateBgChangeDisabled s = false ->
   clientCall remote background default s <> None) /\
  (forall (p : jsstring) (bg : option Base64File),
     (negb (truthy p) || (JS.length (trim p) =? 0)) && isNull bg =
     isNull bg && negb (truthy (trim p))) /\
  bgChangeError (fst (handleGenerateBgChange remote s w)) <>
    Some changeBackground_required.
Proof.
  split; [|split; [|split; [exact guards_agree|]]].
  - unfold generateTryOnDisabled, clientCall. intros H fit.
    destruct (modelImage s), (clothingImage s); cbn [isNull orb] in H;
      discriminate.
  - unfold generateBgChangeDisabled, clientCall. intro H.
    destruct (sourceImage s); cbn [isNull orb] in H; [|discriminate].
    destruct (isNull (backgroundImage s) &&
              negb (truthy (trim (bgChangePrompt s)))); cbn [orb] in H;
      discriminate.
  - change (handleGenerateBgChange remote s w)
      with (generate remote background default s w).
    change (bgChangeError (fst (generate remote background default s w)))
      with (errorOf background (fst (generate remote background default s w))).
    destruct (clientCall remote background default s) as [call|] eqn:Hc.
    + destruct (call w) as [[img|e] w'] eqn:Hr.
      * destruct (generate_success remote _ _ _ _ _ _ _ Hc Hr)
          as (_ & _ & -> & _). discriminate.
      * destruct (generate_failure remote _ _ _ _ _ _ _ Hc Hr) as (-> & _).
        destruct (generate_requests remote _ _ _ w _ Hc) as (_ & _ & He).
        destruct (He e w' Hr) as [->| ->]; vm_compute; discriminate.
    + destruct (generate_reject remote _ default _ w Hc) as (-> & _).
      unfold validationMessage. destruct (sourceImage s);
        vm_compute; discriminate.
Qed.

Lemma client_guard_is_unreachable_witness :
  let s := fst (run decliningRemote describedBackground emptyState []) in
  clientCall decliningRemote background default s <> None /\
  bgChangeError (fst (handleGenerateBgChange decliningRemote s [])) =
    Some changeBackground_failed.
Proof.
  intro s.
  destruct (client_guard_is_unreachable decliningRemote s []) as (_ & H & _).
  split; [apply H; reflexivity|]. vm_compute. reflexivity.
Defined.

(** ** Events and the two histories *)

Lemma step_leaves_other_histories
    (remote : World -> GenerateContentParameters ->
              Completion GenerateContentResponse)
    (e : Event) (s : AppState) (w : World) (m : AppMode) :
  concerns e s m = false ->
  historyOf m (fst (step remote e s w)) = historyOf m s /\
  cursorOf m (fst (step remote e s w)) = cursorOf m s.
Proof.
  intro H. destruct e; cbn [step fst];
    try (destruct m; state_simpl; split; reflexivity).
  - destruct m; [discriminate|].
    destruct (generate_frame remote tryon fit s w) as (_ & Ho & _).
    destruct (Ho background ltac:(discriminate)) as (H1 & H2 & _). auto.
  - destruct m; [|discriminate].
    destruct (generate_frame remote background default s w) as (_ & Ho & _).
    destruct (Ho tryon ltac:(discriminate)) as (H1 & H2 & _). auto.
  - destruct (handleUndo_frame s) as (_ & Hh & _ & Hc & _).
    split; [apply Hh|]. apply Hc. intro Em.
    cbn [concerns] in H. destruct m; rewrite Em in H; discriminate.
  - destruct (handleRedo_frame s) as (_ & Hh & _ & Hc & _).
    split; [apply Hh|]. apply Hc. intro Em.
    cbn [concerns] in H. destruct m; rewrite Em in H; discriminate.
Qed.

(** X11.  The two histories do not interact: a generate changes entries
    and cursor of its own workflow only, undo and redo those of the
    selected workflow only, and switching mode, uploads, prompt edits and
    filter selection change no entries and no cursor; the error message
    and the loading flag of a workflow an event does not concern stay as
    they are too. *)
Theorem histories_are_independent
    (remote : World -> GenerateContentParameters ->
              Completion GenerateContentResponse)
    (e : Event) (s : AppState) (w : World) (m : AppMode) :
  concerns e s m = false ->
  historyOf m (fst (step remote e s w)) = historyOf m s /\
  cursorOf m (fst (step remote e s w)) = cursorOf m s /\
  errorOf m (fst (step remote e s w)) = errorOf m s /\
  loadingOf m (fst (step remote e s w)) = loadingOf m s.
Proof.
  intro H. destruct (step_leaves_other_histories remote e s w m H) as [Hh Hc].
  split; [exact Hh|]. split; [exact Hc|].
  destruct e; cbn [step fst];
    try (destruct m; state_simpl; split; reflexivity).
  - destruct m; [discriminate|].
    destruct (generate_frame remote tryon fit s w) as (_ & Ho & _).
    destruct (Ho background ltac:(discriminate)) as (_ & _ & H1 & H2). auto.
  - destruct m; [|discriminate].
    destruct (generate_frame remote background default s w) as (_ & Ho & _).
    destruct (Ho tryon ltac:(discriminate)) as (_ & _ & H1 & H2). auto.
  - apply (proj1 (proj2 (proj2 (handleUndo_frame s)))).
  - apply (proj1 (proj2 (proj2 (handleRedo_frame s)))).
Qed.

Lemma histories_are_independent_witness :
  let s := fst (run answeringRemote twoResultsOneUndo emptyState []) in
  historyOf tryon (fst (step answeringRemote (SelectMode background) s [])) =
    historyOf tryon s /\
  cursorOf tryon (fst (step answeringRemote (SelectMode background) s [])) =
    cursorOf tryon s.
Proof.
  intro s.
  destruct (histories_are_independent answeringRemote (SelectMode background)
              s [] tryon eq_refl) as (Hh & Hc & _).
  split; [exact Hh|exact Hc].
Defined.

(** X12.  In a workflow whose cursor is in range no event rewrites an
    entry at or below the cursor, and no event makes the entry list longer
    by more than one; the entry list changes only by a generate of that
    workflow that ends without error. *)
Theorem entries_up_to_cursor_are_kept
    (remote : World -> GenerateContentParameters ->
              Completion GenerateContentResponse)
    (e : Event) (s : AppState) (w : World) (m : AppMode) :
  cursorInRange (historyOf m s) (cursorOf m s) ->
  let s' := fst (step remote e s w) in
  (forall i, 0 <= i <= cursorOf m s ->
     lookup (historyOf m s') i = lookup (historyOf m s) i) /\
  JS.length (historyOf m s') <= JS.length (historyOf m s) + 1 /\
  (historyOf m s' <> historyOf m s ->
   isGenerate e = true /\ concerns e s m = true /\ errorOf m s' = None).
Proof.
  intros [Hlo Hhi] s'.
  assert (Hsame : historyOf m s' = historyOf m s ->
    (forall i, 0 <= i <= cursorOf m s ->
       lookup (historyOf m s') i = lookup (historyOf m s) i) /\
    JS.length (historyOf m s') <= JS.length (historyOf m s) + 1 /\
    (historyOf m s' <> historyOf m s ->
     isGenerate e = true /\ concerns e s m = true /\ errorOf m s' = None)).
  { intro E. rewrite E. split; [reflexivity|]. split; [lia|congruence]. }
  assert (Hgen : forall fit,
    s' = fst (generate remote m fit s w) ->
    isGenerate e = true -> concerns e s m = true ->
    (forall i, 0 <= i <= cursorOf m s ->
       lookup (historyOf m s') i = lookup (historyOf m s) i) /\
    JS.length (historyOf m s') <= JS.length (historyOf m s) + 1 /\
    (historyOf m s' <> historyOf m s ->
     isGenerate e = true /\ concerns e s m = true /\ errorOf m s' = None)).
  { intros fit Es Hg Hcn.
    destruct (clientCall remote m fit s) as [call|] eqn:Hc.
    - destruct (call w) as [[img|err] w'] eqn:Hr.
      + destruct (generate_success remote m fit s w call img w' Hc Hr)
          as (Hh & _ & Herr & _). rewrite <- Es in Hh, Herr.
        split; [|split; [|auto]].
        * intros i Hi. rewrite Hh, slice_prefix by lia.
          apply lookup_push_firstn; unfold JS.length in *; lia.
        * rewrite Hh, length_push, length_slice_prefix; lia.
      + destruct (generate_failure remote m fit s w call err w' Hc Hr)
          as (_ & _ & _ & Hs). rewrite <- Es in Hs.
        apply Hsame. apply (Hs m).
    - destruct (generate_reject remote m fit s w Hc) as (_ & _ & Hs).
      rewrite <- Es in Hs. apply Hsame. apply (Hs m). }
  destruct (concerns e s m) eqn:Hcn.
  - destruct e; try discriminate.
    + destruct m; [|discriminate]. apply (Hgen fit); reflexivity.
    + destruct m; [discriminate|]. apply (Hgen default); reflexivity.
    + apply Hsame. subst s'. cbn [step fst].
      apply (proj1 (proj2 (handleUndo_frame s))).
    + apply Hsame. subst s'. cbn [step fst].
      apply (proj1 (proj2 (handleRedo_frame s))).
  - apply Hsame. subst s'.
    apply (proj1 (step_leaves_other_histories remote e s w m Hcn)).
Qed.

Lemma entries_up_to_cursor_are_kept_witness :
  let s := fst (run answeringRemote twoResultsOneUndo emptyState []) in
  let w := snd (run answeringRemote twoResultsOneUndo emptyState []) in
  let s' := fst (step answeringRemote (GenerateTryOn looser) s w) in
  lookup (historyOf tryon s') 0 = Some (dataUrlPrefix ++ lit "R0") /\
  historyOf tryon s' <> historyOf tryon s.
Proof.
  intros s w s'.
  assert (Hr : cursorInRange (historyOf tryon s) (cursorOf tryon s))
    by (vm_compute; split; discriminate).
  destruct (entries_up_to_cursor_are_kept answeringRemote
              (GenerateTryOn looser) s w tryon Hr)
    as (Hk & _).
  split.
  - fold s' in Hk. rewrite (Hk 0); [vm_compute; reflexivity|].
    vm_compute. split; discriminate.
  - vm_compute. discriminate.
Defined.

(** X10.  Apart from switching mode, whenever an event changes the result
    image the active filter is back to [none]: a filter never carries over
    to another image of the same workflow. *)
Theorem filter_is_reset_with_the_image
    (remote : World -> GenerateContentParameters ->
              Completion GenerateContentResponse)
    (e : Event) (s : AppState) (w : World) :
  (forall m, e <> SelectMode m) ->
  resultImage (fst (step remote e s w)) <> resultImage s ->
  activeFilter (fst (step remote e s w)) = lit "none".
Proof.
  intros Hm Hne.
  assert (Hg : forall m fit,
            resultImage (fst (generate remote m fit s w)) <> resultImage s ->
            activeFilter (fst (generate remote m fit s w)) = lit "none").
  { intros m fit H.
    destruct (generate_frame remote m fit s w) as (Hmode & _ & Hnone & Hsome).
    destruct (clientCall remote m fit s) as [call|] eqn:Hc.
    - apply Hsome. discriminate.
    - exfalso. apply H.
      destruct (generate_reject remote m fit s w Hc) as (_ & _ & Hs).
      rewrite !resultImage_eq, Hmode.
      destruct (Hs (mode s)) as (-> & -> & _). reflexivity. }
  destruct e; cbn [step fst] in *;
    try (exfalso; apply Hne; unfold resultImage; state_simpl; reflexivity).
  - exfalso. apply (Hm m). reflexivity.
  - apply (Hg tryon fit Hne).
  - apply (Hg background default Hne).
  - destruct (handleUndo_frame s) as (_ & _ & _ & _ & [E|E]); [|exact E].
    rewrite E in Hne. congruence.
  - destruct (handleRedo_frame s) as (_ & _ & _ & _ & [E|E]); [|exact E].
    rewrite E in Hne. congruence.
Qed.

Lemma filter_is_reset_with_the_image_witness :
  let s := fst (run answeringRemote
                  (twoResultsOneUndo ++ [SelectFilter (lit "grayscale(1) contrast(1.2)")])
                  emptyState []) in
  activeFilter s = lit "grayscale(1) contrast(1.2)" /\
  activeFilter (fst (step answeringRemote Redo s [])) = lit "none".
Proof.
  intro s. split; [vm_compute; reflexivity|].
  apply (filter_is_reset_with_the_image answeringRemote Redo s []).
  - discriminate.
  - vm_compute. discriminate.
Defined.


(** ** Errors, loading flags and requests along a session *)

Lemma step_keeps_errors
    (remote : World -> GenerateContentParameters ->
              Completion GenerateContentResponse)
    (e : Event) (s : AppState) (w : World) :
  isGenerate e = false ->
  forall m,
    errorOf m (fst (step remote e s w)) = errorOf m s /\
    loadingOf m (fst (step remote e s w)) = loadingOf m s.
Proof.
  intros H m. destruct e; try discriminate; cbn [step fst];
    try (destruct m; state_simpl; split; reflexivity).
  - apply (proj1 (proj2 (proj2 (handleUndo_frame s)))).
  - apply (proj1 (proj2 (proj2 (handleRedo_frame s)))).
Qed.

(** X13.  Only a generate changes an error message: through any sequence
    of undo, redo, uploads, prompt edits, filter selections and mode
    switches the error of each workflow stays, and while the selected
    workflow has a non-empty error no result image is shown. *)
Theorem error_hides_image_until_generate
    (remote : World -> GenerateContentParameters ->
              Completion GenerateContentResponse)
    (es : list Event) (s : AppState) (w : World) :
  forallb (fun e => negb (isGenerate e)) es = true ->
  let s' := fst (run remote es s w) in
  (forall m, errorOf m s' = errorOf m s) /\
  (forall message,
     errorOf (mode s') s = Some message -> message <> [] ->
     error s' = Some message /\ shownImage s' = None).
Proof.
  intros Hes s'.
  assert (He : forall m, errorOf m s' = errorOf m s).
  { subst s'. revert s w. induction es as [|e es IH]; intros s w m;
      cbn [run]; [reflexivity|].
    cbn [forallb] in Hes. apply andb_true_iff in Hes. destruct Hes as [H1 H2].
    apply negb_true_iff in H1.
    pose proof (step_keeps_errors remote e s w H1 m) as [Hk _].
    destruct (step remote e s w) as [s1 w1]. cbn [fst] in Hk.
    rewrite (IH H2 s1 w1 m). exact Hk. }
  split; [exact He|]. intros message Hm Hne.
  assert (Herr : error s' = Some message).
  { unfold error. specialize (He (mode s')). unfold errorOf in He, Hm.
    destruct (mode s'); congruence. }
  split; [exact Herr|]. unfold shownImage. rewrite Herr.
  destruct message; [congruence|]. cbn [falsy truthy negb].
  rewrite andb_false_r. reflexivity.
Qed.

Lemma error_hides_image_until_generate_witness :
  let s := fst (run decliningRemote
                  [ ModelImageChange (Some samplePhoto);
                    ClothingImageChange (Some sampleOutfit);
                    GenerateTryOn default ] emptyState []) in
  let s' := fst (run decliningRemote [Undo; Redo; SelectFilter (lit "none")] s []) in
  errorOf tryon s' = Some dressModel_failed /\ shownImage s' = None.
Proof.
  intros s s'.
  destruct (error_hides_image_until_generate decliningRemote
              [Undo; Redo; SelectFilter (lit "none")] s [] eq_refl)
    as [He Hs].
  fold s' in He, Hs. split.
  - rewrite (He tryon). vm_compute. reflexivity.
  - apply (Hs dressModel_failed); [vm_compute; reflexivity|discriminate].
Defined.

(** X18.  The loading flags never stay set: if none is set before a
    sequence of events none is set after it, and an accepted generate ends
    with the flag of its workflow cleared whether the client returned an
    image or failed. *)
Theorem loading_flags_are_cleared
    (remote : World -> GenerateContentParameters ->
              Completion GenerateContentResponse)
    (es : list Event) (s : AppState) (w : World) :
  isLoading s = false ->
  isLoading (fst (run remote es s w)) = false /\
  (forall m fit s0 w0,
     clientCall remote m fit s0 <> None ->
     loadingOf m (fst (generate remote m fit s0 w0)) = false).
Proof.
  intro H. split.
  - revert s w H. induction es as [|e es IH]; intros s w H; cbn [run];
      [exact H|].
    assert (Hs : isLoading (fst (step remote e s w)) = false).
    { unfold isLoading in *. apply orb_false_iff in H. destruct H as [Ht Hb].
      apply orb_false_iff.
      assert (Hg : forall m fit,
                forall m', loadingOf m' (fst (generate remote m fit s w)) = false).
      { intros m fit m'.
        destruct (generate_frame remote m fit s w) as (_ & Ho & Hn & Hsome).
        destruct (AppMode_eq_dec m' m) as [->|Hne].
        - destruct (clientCall remote m fit s) eqn:Hc.
          + apply Hsome. discriminate.
          + destruct (Hn eq_refl) as [_ ->]. destruct m; assumption.
        - destruct (Ho m' Hne) as (_ & _ & _ & ->). destruct m'; assumption. }
      destruct (isGenerate e) eqn:Eg.
      - destruct e; try discriminate; cbn [step].
        + split; [apply (Hg tryon fit tryon)|apply (Hg tryon fit background)].
        + split; [apply (Hg background default tryon)
                 |apply (Hg background default background)].
      - destruct (step_keeps_errors remote e s w Eg tryon) as [_ H1].
        destruct (step_keeps_errors remote e s w Eg background) as [_ H2].
        unfold loadingOf in H1, H2. rewrite H1, H2. auto. }
    destruct (step remote e s w) as [s1 w1]. apply IH. exact Hs.
  - intros m fit s0 w0 Hc.
    apply (proj2 (proj2 (proj2 (generate_frame remote m fit s0 w0))) Hc).
Qed.

Lemma loading_flags_are_cleared_witness :
  isLoading (fst (run tiringRemote (threeResultsTwoUndos ++ [GenerateTryOn default])
                    emptyState [])) = false.
Proof.
  apply (loading_flags_are_cleared tiringRemote
           (threeResultsTwoUndos ++ [GenerateTryOn default]) emptyState []).
  reflexivity.
Defined.

Lemma step_requests
    (remote : World -> GenerateContentParameters ->
              Completion GenerateContentResponse)
    (e : Event) (s : AppState) (w : World) :
  exists sent,
    requestsOf (snd (step remote e s w)) = requestsOf w ++ sent /\
    (List.length sent <= if isGenerate e then 1 else 0)%nat.
Proof.
  assert (Hg : forall m fit, exists sent,
            requestsOf (snd (generate remote m fit s w)) = requestsOf w ++ sent /\
            (List.length sent <= 1)%nat).
  { intros m fit. destruct (clientCall remote m fit s) as [call|] eqn:Hc.
    - destruct (generate_requests remote m fit s w call Hc) as (r & Hr & _).
      exists [r]. split; [exact Hr|]. cbn. lia.
    - destruct (generate_reject remote m fit s w Hc) as (_ & -> & _).
      exists []. rewrite app_nil_r. split; [reflexivity|]. cbn. lia. }
  destruct e; cbn [step snd isGenerate];
    try (exists []; rewrite app_nil_r; split; [reflexivity|cbn; lia]).
  - apply (Hg tryon fit).
  - apply (Hg background default).
Qed.

(** X15.  Requests are single attempts: a generate whose inputs are
    present sends exactly one request, whatever the remote answers; no
    other event sends any; so along a session the requests sent are at
    most as many as the generate events, and the earlier ones stay first
    in order. *)
Theorem one_request_per_generate
    (remote : World -> GenerateContentParameters ->
              Completion GenerateContentResponse)
    (es : list Event) (s : AppState) (w : World) :
  (exists sent,
     requestsOf (snd (run remote es s w)) = requestsOf w ++ sent /\
     (List.length sent <= List.length (List.filter isGenerate es))%nat) /\
  (forall m fit s0 w0,
     clientCall remote m fit s0 <> None ->
     exists request,
       requestsOf (snd (generate remote m fit s0 w0)) =
       requestsOf w0 ++ [request]) /\
  (forall m fit s0 w0,
     clientCall remote m fit s0 = None ->
     snd (generate remote m fit s0 w0) = w0).
Proof.
  split; [|split].
  - revert s w. induction es as [|e es IH]; intros s w; cbn [run].
    + exists []. rewrite app_nil_r. split; [reflexivity|cbn; lia].
    + destruct (step_requests remote e s w) as (sent1 & H1 & L1).
      destruct (step remote e s w) as [s1 w1]. cbn [snd] in H1.
      destruct (IH s1 w1) as (sent2 & H2 & L2).
      exists (sent1 ++ sent2). rewrite H2, H1, app_assoc.
      split; [reflexivity|]. rewrite length_app. cbn [List.filter].
      destruct (isGenerate e); cbn [List.length]; lia.
  - intros m fit s0 w0 Hc.
    destruct (clientCall remote m fit s0) as [call|] eqn:E; [|congruence].
    destruct (generate_requests remote m fit s0 w0 call E) as (r & Hr & _).
    exists r. exact Hr.
  - intros m fit s0 w0 Hc.
    apply (proj1 (proj2 (generate_reject remote m fit s0 w0 Hc))).
Qed.

Lemma one_request_per_generate_witness :
  let s := fst (run decliningRemote
                  [ ModelImageChange (Some samplePhoto);
                    ClothingImageChange (Some sampleOutfit) ] emptyState []) in
  exists request,
    requestsOf (snd (generate decliningRemote tryon default s [])) =
    [] ++ [request].
Proof.
  intro s.
  destruct (one_request_per_generate decliningRemote [] s []) as (_ & H & _).
  apply (H tryon default s []). discriminate.
Defined.

(** X17.  The active filter is always one of the styles of the filter
    table, as long as filters are selected through the rendered filter
    buttons: an event that is not a filter selection leaves the active
    filter as it is or resets it to [none], and [none] is the style of the
    first entry of the table. *)
Theorem active_filter_is_offered
    (remote : World -> GenerateContentParameters ->
              Completion GenerateContentResponse)
    (es : list Event) (s : AppState) (w : World) :
  (Forall offered es ->
   In (activeFilter s) (map style filters) ->
   In (activeFilter (fst (run remote es s w))) (map style filters)) /\
  (forall e s0 w0,
     (forall style', e <> SelectFilter style') ->
     activeFilter (fst (step remote e s0 w0)) = activeFilter s0 \/
     activeFilter (fst (step remote e s0 w0)) = lit "none") /\
  nth_error (map style filters) 0 = Some (lit "none").
Proof.
  assert (Hnone : In (lit "none") (map style filters)) by (left; reflexivity).
  assert (Hreset : forall e s0 w0,
            (forall style', e <> SelectFilter style') ->
            activeFilter (fst (step remote e s0 w0)) = activeFilter s0 \/
            activeFilter (fst (step remote e s0 w0)) = lit "none").
  { intros e s0 w0 He.
    assert (Hg : forall m fit,
              activeFilter (fst (generate remote m fit s0 w0)) =
                activeFilter s0 \/
              activeFilter (fst (generate remote m fit s0 w0)) = lit "none").
    { intros m fit.
      destruct (generate_frame remote m fit s0 w0) as (_ & _ & Hn & Hsome).
      destruct (clientCall remote m fit s0) eqn:Hc.
      - right. apply (proj1 (Hsome ltac:(discriminate))).
      - left. apply (proj1 (Hn eq_refl)). }
    destruct e; cbn [step fst]; try (state_simpl; left; reflexivity).
    - exfalso. eapply He. reflexivity.
    - apply (Hg tryon fit).
    - apply (Hg background default).
    - destruct (handleUndo_frame s0) as (_ & _ & _ & _ & [H|H]);
        [left; rewrite H; reflexivity|right; exact H].
    - destruct (handleRedo_frame s0) as (_ & _ & _ & _ & [H|H]);
        [left; rewrite H; reflexivity|right; exact H]. }
  split; [|split; [exact Hreset|reflexivity]].
  intro Hes. revert s w. induction Hes as [|e es He _ IH]; intros s w Hin;
    cbn [run]; [exact Hin|].
  assert (Hs : In (activeFilter (fst (step remote e s w))) (map style filters)).
  { destruct e;
      match goal with
      | |- In (activeFilter (fst (step remote ?e s w))) _ =>
          first
            [ destruct (Hreset e s w ltac:(intros ?; discriminate))
                as [-> | ->]; [exact Hin|exact Hnone]
            | cbn [step fst]; state_simpl; exact He ]
      end. }
  destruct (step remote e s w) as [s1 w1]. apply IH. exact Hs.
Qed.

Lemma active_filter_is_offered_witness :
  In (activeFilter
        (fst (run answeringRemote
                (twoResultsOneUndo ++
                 [SelectFilter (lit "grayscale(1) contrast(1.2)"); Redo])
                emptyState [])))
     (map style filters).
Proof.
  apply (proj1 (active_filter_is_offered answeringRemote _ _ _)).
  - cbn [twoResultsOneUndo app].
    repeat (apply Forall_cons;
            [first [exact I | right; right; left; reflexivity]|]).
    apply Forall_nil.
  - left. reflexivity.
Defined.

(** ** What the generation client returns *)

Lemma find_first_image (ps : list ResponsePart) (p : ResponsePart) :
  find (fun part => match inlineData part with Some _ => true | None => false end)
    ps = Some p <->
  exists before after blob,
    ps = before ++ p :: after /\ inlineData p = Some blob /\
    Forall (fun part => inlineData part = None) before.
Proof.
  induction ps as [|q ps IH]; cbn [find].
  - split; [discriminate|]. intros (before & after & blob & H & _).
    destruct before; discriminate.
  - destruct (inlineData q) as [bq|] eqn:Eq.
    + split.
      * intro H. injection H as <-. exists [], ps, bq. repeat split; auto.
      * intros (before & after & blob & H & Hb & Hf).
        destruct before as [|x before]; cbn [app] in H.
        -- injection H as -> _. reflexivity.
        -- injection H as -> _. inversion Hf; congruence.
    + rewrite IH. split.
      * intros (before & after & blob & -> & Hb & Hf).
        exists (q :: before), after, blob. repeat split; auto.
      * intros (before & after & blob & H & Hb & Hf).
        destruct before as [|x before]; cbn [app] in H.
        -- injection H as -> _. congruence.
        -- injection H as -> ->. exists before, after, blob.
           inversion Hf; auto.
Qed.

Lemma imageData_firstImage (r : GenerateContentResponse) (d : jsstring) :
  imageData r = Some d <-> firstImage r d.
Proof.
  unfold imageData, findImagePart, firstImage. split.
  - destruct (candidates r) as [[|c others]|] eqn:Er; cbn [nth_error];
      try discriminate.
    destruct (content c) as [ct|] eqn:Ec; [|discriminate].
    destruct (parts ct) as [ps|] eqn:Ep; [|discriminate].
    destruct (find _ ps) as [p|] eqn:Ef; [|discriminate].
    apply find_first_image in Ef.
    destruct Ef as (before & after & blob & -> & Hb & Hf).
    rewrite Hb. intro H. injection H as <-.
    exists c, others, ct, before, blob, (text p), after.
    split; [reflexivity|]. split; [exact Ec|]. split; [|auto].
    rewrite Ep. destruct p as [i t]. cbn [inlineData text] in *. subst i.
    reflexivity.
  - intros (c & others & ct & before & blob & t & after & Hr & Hc & Hp & Hf & Hd).
    rewrite Hr. cbn [nth_error]. rewrite Hc, Hp, <- Hd.
    assert (Ef : find (fun part => match inlineData part with
                                   | Some _ => true | None => false end)
                   (before ++ {| inlineData := Some blob; text := t |} :: after)
                 = Some {| inlineData := Some blob; text := t |}).
    { apply find_first_image. exists before, after, blob. auto. }
    rewrite Ef. reflexivity.
Qed.

(** X14.  [dressModel] returns a string exactly when the remote call
    resolves with a response whose first candidate has a part with inline
    data, and the string is the data of the first such part: parts before
    it without inline data are skipped, later parts and later candidates
    are not looked at.  The same holds for [changeBackground] once its
    guard is passed. *)
Theorem client_returns_first_image
    (remote : World -> GenerateContentParameters ->
              Completion GenerateContentResponse)
    (w : World) (d : jsstring) :
  (forall a b fit p,
     fst (dressModel remote a b fit p w) = Normal d <->
     exists r,
       remote (w ++ [Invoked (DressModel a b fit p)])
         (dressModel_request a b fit p) = Normal r /\
       firstImage r d) /\
  (forall src p bg,
     (negb (truthy p) || (JS.length (trim p) =? 0)) && isNull bg = false ->
     (fst (changeBackground remote src p bg w) = Normal d <->
      exists r,
        remote (w ++ [Invoked (ChangeBackground src p bg)])
          (changeBackground_request src p bg) = Normal r /\
        firstImage r d)).
Proof.
  split.
  - intros a b fit p. rewrite dressModel_run. cbv zeta. cbn [fst].
    destruct (remote _ _) as [r|e].
    + split.
      * intro H. exists r. split; [reflexivity|]. apply imageData_firstImage.
        destruct (imageData r); [congruence|discriminate].
      * intros (r' & Hr & Hf). injection Hr as <-.
        apply imageData_firstImage in Hf. rewrite Hf. reflexivity.
    + split; [discriminate|]. intros (r' & Hr & _). discriminate.
  - intros src p bg Hg. rewrite changeBackground_run. cbv zeta. rewrite Hg.
    cbn [fst].
    destruct (remote _ _) as [r|e].
    + split.
      * intro H. exists r. split; [reflexivity|]. apply imageData_firstImage.
        destruct (imageData r); [congruence|discriminate].
      * intros (r' & Hr & Hf). injection Hr as <-.
        apply imageData_firstImage in Hf. rewrite Hf. reflexivity.
    + split; [discriminate|]. intros (r' & Hr & _). discriminate.
Qed.

Lemma client_returns_first_image_witness :
  fst (changeBackground (typedRemote (lit "image/webp")) samplePhoto
         (lit "a beach") None []) = Normal (lit "AAEC").
Proof.
  destruct (client_returns_first_image (typedRemote (lit "image/webp")) []
              (lit "AAEC")) as [_ H].
  apply (H samplePhoto (lit "a beach") None eq_refl).
  eexists. split; [reflexivity|].
  exists {| content := Some
              {| parts := Some
                   [ {| inlineData := None;
                        text := Some (lit "Here is your image.") |};
                     {| inlineData :=
                          Some {| data := lit "AAEC";
                                  blob_mimeType := lit "image/webp" |};
                        text := None |} ] |} |}.
  exists [], {| parts := Some
                   [ {| inlineData := None;
                        text := Some (lit "Here is your image.") |};
                     {| inlineData :=
                          Some {| data := lit "AAEC";
                                  blob_mimeType := lit "image/webp" |};
                        text := None |} ] |}.
  exists [ {| inlineData := None; text := Some (lit "Here is your image.") |} ].
  exists {| data := lit "AAEC"; blob_mimeType := lit "image/webp" |}.
  exists None, [].
  repeat split; try reflexivity. constructor; [reflexivity|constructor].
Defined.

(** ** Download *)

(** X16.  [handleDownload] calls [downloadImage] exactly when there is a
    non-empty result image, with that image and the active filter, so the
    guard of [downloadImage] against an empty URL never fires; right after
    a successful generate of the selected workflow the download is the new
    entry, unfiltered, under the file name of the mode. *)
Theorem download_follows_generate
    (renderAndSave : ImageChanger.DownloadImageOptions -> Completion unit)
    (remote : World -> GenerateContentParameters ->
              Completion GenerateContentResponse)
    (m : AppMode) (fit : FitAdjustment) (s : AppState) (w : World)
    (call : M jsstring) (img : jsstring) (w' : World) :
  mode s = m ->
  clientCall remote m fit s = Some call ->
  call w = (Normal img, w') ->
  let s' := fst (generate remote m fit s w) in
  handleDownload s' =
    Some {| ImageChanger.imageUrl := lit "data:image/png;base64," ++ img;
            ImageChanger.filter := lit "none";
            ImageChanger.filename :=
              match m with
              | tryon => lit "virtual-try-on.png"
              | background => lit "background-change.png"
              end |} /\
  (forall s0 options,
     handleDownload s0 = Some options ->
     resultImage s0 = Some (ImageChanger.imageUrl options) /\
     ImageChanger.imageUrl options <> [] /\
     ImageChanger.filter options = activeFilter s0 /\
     ImageChanger.downloadImage renderAndSave options = renderAndSave options) /\
  (forall s0,
     handleDownload s0 = None <->
     resultImage s0 = None \/ resultImage s0 = Some []).
Proof.
  intros Hm Hc Hr s'. split; [|split].
  - destruct (generate_success remote m fit s w call img w' Hc Hr)
      as (Hh & Hcur & _).
    destruct (generate_frame remote m fit s w) as (Hmode & _ & _ & Hsome).
    destruct (Hsome ltac:(congruence)) as [Hf _].
    fold s' in Hh, Hcur, Hmode, Hf.
    assert (Hres : resultImage s' = Some (dataUrlPrefix ++ img)).
    { rewrite resultImage_eq, Hmode, Hm, Hcur, Hh, length_push, Z.add_simpl_r.
      apply lookup_push_last. }
    unfold handleDownload. rewrite Hres, Hf, Hmode, Hm. reflexivity.
  - intros s0 options H. unfold handleDownload in H.
    destruct (resultImage s0) as [[|c url]|]; cbn [falsy truthy negb] in H;
      try discriminate.
    injection H as <-. cbn [ImageChanger.imageUrl ImageChanger.filter].
    repeat split; try reflexivity. discriminate.
  - intro s0. unfold handleDownload.
    destruct (resultImage s0) as [[|c url]|]; cbn [falsy truthy negb].
    + split; auto.
    + split; [discriminate|]. intros [H|H]; discriminate.
    + split; auto.
Qed.

Lemma download_follows_generate_witness :
  let s := fst (run answeringRemote twoResultsOneUndo emptyState []) in
  let w := snd (run answeringRemote twoResultsOneUndo emptyState []) in
  handleDownload (fst (generate answeringRemote tryon looser s w)) =
    Some {| ImageChanger.imageUrl := lit "data:image/png;base64,R2";
            ImageChanger.filter := lit "none";
            ImageChanger.filename := lit "virtual-try-on.png" |}.
Proof.
  intros s w.
  pose (call := dressModel answeringRemote samplePhoto sampleOutfit looser []).
  assert (Hc : clientCall answeringRemote tryon looser s = Some call)
    by reflexivity.
  assert (Hr : call w = (Normal (lit "R2"), snd (call w)))
    by (vm_compute; reflexivity).
  exact (proj1 (download_follows_generate (fun _ => Normal tt) answeringRemote
                  tryon looser s w call _ _ eq_refl Hc Hr)).
Defined.

(** ** Further sample runs *)

Lemma failed_upload_empties_slot_witness :
  let unreadable := {| type := lit "image/png";
                       readAsDataURL := LoadedString (lit "data:") |} in
  let s := fst (run answeringRemote twoResultsOneUndo emptyState []) in
  let s' := applyChange setModelImage
              (ImageUploader.handleFileChange (Some unreadable)) s in
  modelImage s = Some samplePhoto /\
  modelImage s' = None /\
  generateTryOnDisabled s' = true /\
  snd (handleGenerateTryOn answeringRemote tighter s' []) = [].
Proof.
  intros unreadable s s'. split; [reflexivity|].
  pose proof (failed_upload_empties_slot answeringRemote unreadable s tighter [])
    as [H _].
  cbv zeta in H. fold s' in H.
  change (fileToBase64 unreadable) with
    (@Throw Base64File (ErrorObject invalidDataUrl)) in H.
  destruct H as (H1 & H2 & H3 & _). auto.
Defined.

Lemma mounted_history_shows_an_entry_witness :
  let storage := tryOnStorage (Some twoEntriesText) (Some (lit "7")) in
  exists tryOn bg : list jsstring * Z,
    useHistoryState sampleRuntime storage
      TRYON_HISTORY_KEY TRYON_HISTORY_INDEX_KEY =
      (arrayValue (fst tryOn), numberValue (Some (snd tryOn))) /\
    useHistoryState sampleRuntime storage
      BG_HISTORY_KEY BG_HISTORY_INDEX_KEY =
      (arrayValue (fst bg), numberValue (Some (snd bg))) /\
    let s := fst (run answeringRemote [SelectMode background; SelectMode tryon]
                    (initialState tryOn bg) []) in
    (resultImage s = None <-> historyOf (mode s) s = []).
Proof.
  intro storage.
  assert (Ht : storesEntries sampleRuntime storage TRYON_HISTORY_KEY).
  { right. right. exists [lit "a"; lit "b"]. reflexivity. }
  assert (Hb : storesEntries sampleRuntime storage BG_HISTORY_KEY).
  { exact I. }
  destruct (mounted_history_shows_an_entry sampleRuntime answeringRemote
              storage Ht Hb) as (tryOn & bg & E1 & E2 & H).
  exists tryOn, bg. split; [exact E1|]. split; [exact E2|].
  exact (proj2 (H [SelectMode background; SelectMode tryon] [])).
Defined.
